(** * docs-to-quiz: text extraction and quiz generation

    A shallow embedding of [src/utils/fileProcessor.ts] (three revisions:
    the pdf-lib one and two pdf.js ones) and of the [generateQuiz] handler
    of the [QuizGenerator] component, followed by the properties of the
    specification that were checked against them.

    Layout: JavaScript strings, JSON values and [JSON.parse], the effect
    monad (event trace + exceptions), the file processor, the quiz
    generator; then the lemmas. *)

From Stdlib Require Import String Ascii List Bool Arith ZArith NArith Lia.
From Stdlib Require Import DecimalString.
Import ListNotations.

Set Implicit Arguments.

(* ================================================================== *)
(** ** JavaScript strings *)
(* ================================================================== *)

(** Text that flows through the program (document text, prompts, the remote
    reply, JSON string values) is a sequence of UTF-16 code units. *)
Definition jsstring := list N.

(** A literal of the source, as code units. *)
Definition js (s : string) : jsstring :=
  map N_of_ascii (list_ascii_of_string s).

Arguments js : simpl never.

Definition jsstring_eqb (a b : jsstring) : bool :=
  if list_eq_dec N.eq_dec a b then true else false.

(** [File.name] and [File.type] are the only strings whose case is mapped
    ([toLowerCase]); they are modelled over the code units U+0000..U+00FF,
    where the case mapping below is exactly the one of ECMAScript. *)
Definition lower_unit (c : ascii) : ascii :=
  let n := nat_of_ascii c in
  if ((65 <=? n) && (n <=? 90))%nat then ascii_of_nat (n + 32)
  else if ((192 <=? n) && (n <=? 222) && negb (n =? 215))%nat
       then ascii_of_nat (n + 32)
  else c.

Fixpoint toLowerCase (s : string) : string :=
  match s with
  | EmptyString => EmptyString
  | String c r => String (lower_unit c) (toLowerCase r)
  end.

(** [s.endsWith(suffix)]: [s] itself, or what is left of it after dropping
    some leading units, is [suffix]. *)
Fixpoint endsWith (s suffix : string) : bool :=
  String.eqb s suffix
  || match s with
     | EmptyString => false
     | String _ r => endsWith r suffix
     end.

(** ECMAScript WhiteSpace and LineTerminator code units, the ones
    [String.prototype.trim] strips. *)
Definition is_js_space (c : N) : bool :=
  (  (9 <=? c) && (c <=? 13)          (* TAB LF VT FF CR *)
  || (c =? 32) || (c =? 160)          (* SP, NBSP *)
  || (c =? 5760)                      (* U+1680 *)
  || ((8192 <=? c) && (c <=? 8202))   (* U+2000..U+200A *)
  || (c =? 8232) || (c =? 8233)       (* LS, PS *)
  || (c =? 8239) || (c =? 8287)       (* U+202F, U+205F *)
  || (c =? 12288) || (c =? 65279)     (* U+3000, U+FEFF *)
  )%N.

Fixpoint trimStart (s : jsstring) : jsstring :=
  match s with
  | c :: r => if is_js_space c then trimStart r else s
  | [] => []
  end.

Definition trimEnd (s : jsstring) : jsstring := rev (trimStart (rev s)).

Definition trim (s : jsstring) : jsstring := trimEnd (trimStart s).

(** Truthiness of a string: non-empty. *)
Definition nonempty (s : jsstring) : bool :=
  match s with [] => false | _ => true end.

(** [Array.prototype.join] on an array of strings. *)
Fixpoint join (sep : jsstring) (l : list jsstring) : jsstring :=
  match l with
  | [] => []
  | [x] => x
  | x :: r => x ++ sep ++ join sep r
  end.

(** Decimal rendering of a non-negative integer-valued number (what a
    template literal prints for a count below 10^21). *)
Definition dec (n : nat) : jsstring :=
  js (NilEmpty.string_of_uint (Nat.to_uint n)).
Arguments dec : simpl never.

(* ================================================================== *)
(** ** JSON values and [JSON.parse] *)
(* ================================================================== *)

(** A JSON number literal, kept exactly: [(-1)^neg * mant * 10^exp10].
    JavaScript rounds it to the nearest double; the program only asks for
    its type and its truthiness, both decided below on the exact value. *)
Record number := mkNumber { num_neg : bool; num_mant : N; num_exp10 : Z }.

#[warnings="-register-all"]
Inductive json :=
| JNull
| JBool (b : bool)
| JNum (n : number)
| JStr (s : jsstring)
| JArr (l : list json)
| JObj (m : list (jsstring * json)).   (* members in source order *)

(** A JavaScript value reached from parsed JSON: [None] is [undefined]. *)
Definition jsvalue := option json.

(** The double nearest to the literal is (+/-)0 exactly when its magnitude
    is at most 2^-1075, half the least subnormal (ties go to even, i.e. 0). *)
Definition rounds_to_zero (n : number) : bool :=
  (num_mant n =? 0)%N
  || ((num_exp10 n <? 0)%Z
      && (Z.of_N (num_mant n) * 2 ^ 1075 <=? 10 ^ (- num_exp10 n))%Z).

(** ToBoolean. *)
Definition truthy (v : jsvalue) : bool :=
  match v with
  | None => false
  | Some JNull => false
  | Some (JBool b) => b
  | Some (JNum n) => negb (rounds_to_zero n)
  | Some (JStr s) => nonempty s
  | Some (JArr _) => true
  | Some (JObj _) => true
  end.

(** Own property of an object created by [JSON.parse]: with duplicate
    names the last member wins. *)
Fixpoint lookup (k : jsstring) (m : list (jsstring * json)) : jsvalue :=
  match m with
  | [] => None
  | (k', v) :: r =>
      match lookup k r with
      | Some w => Some w
      | None => if jsstring_eqb k k' then Some v else None
      end
  end.

(** [v.k] for a non-nullish [v] and a name [k] that no prototype defines
    (the program reads candidates, content, parts, text, question, options,
    correctAnswerIndex and hint): only objects have it. *)
Definition prop (k : string) (v : json) : jsvalue :=
  match v with
  | JObj m => lookup (js k) m
  | _ => None
  end.

(** [v[0]] for a non-nullish [v]. *)
Definition index0 (v : json) : jsvalue :=
  match v with
  | JArr l => nth_error l 0
  | JObj m => lookup (js "0") m
  | JStr (c :: _) => Some (JStr [c])
  | _ => None
  end.

(** Optional chaining [v?.f]: short-circuits to [undefined] on null and
    [undefined]. *)
Definition opt_chain (f : json -> jsvalue) (v : jsvalue) : jsvalue :=
  match v with
  | None => None
  | Some JNull => None
  | Some w => f w
  end.

Definition isArray (v : jsvalue) : bool :=
  match v with Some (JArr _) => true | _ => false end.

Definition isNumber (v : jsvalue) : bool :=
  match v with Some (JNum _) => true | _ => false end.

(** *** The parser *)

Inductive parsed (A : Type) :=
| Parsed (a : A) (rest : jsstring)
| SyntaxError
| OutOfFuel.
Arguments SyntaxError {A}.
Arguments OutOfFuel {A}.

Definition on_parsed {A B} (f : A -> B) (p : parsed A) : parsed B :=
  match p with
  | Parsed a r => Parsed (f a) r
  | SyntaxError => SyntaxError
  | OutOfFuel => OutOfFuel
  end.

(** JSON whitespace: space, tab, line feed, carriage return. *)
Definition is_json_ws (c : N) : bool :=
  ((c =? 32) || (c =? 9) || (c =? 10) || (c =? 13))%N.

Fixpoint skip_ws (s : jsstring) : jsstring :=
  match s with
  | c :: r => if is_json_ws c then skip_ws r else s
  | [] => []
  end.

Definition digit_val (c : N) : option N :=
  if ((48 <=? c) && (c <=? 57))%N then Some (c - 48)%N else None.

Definition hex_val (c : N) : option N :=
  if ((48 <=? c) && (c <=? 57))%N then Some (c - 48)%N
  else if ((65 <=? c) && (c <=? 70))%N then Some (c - 55)%N
  else if ((97 <=? c) && (c <=? 102))%N then Some (c - 87)%N
  else None.

Fixpoint take_digits (s : jsstring) : list N * jsstring :=
  match s with
  | c :: r =>
      match digit_val c with
      | Some d => let (ds, r') := take_digits r in (d :: ds, r')
      | None => ([], s)
      end
  | [] => ([], [])
  end.

Definition digits_value (ds : list N) : N :=
  fold_left (fun a d => 10 * a + d)%N ds 0%N.

(** int: [0] alone, or a non-zero digit followed by digits. *)
Definition parse_int (s : jsstring) : parsed (list N) :=
  match s with
  | c :: r =>
      match digit_val c with
      | Some d =>
          if (d =? 0)%N then Parsed [0%N] r
          else let (ds, r') := take_digits r in Parsed (d :: ds) r'
      | None => SyntaxError
      end
  | [] => SyntaxError
  end.

(** frac: nothing, or [.] and at least one digit. *)
Definition parse_frac (s : jsstring) : parsed (list N) :=
  match s with
  | c :: r =>
      if (c =? 46)%N then
        match take_digits r with
        | ([], _) => SyntaxError
        | (ds, r') => Parsed ds r'
        end
      else Parsed [] s
  | [] => Parsed [] s
  end.

(** The digits of an exponent, at least one, with the sign [sg]. *)
Definition exp_digits (sg : Z) (s : jsstring) : parsed Z :=
  match take_digits s with
  | ([], _) => SyntaxError
  | (ds, r) => Parsed (sg * Z.of_N (digits_value ds))%Z r
  end.

(** exp: nothing, or [e]/[E], an optional sign and at least one digit. *)
Definition parse_exp (s : jsstring) : parsed Z :=
  match s with
  | c :: r =>
      if (c =? 101)%N || (c =? 69)%N then
        match r with
        | sg :: r' =>
            if (sg =? 43)%N then exp_digits 1 r'
            else if (sg =? 45)%N then exp_digits (-1) r'
            else exp_digits 1 r
        | [] => SyntaxError
        end
      else Parsed 0%Z s
  | [] => Parsed 0%Z s
  end.

Definition parse_number (s : jsstring) : parsed number :=
  let (neg, s1) := match s with
                   | c :: r => if (c =? 45)%N then (true, r) else (false, s)
                   | [] => (false, s)
                   end in
  match parse_int s1 with
  | Parsed ids s2 =>
      match parse_frac s2 with
      | Parsed fds s3 =>
          match parse_exp s3 with
          | Parsed e s4 =>
              Parsed (mkNumber neg (digits_value (ids ++ fds))
                               (e - Z.of_nat (length fds))) s4
          | SyntaxError => SyntaxError
          | OutOfFuel => OutOfFuel
          end
      | SyntaxError => SyntaxError
      | OutOfFuel => OutOfFuel
      end
  | SyntaxError => SyntaxError
  | OutOfFuel => OutOfFuel
  end.

(** The characters of a string after its opening quote, up to and including
    the closing quote. *)
Fixpoint string_body (s : jsstring) : parsed jsstring :=
  match s with
  | [] => SyntaxError
  | c :: r =>
      if (c =? 34)%N then Parsed [] r
      else if (c =? 92)%N then
        match r with
        | [] => SyntaxError
        | e :: r1 =>
            let simple (u : N) := on_parsed (cons u) (string_body r1) in
            if (e =? 34)%N then simple 34%N          (* escaped quote *)
            else if (e =? 92)%N then simple 92%N     (* escaped backslash *)
            else if (e =? 47)%N then simple 47%N     (* escaped slash *)
            else if (e =? 98)%N then simple 8%N      (* backslash b *)
            else if (e =? 102)%N then simple 12%N    (* backslash f *)
            else if (e =? 110)%N then simple 10%N    (* backslash n *)
            else if (e =? 114)%N then simple 13%N    (* backslash r *)
            else if (e =? 116)%N then simple 9%N     (* backslash t *)
            else if (e =? 117)%N then                (* backslash u and four hex digits *)
              match r1 with
              | h1 :: h2 :: h3 :: h4 :: r5 =>
                  match hex_val h1, hex_val h2, hex_val h3, hex_val h4 with
                  | Some a, Some b, Some c', Some d =>
                      on_parsed (cons (((a * 16 + b) * 16 + c') * 16 + d)%N)
                                (string_body r5)
                  | _, _, _, _ => SyntaxError
                  end
              | _ => SyntaxError
              end
            else SyntaxError
        end
      else if (c <? 32)%N then SyntaxError
      else on_parsed (cons c) (string_body r)
  end.

Fixpoint strip_prefix (p s : jsstring) : option jsstring :=
  match p with
  | [] => Some s
  | a :: p' =>
      match s with
      | b :: s' => if (a =? b)%N then strip_prefix p' s' else None
      | [] => None
      end
  end.

Definition parse_literal (s : jsstring) : parsed json :=
  match strip_prefix (js "true") s with
  | Some r => Parsed (JBool true) r
  | None =>
      match strip_prefix (js "false") s with
      | Some r => Parsed (JBool false) r
      | None =>
          match strip_prefix (js "null") s with
          | Some r => Parsed JNull r
          | None => SyntaxError
          end
      end
  end.

(** Recursive descent on the JSON grammar; every recursive call spends one
    unit of fuel, and [JSON_parse] below supplies enough of it. *)
Fixpoint parse_value (fuel : nat) (s : jsstring) : parsed json :=
  match fuel with
  | O => OutOfFuel
  | S f =>
      match skip_ws s with
      | [] => SyntaxError
      | c :: r =>
          if (c =? 91)%N then                           (* [ *)
            match skip_ws r with
            | c' :: r' =>
                if (c' =? 93)%N then Parsed (JArr []) r'
                else on_parsed JArr (parse_elements f (c' :: r'))
            | [] => SyntaxError
            end
          else if (c =? 123)%N then                     (* { *)
            match skip_ws r with
            | c' :: r' =>
                if (c' =? 125)%N then Parsed (JObj []) r'
                else on_parsed JObj (parse_members f (c' :: r'))
            | [] => SyntaxError
            end
          else if (c =? 34)%N then on_parsed JStr (string_body r)
          else if (c =? 45)%N || (match digit_val c with Some _ => true | None => false end)
               then on_parsed JNum (parse_number (c :: r))
          else parse_literal (c :: r)
      end
  end

with parse_elements (fuel : nat) (s : jsstring) : parsed (list json) :=
  match fuel with
  | O => OutOfFuel
  | S f =>
      match parse_value f s with
      | Parsed v r =>
          match skip_ws r with
          | c :: r' =>
              if (c =? 44)%N then on_parsed (cons v) (parse_elements f r')
              else if (c =? 93)%N then Parsed [v] r'
              else SyntaxError
          | [] => SyntaxError
          end
      | SyntaxError => SyntaxError
      | OutOfFuel => OutOfFuel
      end
  end

with parse_members (fuel : nat) (s : jsstring) : parsed (list (jsstring * json)) :=
  match fuel with
  | O => OutOfFuel
  | S f =>
      match skip_ws s with
      | c :: r =>
          if (c =? 34)%N then
            match string_body r with
            | Parsed k r1 =>
                match skip_ws r1 with
                | c1 :: r2 =>
                    if (c1 =? 58)%N then                (* : *)
                      match parse_value f r2 with
                      | Parsed v r3 =>
                          match skip_ws r3 with
                          | c3 :: r4 =>
                              if (c3 =? 44)%N
                              then on_parsed (cons (k, v)) (parse_members f r4)
                              else if (c3 =? 125)%N then Parsed [(k, v)] r4
                              else SyntaxError
                          | [] => SyntaxError
                          end
                      | SyntaxError => SyntaxError
                      | OutOfFuel => OutOfFuel
                      end
                    else SyntaxError
                | [] => SyntaxError
                end
            | SyntaxError => SyntaxError
            | OutOfFuel => OutOfFuel
            end
          else SyntaxError
      | [] => SyntaxError
      end
  end.

(** [JSON.parse(s)]: one value surrounded by whitespace; [None] stands for
    the SyntaxError it throws. *)
Definition JSON_parse (s : jsstring) : option json :=
  match parse_value (2 * length s + 1) s with
  | Parsed v r => match skip_ws r with [] => Some v | _ => None end
  | SyntaxError => None
  | OutOfFuel => None
  end.

(** A literal of the source that contains double quotes, written with
    apostrophes in their place. *)
Definition jsq (s : string) : jsstring :=
  map (fun c => if (c =? 39)%N then 34%N else c) (js s).
Arguments jsq : simpl never.


(* ================================================================== *)
(** ** Exceptions and observable events *)
(* ================================================================== *)

(** Where a TypeError can arise in [generateQuiz]. *)
Inductive type_error_site :=
| CandidatesOfNull      (* data.candidates with data === null *)
| MatchNotAFunction     (* generatedText.match on a truthy non-string *)
| QuestionOfNull.       (* q.question with q === null, inside every() *)

(** Which library call rejected. *)
Inductive library := PdfJs | PdfLibLoad | PdfLibGetPage | Mammoth.

(** The errors the program throws, one constructor per throw site (the
    message of the source is quoted next to each). *)
Inductive error :=
(* fileProcessor *)
| UnsupportedFileType (fileType : string)
    (* `Unsupported file type: ${fileType}` *)
| FailedToExtractText
    (* 'Failed to extract text from file. Please check the file format
       and try again.' *)
| FailedToProcessPDF
    (* 'Failed to process PDF file. ...' (the hint differs by revision) *)
| FailedToProcessDOCX
    (* 'Failed to process DOCX file. Please check the file format.' *)
| FailedToReadTextFile
    (* 'Failed to read text file' *)
| LibraryError (lib : library)
(* QuizGenerator *)
| NoTextExtracted
    (* 'No text could be extracted from the file' *)
| FetchRejected
| ApiError (status : N) (statusText : jsstring)
    (* `API Error: ${response.status} ${response.statusText}` *)
| BodyNotJson
    (* response.json() rejected *)
| TypeError (site : type_error_site)
| NoResponseFromAI
    (* 'No response from AI' *)
| InvalidResponseFormat
    (* 'Invalid response format from AI' *)
| JsonSyntaxError
    (* JSON.parse threw *)
| NoValidQuestions
    (* 'No valid questions generated' *)
| InvalidQuestionFormat.
    (* 'Generated questions have invalid format' *)

Inductive toast :=
| ProcessingDocument                (* "Processing document..." *)
| GeneratingQuiz                    (* "Generating quiz..." *)
| QuizGenerated (count : nat)       (* "Quiz generated successfully!" *)
| GenerationFailed (e : error).     (* "Generation failed", e.message *)

Inductive event :=
| ConsoleError (label : string) (e : error)
| SetIsGenerating (b : bool)
| ShowToast (t : toast)
| Fetch (url prompt : jsstring)     (* the one outbound POST *)
| ReadBody                          (* response.json() *)
| OnQuizGenerated (questions : list json).

(** Computations append events to a trace and either throw or return. *)
Definition M (A : Type) : Type := list event * (error + A).

Definition ret {A} (a : A) : M A := ([], inr a).

Definition throw {A} (e : error) : M A := ([], inl e).

Definition emit (ev : event) : M unit := ([ev], inr tt).

Definition bind {A B} (m : M A) (k : A -> M B) : M B :=
  match m with
  | (t, inl e) => (t, inl e)
  | (t, inr a) => let (t', r) := k a in (t ++ t', r)
  end.

(** [try { m } catch (error) { h error }]. *)
Definition try_catch {A} (m : M A) (h : error -> M A) : M A :=
  match m with
  | (t, inl e) => let (t', r) := h e in (t ++ t', r)
  | (t, inr a) => (t, inr a)
  end.

(** [try { m } finally { f }] for a finaliser that cannot throw. *)
Definition finally {A} (m : M A) (f : list event) : M A :=
  (fst m ++ f, snd m).

Notation "x <- m ;; k" := (bind m (fun x => k))
  (at level 61, m at next level, right associativity).
Notation "m ;; k" := (bind m (fun _ => k))
  (at level 61, right associativity).

(** The error kinds of the specification (section 7). A kind is assigned
    by the stage that raised the error, the way the specification files
    the SyntaxError of [JSON.parse] under MalformedResponse. *)
Inductive error_kind :=
| UnsupportedType | ExtractionFailure
| EmptyInput | NetworkFailure | MalformedResponse | ValidationFailure.

Definition kind_of (e : error) : error_kind :=
  match e with
  | UnsupportedFileType _ => UnsupportedType
  | FailedToExtractText | FailedToProcessPDF | FailedToProcessDOCX
  | FailedToReadTextFile | LibraryError _ => ExtractionFailure
  | NoTextExtracted => EmptyInput
  | FetchRejected | ApiError _ _ => NetworkFailure
  | BodyNotJson | TypeError CandidatesOfNull | NoResponseFromAI
  | TypeError MatchNotAFunction | InvalidResponseFormat
  | JsonSyntaxError => MalformedResponse
  | NoValidQuestions | TypeError QuestionOfNull
  | InvalidQuestionFormat => ValidationFailure
  end.

(* ================================================================== *)
(** ** The file processor *)
(* ================================================================== *)

Record File := mkFile {
  file_type : string;       (* file.type, the declared MIME type *)
  file_name : string;       (* file.name *)
  file_data : list N        (* the bytes behind file.arrayBuffer() *)
}.

(** pdf.js: a loaded document. [getPage i] stands for
    [(await (await pdf.getPage(i)).getTextContent()).items.map(item => item.str)];
    [None] when either promise rejects. *)
Record PDFDocumentProxy := mkProxy {
  numPages : nat;
  getPage : nat -> option (list jsstring)
}.

(** pdf-lib: a form field ([getText] is declared [string | undefined]) ... *)
Record PDFField := mkField {
  constructor_name : string;
  getText : option jsstring
}.

(** ... a page with its size ... *)
Record PDFPage := mkPage { width : number; height : number }.

(** ... and a loaded document. *)
Record PDFDocument := mkDoc {
  getFields : list PDFField;       (* pdfDoc.getForm().getFields() *)
  getPages : list PDFPage
}.

Definition getPageCount (d : PDFDocument) : nat := length (getPages d).

(** What the libraries and the platform answer on a given byte content;
    [None] is a rejected promise (or, for the FileReader, [onerror]). *)
Record Libs := mkLibs {
  pdfjs_getDocument : list N -> option PDFDocumentProxy;
  PDFDocument_load : list N -> option PDFDocument;
  mammoth_extractRawText : list N -> option jsstring;   (* result.value *)
  FileReader_readAsText : list N -> option jsstring;
  Number_toString : number -> jsstring
}.

Definition space : jsstring := js " ".
Definition newline : jsstring := [10%N].

(** The three revisions of the module under [src/]. *)
Inductive revision :=
| PdfLibRev       (* src/utils/fileProcessor.ts *)
| PdfJsGuardedRev (* pdf.js, extractTextFromPDF wrapped in try/catch *)
| PdfJsPlainRev.  (* pdf.js, no inner try/catch *)

Section FileProcessor.

Variable L : Libs.

(** [extractTextFromTXT], the same in every revision. *)
Definition extractTextFromTXT (file : File) : M jsstring :=
  match FileReader_readAsText L (file_data file) with
  | Some text => ret (trim text)
  | None => throw FailedToReadTextFile
  end.

(** [extractTextFromDOCX] of the two pdf.js revisions. *)
Definition extractTextFromDOCX_plain (file : File) : M jsstring :=
  match mammoth_extractRawText L (file_data file) with
  | Some value => ret (trim value)
  | None => throw (LibraryError Mammoth)
  end.

(** [extractTextFromDOCX] of fileProcessor.ts. *)
Definition extractTextFromDOCX_guarded (file : File) : M jsstring :=
  try_catch (extractTextFromDOCX_plain file)
    (fun error => emit (ConsoleError "DOCX extraction error:" error);;
                  throw FailedToProcessDOCX).

(** The loop [for (let i = 1; i <= pdf.numPages; i++)]: [remaining]
    counts the iterations left, [numPages + 1 - i]. *)
Fixpoint pages_loop (pdf : PDFDocumentProxy) (remaining i : nat)
         (fullText : jsstring) : M jsstring :=
  match remaining with
  | O => ret fullText
  | S k =>
      match getPage pdf i with
      | Some items =>
          let pageText := join space items in
          pages_loop pdf k (S i) (fullText ++ pageText ++ newline)
      | None => throw (LibraryError PdfJs)
      end
  end.

(** [extractTextFromPDF] of the plain pdf.js revision. *)
Definition extractTextFromPDF_pdfjs (file : File) : M jsstring :=
  match pdfjs_getDocument L (file_data file) with
  | Some pdf =>
      fullText <- pages_loop pdf (numPages pdf) 1 [] ;;
      ret (trim fullText)
  | None => throw (LibraryError PdfJs)
  end.

(** [extractTextFromPDF] of the guarded pdf.js revision. *)
Definition extractTextFromPDF_pdfjs_guarded (file : File) : M jsstring :=
  try_catch (extractTextFromPDF_pdfjs file)
    (fun error => emit (ConsoleError "PDF extraction error:" error);;
                  throw FailedToProcessPDF).

(** String concatenation with a value that may be [undefined]. *)
Definition to_string (v : option jsstring) : jsstring :=
  match v with Some s => s | None => js "undefined" end.

(** [fields.forEach(field => { if (field.constructor.name ===
    'PDFTextField') extractedText += textField.getText() + ' ' })]. *)
Definition collect_fields (fields : list PDFField) : jsstring :=
  fold_left
    (fun extractedText field =>
       if String.eqb (constructor_name field) "PDFTextField"
       then extractedText ++ to_string (getText field) ++ space
       else extractedText)
    fields [].

(** The template literal [`Page ${i + 1} content (${width}x${height}). `]. *)
Definition page_note (i : nat) (page : PDFPage) : jsstring :=
  js "Page " ++ dec (i + 1) ++ js " content ("
  ++ Number_toString L (width page) ++ js "x"
  ++ Number_toString L (height page) ++ js "). ".

(** The loop [for (let i = 0; i < Math.min(pageCount, 5); i++)]. *)
Fixpoint sizes_loop (pdfDoc : PDFDocument) (remaining i : nat)
         (extractedText : jsstring) : M jsstring :=
  match remaining with
  | O => ret extractedText
  | S k =>
      match nth_error (getPages pdfDoc) i with
      | Some page =>
          sizes_loop pdfDoc k (S i) (extractedText ++ page_note i page)
      | None => throw (LibraryError PdfLibGetPage)
      end
  end.

Definition no_readable_text : jsstring :=
  js "PDF content extracted successfully but no readable text found.".

(** [extractTextFromPDF] of fileProcessor.ts (pdf-lib). *)
Definition extractTextFromPDF_pdflib (file : File) : M jsstring :=
  try_catch
    match PDFDocument_load L (file_data file) with
    | Some pdfDoc =>
        let extractedText := collect_fields (getFields pdfDoc) in
        extractedText <-
          (if negb (nonempty (trim extractedText)) then
             let pageCount := getPageCount pdfDoc in
             sizes_loop pdfDoc (Nat.min pageCount 5) 0
               (js "PDF document with " ++ dec pageCount ++ js " pages. ")
           else ret extractedText) ;;
        ret (if nonempty (trim extractedText) then trim extractedText
             else no_readable_text)
    | None => throw (LibraryError PdfLibLoad)
    end
    (fun error => emit (ConsoleError "PDF extraction error:" error);;
                  throw FailedToProcessPDF).

Definition extractTextFromPDF (r : revision) : File -> M jsstring :=
  match r with
  | PdfLibRev => extractTextFromPDF_pdflib
  | PdfJsGuardedRev => extractTextFromPDF_pdfjs_guarded
  | PdfJsPlainRev => extractTextFromPDF_pdfjs
  end.

Definition extractTextFromDOCX (r : revision) : File -> M jsstring :=
  match r with
  | PdfLibRev => extractTextFromDOCX_guarded
  | PdfJsGuardedRev => extractTextFromDOCX_plain
  | PdfJsPlainRev => extractTextFromDOCX_plain
  end.

Definition docx_mime : string :=
  "application/vnd.openxmlformats-officedocument.wordprocessingml.document".

(** [extractTextFromFile], the same text in every revision. *)
Definition extractTextFromFile (r : revision) (file : File) : M jsstring :=
  let fileType := file_type file in
  let fileName := toLowerCase (file_name file) in
  try_catch
    (if String.eqb fileType "application/pdf" || endsWith fileName ".pdf"
     then extractTextFromPDF r file
     else if String.eqb fileType docx_mime || endsWith fileName ".docx"
     then extractTextFromDOCX r file
     else if String.eqb fileType "text/plain" || endsWith fileName ".txt"
     then extractTextFromTXT file
     else throw (UnsupportedFileType fileType))
    (fun error =>
       emit (ConsoleError "Error extracting text from file:" error);;
       throw FailedToExtractText).

End FileProcessor.

(* ================================================================== *)
(** ** The quiz generator *)
(* ================================================================== *)

(** Modelled from the spec: the record [QuizSettingsData] is declared by the
    QuizSettings component, which is not among the sources; section 3 gives
    it as a question count, a difficulty among easy, medium and hard, and
    the question type mcq. The count is a natural number here because the
    readiness test of [generateQuiz] guards against 0. *)
Inductive difficulty_level := easy | medium | hard.

Inductive question_type := mcq.

Record QuizSettingsData := mkSettings {
  questionCount : nat;
  difficulty : difficulty_level;
  questionType : question_type
}.

Definition difficulty_string (d : difficulty_level) : jsstring :=
  match d with
  | easy => js "easy"
  | medium => js "medium"
  | hard => js "hard"
  end.

Definition questionType_string (t : question_type) : jsstring :=
  match t with mcq => js "mcq" end.

(** [settings.questionType.toUpperCase()]. *)
Definition questionType_toUpperCase (t : question_type) : jsstring :=
  match t with mcq => js "MCQ" end.

(** The state of the component that [generateQuiz] closes over. *)
Record State := mkState {
  selectedFile : option File;
  settings : QuizSettingsData;
  apiKey : jsstring
}.

(** [selectedFile && apiKey.trim() && settings.questionCount &&
    settings.difficulty && settings.questionType], as a boolean. *)
Definition isReadyToGenerate (st : State) : bool :=
  (match selectedFile st with Some _ => true | None => false end)
  && nonempty (trim (apiKey st))
  && negb (questionCount (settings st) =? 0)%nat
  && nonempty (difficulty_string (difficulty (settings st)))
  && nonempty (questionType_string (questionType (settings st))).

(** A response of the remote endpoint; [json_body] is what
    [response.json()] resolves to, [None] when it rejects. *)
Record Response := mkResponse {
  status : N;
  statusText : jsstring;
  json_body : option json
}.

(** [response.ok]: the status is in the range 200..299. *)
Definition ok (r : Response) : bool :=
  ((200 <=? status r) && (status r <=? 299))%N.

(** The network: what [fetch] resolves to for a URL and a prompt (the body
    posted is the fixed envelope around the prompt); [None] when it rejects. *)
Definition Network := jsstring -> jsstring -> option Response.

Definition endpoint (apiKey : jsstring) : jsstring :=
  js "https://generativelanguage.googleapis.com/v1beta/models/gemini-1.5-flash-latest:generateContent?key="
  ++ apiKey.

(** The template literal [systemPrompt]. *)
Definition systemPrompt (s : QuizSettingsData) (extractedText : jsstring)
  : jsstring :=
  newline ++
  concat (map (fun line => line ++ newline)
    [ js "You are an AI quiz generator.";
      [];
      js "Given the following educational document content and settings:";
      js "- Number of Questions: " ++ dec (questionCount s);
      js "- Difficulty: " ++ difficulty_string (difficulty s);
      js "- Question Type: " ++ questionType_toUpperCase (questionType s);
      [];
      js "Generate high-quality MCQ questions ONLY based on the document content.";
      [];
      js "Return an array of questions in the following JSON format:";
      js "[";
      js "  {";
      jsq "    'question': 'What is ...?',";
      jsq "    'options': ['A', 'B', 'C', 'D'],";
      jsq "    'correctAnswerIndex': 2,";
      jsq "    'hint': '" ++ js "It's the component responsible for ..." ++ jsq "'";
      js "  }";
      js "]";
      [];
      js "Important: ";
      js "- Return ONLY valid JSON array, no extra text";
      js "- Make sure questions are directly related to the document content";
      js "- Provide clear, unambiguous options";
      js "- Hints should be helpful but not give away the answer";
      [];
      js "Document Content:";
      extractedText ]).

(** [data.candidates?.[0]?.content?.parts?.[0]?.text]. *)
Definition candidate_text (data : json) : M jsvalue :=
  match data with
  | JNull => throw (TypeError CandidatesOfNull)
  | _ =>
      ret (opt_chain (prop "text")
            (opt_chain index0
              (opt_chain (prop "parts")
                (opt_chain (prop "content")
                  (opt_chain index0 (prop "candidates" data))))))
  end.

(** The suffix of [s] that starts at the first [c]. *)
Fixpoint from_first (c : N) (s : jsstring) : option jsstring :=
  match s with
  | [] => None
  | x :: r => if (x =? c)%N then Some s else from_first c r
  end.

(** The prefix of [s] that ends at the last [c]. *)
Fixpoint upto_last (c : N) (s : jsstring) : option jsstring :=
  match s with
  | [] => None
  | x :: r =>
      match upto_last c r with
      | Some p => Some (x :: p)
      | None => if (x =? c)%N then Some [x] else None
      end
  end.

(** [generatedText.match(/\[[\s\S]*\]/)], element 0 of the result: the
    leftmost match starts at the first opening bracket and, the star being
    greedy over every code unit, ends at the last closing bracket after
    it; [None] is the [null] of a failed match. *)
Definition match_array (generatedText : jsstring) : option jsstring :=
  match from_first 91 generatedText with
  | Some (b :: r) =>
      match upto_last 93 r with
      | Some m => Some (b :: m)
      | None => None
      end
  | _ => None
  end.

(** The callback of [questions.every]. Reading a property of [null]
    throws; every other JSON value answers [undefined] or the member. *)
Definition valid_question (q : json) : M bool :=
  match q with
  | JNull => throw (TypeError QuestionOfNull)
  | _ =>
      ret (truthy (prop "question" q)
           && isArray (prop "options" q)
           && (match prop "options" q with
               | Some (JArr options) => (length options =? 4)%nat
               | _ => false
               end)
           && isNumber (prop "correctAnswerIndex" q)
           && truthy (prop "hint" q))
  end.

(** [Array.prototype.every]: stops at the first falsy answer. *)
Fixpoint every (f : json -> M bool) (l : list json) : M bool :=
  match l with
  | [] => ret true
  | q :: r => b <- f q ;; if b then every f r else ret false
  end.

Section QuizGenerator.

Variable extractTextFromFile' : File -> M jsstring.
Variable fetch : Network.

(** The body of the [try] block; it returns the questions it hands to
    [onQuizGenerated]. *)
Definition generateQuiz_try (st : State) (file : File) : M (list json) :=
  emit (ShowToast ProcessingDocument) ;;
  extractedText <- extractTextFromFile' file ;;
  (if negb (nonempty (trim extractedText))
   then throw NoTextExtracted else ret tt) ;;
  let prompt := systemPrompt (settings st) extractedText in
  emit (ShowToast GeneratingQuiz) ;;
  emit (Fetch (endpoint (apiKey st)) prompt) ;;
  response <- match fetch (endpoint (apiKey st)) prompt with
              | Some response => ret response
              | None => throw FetchRejected
              end ;;
  (if negb (ok response)
   then throw (ApiError (status response) (statusText response))
   else ret tt) ;;
  emit ReadBody ;;
  data <- match json_body response with
          | Some data => ret data
          | None => throw BodyNotJson
          end ;;
  generatedText <- candidate_text data ;;
  (if negb (truthy generatedText) then throw NoResponseFromAI else ret tt) ;;
  text <- match generatedText with
          | Some (JStr text) => ret text
          | _ => throw (TypeError MatchNotAFunction)
          end ;;
  jsonMatch <- match match_array text with
               | Some m => ret m
               | None => throw InvalidResponseFormat
               end ;;
  parsedValue <- match JSON_parse jsonMatch with
                 | Some v => ret v
                 | None => throw JsonSyntaxError
                 end ;;
  questions <- match parsedValue with
               | JArr (q :: r) => ret (q :: r)
               | _ => throw NoValidQuestions
               end ;;
  isValidFormat <- every valid_question questions ;;
  (if negb isValidFormat then throw InvalidQuestionFormat else ret tt) ;;
  emit (ShowToast (QuizGenerated (length questions))) ;;
  emit (OnQuizGenerated questions) ;;
  ret questions.

(** [generateQuiz]: the readiness guard, then try / catch / finally. *)
Definition generateQuiz (st : State) : M unit :=
  if negb (isReadyToGenerate st) then ret tt
  else
    match selectedFile st with
    | None => ret tt
    | Some file =>
        emit (SetIsGenerating true) ;;
        finally
          (try_catch (generateQuiz_try st file ;; ret tt)
             (fun error =>
                emit (ConsoleError "Quiz generation error:" error) ;;
                emit (ShowToast (GenerationFailed error))))
          [SetIsGenerating false]
    end.

End QuizGenerator.

(** What a run of [generateQuiz] hands to the caller: the questions passed
    to [onQuizGenerated], or the error it reports in the failure toast. *)
Inductive outcome :=
| Returned (questions : list json)
| Failed (e : error)
| NotStarted.

Fixpoint outcome_of (trace : list event) : outcome :=
  match trace with
  | [] => NotStarted
  | OnQuizGenerated qs :: _ => Returned qs
  | ShowToast (GenerationFailed e) :: _ => Failed e
  | _ :: r => outcome_of r
  end.

Definition is_console (ev : event) : bool :=
  match ev with ConsoleError _ _ => true | _ => false end.

Definition is_fetch (ev : event) : bool :=
  match ev with Fetch _ _ => true | _ => false end.

Definition is_read_body (ev : event) : bool :=
  match ev with ReadBody => true | _ => false end.

(** The number of outbound requests in a trace. *)
Definition requests (trace : list event) : nat :=
  length (filter is_fetch trace).

(** [generateQuiz] of the component built on revision [r] of the file
    processor, run from an empty trace. *)
Definition run (r : revision) (L : Libs) (net : Network) (st : State)
  : list event :=
  fst (generateQuiz (extractTextFromFile L r) net st).

(* ================================================================== *)
(** ** Vocabulary of the statements *)
(* ================================================================== *)

(** The last unit of a string. *)
Fixpoint last_unit (s : string) : option ascii :=
  match s with
  | EmptyString => None
  | String c EmptyString => Some c
  | String _ r => last_unit r
  end.

(** The three formats, in the order [extractTextFromFile] tests them. *)
Inductive format := PDF | DOCX | TXT.

Definition mime_of (f : format) : string :=
  match f with
  | PDF => "application/pdf"
  | DOCX => docx_mime
  | TXT => "text/plain"
  end.

Definition suffix_of (f : format) : string :=
  match f with
  | PDF => ".pdf"
  | DOCX => ".docx"
  | TXT => ".txt"
  end.

Definition rank (f : format) : nat :=
  match f with PDF => 0 | DOCX => 1 | TXT => 2 end.

Definition mime_matches (f : format) (file : File) : bool :=
  String.eqb (file_type file) (mime_of f).

Definition suffix_matches (f : format) (file : File) : bool :=
  endsWith (toLowerCase (file_name file)) (suffix_of f).

Definition matches (f : format) (file : File) : bool :=
  mime_matches f file || suffix_matches f file.

Definition reader (L : Libs) (r : revision) (f : format) : File -> M jsstring :=
  match f with
  | PDF => extractTextFromPDF L r
  | DOCX => extractTextFromDOCX L r
  | TXT => extractTextFromTXT L
  end.

(** What [extractTextFromFile] does once the reader of format [f] has been
    chosen: run it under the catch-all of the function. *)
Definition dispatched (L : Libs) (r : revision) (f : format) (file : File)
  : M jsstring :=
  try_catch (reader L r f file)
    (fun error =>
       emit (ConsoleError "Error extracting text from file:" error);;
       throw FailedToExtractText).

(** The text of the pages of a pdf.js document, page 1 first. *)
Definition page_items (pdf : PDFDocumentProxy) : list (option (list jsstring)) :=
  map (getPage pdf) (seq 1 (numPages pdf)).

(** The placeholder of the pdf-lib revision: the page count, then one note
    per page for the first five pages. *)
Fixpoint page_notes (L : Libs) (i : nat) (pages : list PDFPage) : jsstring :=
  match pages with
  | [] => []
  | page :: rest => page_note L i page ++ page_notes L (S i) rest
  end.

Definition placeholder (L : Libs) (pdfDoc : PDFDocument) : jsstring :=
  js "PDF document with " ++ dec (getPageCount pdfDoc) ++ js " pages. "
  ++ page_notes L 0 (firstn 5 (getPages pdfDoc)).

(** The exact value of a number literal is the integer [k]. *)
Definition number_is (n : number) (k : Z) : bool :=
  let m := (if num_neg n then - Z.of_N (num_mant n) else Z.of_N (num_mant n))%Z in
  if (0 <=? num_exp10 n)%Z then (m * 10 ^ num_exp10 n =? k)%Z
  else (m =? k * 10 ^ (- num_exp10 n))%Z.

Definition is_string (v : json) : bool :=
  match v with JStr _ => true | _ => false end.

(** The Question shape of the data model (section 3): four options, all
    strings, and an index that is one of 0, 1, 2, 3. *)
Definition Question_shape (q : json) : bool :=
  match prop "options" q, prop "correctAnswerIndex" q with
  | Some (JArr options), Some (JNum n) =>
      (length options =? 4)%nat && forallb is_string options
      && (number_is n 0 || number_is n 1 || number_is n 2 || number_is n 3)
  | _, _ => false
  end.

(** What the shape check of the code accepts: an object with a truthy
    question, an options array of four values, a numeric
    correctAnswerIndex and a truthy hint. *)
Definition accepted_shape (q : json) : Prop :=
  exists m options n,
    q = JObj m
    /\ truthy (lookup (js "question") m) = true
    /\ lookup (js "options") m = Some (JArr options)
    /\ length options = 4
    /\ lookup (js "correctAnswerIndex") m = Some (JNum n)
    /\ truthy (lookup (js "hint") m) = true.

(** The run gets as far as the reply: the component is ready, extraction
    yields text that is not blank, the request is answered with a 2xx
    status and the envelope carries the string [text] at
    candidates[0].content.parts[0].text. *)
Definition reply_text_is (r : revision) (L : Libs) (net : Network)
           (st : State) (text : jsstring) : Prop :=
  exists file ev extracted response data,
    isReadyToGenerate st = true
    /\ selectedFile st = Some file
    /\ extractTextFromFile L r file = (ev, inr extracted)
    /\ nonempty (trim extracted) = true
    /\ net (endpoint (apiKey st)) (systemPrompt (settings st) extracted)
       = Some response
    /\ ok response = true
    /\ json_body response = Some data
    /\ candidate_text data = ret (Some (JStr text)).

(** A view of lines 119-150 of [generateQuiz] as a function of the reply
    text; [reply_outcome_run] relates it to the runs of the model. *)
Definition reply_outcome (text : jsstring) : outcome :=
  if negb (nonempty text) then Failed NoResponseFromAI
  else
    match match_array text with
    | None => Failed InvalidResponseFormat
    | Some m =>
        match JSON_parse m with
        | None => Failed JsonSyntaxError
        | Some (JArr (q :: l)) =>
            match snd (every valid_question (q :: l)) with
            | inl e => Failed e
            | inr true => Returned (q :: l)
            | inr false => Failed InvalidQuestionFormat
            end
        | Some _ => Failed NoValidQuestions
        end
    end.

(** The array of the example of section 8 and the question it denotes. *)
Definition example_array : jsstring :=
  jsq "[{'question':'Q1','options':['A','B','C','D'],'correctAnswerIndex':1,'hint':'H1'}]".

Definition example_question : json :=
  JObj [ (js "question", JStr (js "Q1"));
         (js "options", JArr [JStr (js "A"); JStr (js "B");
                              JStr (js "C"); JStr (js "D")]);
         (js "correctAnswerIndex", JNum (mkNumber false 1 0));
         (js "hint", JStr (js "H1")) ].

(** A reply whose only question has index 7. *)
Definition out_of_range_array : jsstring :=
  jsq "[{'question':'Q1','options':['A','B','C','D'],'correctAnswerIndex':7,'hint':'H1'}]".

Definition out_of_range_question : json :=
  JObj [ (js "question", JStr (js "Q1"));
         (js "options", JArr [JStr (js "A"); JStr (js "B");
                              JStr (js "C"); JStr (js "D")]);
         (js "correctAnswerIndex", JNum (mkNumber false 7 0));
         (js "hint", JStr (js "H1")) ].

(** A reply of two questions, the second with three options. *)
Definition short_options_array : jsstring :=
  jsq "[{'question':'Q1','options':['A','B','C','D'],'correctAnswerIndex':1,'hint':'H1'},{'question':'Q2','options':['A','B','C'],'correctAnswerIndex':0,'hint':'H2'}]".

Definition short_options_question : json :=
  JObj [ (js "question", JStr (js "Q2"));
         (js "options", JArr [JStr (js "A"); JStr (js "B"); JStr (js "C")]);
         (js "correctAnswerIndex", JNum (mkNumber false 0 0));
         (js "hint", JStr (js "H2")) ].

(** *** Sample worlds, used to exercise the statements *)

Definition int_number (n : nat) : number := mkNumber false (N.of_nat n) 0.

(** A rendering of the integer-valued numbers of the samples. *)
Definition print_number (n : number) : jsstring :=
  (if num_neg n then js "-" else []) ++ dec (N.to_nat (num_mant n)).

Definition sample_pdf : PDFDocumentProxy :=
  mkProxy 2 (fun i => match i with
                      | 1 => Some [js "Hello"; js "there"]
                      | 2 => Some [js "World"]
                      | _ => None
                      end).

Definition sample_doc : PDFDocument :=
  mkDoc [] [ mkPage (int_number 612) (int_number 792);
             mkPage (int_number 612) (int_number 792) ].

Definition sample_libs : Libs :=
  mkLibs (fun _ => Some sample_pdf) (fun _ => Some sample_doc)
         (fun _ => Some (js "  docx text ")) (fun _ => Some (js " hello "))
         print_number.

(** Libraries that reject everything, and a reader that finds only blanks. *)
Definition failing_libs : Libs :=
  mkLibs (fun _ => None) (fun _ => None) (fun _ => None) (fun _ => None)
         print_number.

Definition blank_libs : Libs :=
  mkLibs (fun _ => None) (fun _ => None) (fun _ => None)
         (fun _ => Some (js "   ")) print_number.

Definition pdf_file : File := mkFile "application/pdf" "lecture.bin" [].
Definition txt_file : File := mkFile "text/plain" "notes.txt" [].
Definition plain_named_pdf : File := mkFile "text/plain" "Notes.PDF" [].
Definition png_file : File := mkFile "image/png" "photo.png" [].

(** The response envelope around a reply text. *)
Definition envelope (text : jsstring) : json :=
  JObj [(js "candidates",
         JArr [JObj [(js "content",
                      JObj [(js "parts",
                             JArr [JObj [(js "text", JStr text)]])])]])].

Definition replying (text : jsstring) : Network :=
  fun _ _ => Some (mkResponse 200 (js "OK") (Some (envelope text))).

Definition unavailable : Network :=
  fun _ _ => Some (mkResponse 503 (js "Service Unavailable") None).

Definition sample_state (file : File) : State :=
  mkState (Some file) (mkSettings 10 medium mcq) (js "AIzaSample").

(** *** Vocabulary of the further properties *)

(** [field.constructor.name === 'PDFTextField']. *)
Definition is_text_field (field : PDFField) : bool :=
  String.eqb (constructor_name field) "PDFTextField".

(** What the text fields of a form contribute, in field order. *)
Definition field_texts (fields : list PDFField) : list jsstring :=
  map (fun field => to_string (getText field)) (filter is_text_field fields).

(** Two files that differ at most in the letter case of their names. *)
Definition same_up_to_case (a b : File) : Prop :=
  file_type a = file_type b
  /\ toLowerCase (file_name a) = toLowerCase (file_name b)
  /\ file_data a = file_data b.

(** The value at candidates[0].content.parts[0].text of a body that is
    not [null]. *)
Definition envelope_text (data : json) : jsvalue :=
  opt_chain (prop "text")
    (opt_chain index0
      (opt_chain (prop "parts")
        (opt_chain (prop "content")
          (opt_chain index0 (prop "candidates" data))))).

(** The run gets as far as the body of a 2xx response. *)
Definition response_body_is (r : revision) (L : Libs) (net : Network)
           (st : State) (data : json) : Prop :=
  exists file ev extracted response,
    isReadyToGenerate st = true
    /\ selectedFile st = Some file
    /\ extractTextFromFile L r file = (ev, inr extracted)
    /\ nonempty (trim extracted) = true
    /\ net (endpoint (apiKey st)) (systemPrompt (settings st) extracted)
       = Some response
    /\ ok response = true
    /\ json_body response = Some data.

(** The two events of the catch block of [generateQuiz]. *)
Definition handler_events (e : error) : list event :=
  [ConsoleError "Quiz generation error:" e; ShowToast (GenerationFailed e)].

(** The events of a run after extraction, up to the finaliser: the five
    ways through the try block. [res] is the result of extraction. *)
Inductive run_tail (net : Network) (st : State) (res : error + jsstring)
  : list event -> Prop :=
| tail_extraction_failed e :
    res = inl e ->
    run_tail net st res (handler_events e)
| tail_blank_text text :
    res = inr text ->
    nonempty (trim text) = false ->
    run_tail net st res (handler_events NoTextExtracted)
| tail_no_success_response text e :
    res = inr text ->
    nonempty (trim text) = true ->
    match net (endpoint (apiKey st)) (systemPrompt (settings st) text) with
    | None => e = FetchRejected
    | Some response =>
        ok response = false
        /\ e = ApiError (status response) (statusText response)
    end ->
    run_tail net st res
      ([ShowToast GeneratingQuiz;
        Fetch (endpoint (apiKey st)) (systemPrompt (settings st) text)]
       ++ handler_events e)
| tail_bad_reply text response e :
    res = inr text ->
    nonempty (trim text) = true ->
    net (endpoint (apiKey st)) (systemPrompt (settings st) text)
    = Some response ->
    ok response = true ->
    kind_of e = MalformedResponse \/ kind_of e = ValidationFailure ->
    run_tail net st res
      ([ShowToast GeneratingQuiz;
        Fetch (endpoint (apiKey st)) (systemPrompt (settings st) text);
        ReadBody]
       ++ handler_events e)
| tail_success text response questions :
    res = inr text ->
    nonempty (trim text) = true ->
    net (endpoint (apiKey st)) (systemPrompt (settings st) text)
    = Some response ->
    ok response = true ->
    questions <> [] ->
    run_tail net st res
      [ShowToast GeneratingQuiz;
       Fetch (endpoint (apiKey st)) (systemPrompt (settings st) text);
       ReadBody;
       ShowToast (QuizGenerated (length questions));
       OnQuizGenerated questions].



(** Further sample worlds. *)



Definition torn_pdf : PDFDocumentProxy :=
  mkProxy 2 (fun i => match i with
                      | 1 => Some [js "Hello"]
                      | _ => None
                      end).

Definition torn_libs : Libs :=
  mkLibs (fun _ => Some torn_pdf) (fun _ => None) (fun _ => None)
         (fun _ => None) print_number.

Definition empty_pdf : PDFDocumentProxy := mkProxy 0 (fun _ => None).

Definition empty_pdf_libs : Libs :=
  mkLibs (fun _ => Some empty_pdf) (fun _ => None) (fun _ => None)
         (fun _ => None) print_number.

Definition docx_file : File := mkFile docx_mime "essay.docx" [].

(** A reply of three elements: a valid question, one with three options,
    and [null]. *)
Definition mixed_array : jsstring :=
  jsq "[{'question':'Q1','options':['A','B','C','D'],'correctAnswerIndex':1,'hint':'H1'},{'question':'Q2','options':['A','B','C'],'correctAnswerIndex':0,'hint':'H2'},null]".

(** The response envelope around any value in the place of the text. *)
Definition envelope_with (v : json) : json :=
  JObj [(js "candidates",
         JArr [JObj [(js "content",
                      JObj [(js "parts",
                             JArr [JObj [(js "text", v)]])])]])].

Definition offline : Network := fun _ _ => None.

Definition answering (data : json) : Network :=
  fun _ _ => Some (mkResponse 200 (js "OK") (Some data)).

(** A reader that hands over a text as it is, and a text of white space
    only: space, tab, line feed, no-break space. *)
Definition raw_reader (text : jsstring) : File -> M jsstring :=
  fun _ => ret text.

Definition blank_text : jsstring := [32; 9; 10; 160]%N.

(** A text field holds no text: [getText()] is [undefined], or a string of
    white space only. *)
Definition holds_no_text (field : PDFField) : bool :=
  match getText field with
  | None => true
  | Some text => forallb is_js_space text
  end.

(** [getText()] is [undefined]: the field was never given a value. *)
Definition unset (field : PDFField) : bool :=
  match getText field with None => true | Some _ => false end.

(** A form whose only text field was never filled in, and one whose text
    field holds two spaces. *)
Definition unfilled_form : PDFDocument :=
  mkDoc [ mkField "PDFTextField" None; mkField "PDFCheckBox" None ]
        [ mkPage (int_number 612) (int_number 792);
          mkPage (int_number 612) (int_number 792) ].

Definition unfilled_libs : Libs :=
  mkLibs (fun _ => None) (fun _ => Some unfilled_form) (fun _ => None)
         (fun _ => None) print_number.

Definition spaces_form : PDFDocument :=
  mkDoc [ mkField "PDFTextField" (Some (js "  ")); mkField "PDFCheckBox" None ]
        [ mkPage (int_number 612) (int_number 792) ].

Definition spaces_libs : Libs :=
  mkLibs (fun _ => None) (fun _ => Some spaces_form) (fun _ => None)
         (fun _ => None) print_number.

(* ================================================================== *)
(** ** Lemmas: strings *)
(* ================================================================== *)

Unset Implicit Arguments.

Section TrimFacts.

Lemma trimStart_idem (s : jsstring) : trimStart (trimStart s) = trimStart s.
Proof.
  induction s as [|c r IH]; simpl; auto.
  destruct (is_js_space c) eqn:E; auto.
  simpl. now rewrite E.
Qed.

(** The result of [trimStart] is empty or starts with a unit that is not
    white space. *)
Lemma trimStart_head (s : jsstring) c r :
  trimStart s = c :: r -> is_js_space c = false.
Proof.
  induction s as [|x t IH]; simpl; [discriminate|].
  destruct (is_js_space x) eqn:E; auto.
  intros H. now inversion H; subst.
Qed.

Lemma trimStart_blank (s : jsstring) :
  trimStart s = [] <-> forallb is_js_space s = true.
Proof.
  induction s as [|c r IH]; simpl; [tauto|].
  destruct (is_js_space c); simpl; [exact IH|].
  split; discriminate.
Qed.

Lemma trimStart_app (a b : jsstring) :
  trimStart (a ++ b)
  = match trimStart a with [] => trimStart b | _ => trimStart a ++ b end.
Proof.
  induction a as [|c r IH]; simpl; auto.
  destruct (is_js_space c); auto.
Qed.

Lemma trimEnd_cons (c : N) (r : jsstring) :
  is_js_space c = false -> trimEnd (c :: r) = c :: trimEnd r.
Proof.
  intros H. unfold trimEnd. simpl rev. rewrite trimStart_app.
  destruct (trimStart (rev r)) eqn:E.
  - simpl. now rewrite H.
  - now rewrite rev_app_distr.
Qed.

Lemma trimEnd_idem (s : jsstring) : trimEnd (trimEnd s) = trimEnd s.
Proof.
  unfold trimEnd. now rewrite rev_involutive, trimStart_idem.
Qed.

Lemma trimEnd_snoc_space (s : jsstring) (c : N) :
  is_js_space c = true -> trimEnd (s ++ [c]) = trimEnd s.
Proof.
  intros H. unfold trimEnd. rewrite rev_app_distr. simpl. now rewrite H.
Qed.

(** What [trimEnd] returns has no trailing white space. *)
Lemma trimEnd_last (s r : jsstring) (c : N) :
  trimEnd s = r ++ [c] -> is_js_space c = false.
Proof.
  unfold trimEnd. intros H.
  apply (f_equal (@rev N)) in H.
  rewrite rev_involutive, rev_app_distr in H. simpl in H.
  now apply trimStart_head in H.
Qed.

Lemma trim_head (s r : jsstring) (c : N) :
  trim s = c :: r -> is_js_space c = false.
Proof.
  unfold trim. destruct (trimStart s) as [|x t] eqn:E.
  - discriminate.
  - pose proof (trimStart_head _ _ _ E) as Hx.
    rewrite (trimEnd_cons _ _ Hx). intros H. now inversion H; subst.
Qed.

Lemma trim_last (s r : jsstring) (c : N) :
  trim s = r ++ [c] -> is_js_space c = false.
Proof. unfold trim. apply trimEnd_last. Qed.

(** [trim] is idempotent. *)
Lemma trim_idem (s : jsstring) : trim (trim s) = trim s.
Proof.
  unfold trim. destruct (trimStart s) as [|x t] eqn:E.
  - reflexivity.
  - pose proof (trimStart_head _ _ _ E) as Hx.
    rewrite (trimEnd_cons _ _ Hx). simpl trimStart. rewrite Hx.
    now rewrite (trimEnd_cons _ _ Hx), trimEnd_idem.
Qed.

Lemma trim_blank (s : jsstring) :
  trim s = [] <-> forallb is_js_space s = true.
Proof.
  rewrite <- trimStart_blank. unfold trim.
  destruct (trimStart s) as [|x t] eqn:E.
  - now split.
  - rewrite (trimEnd_cons _ _ (trimStart_head _ _ _ E)). split; discriminate.
Qed.

(** A string that starts with a unit that is not white space does not
    trim to the empty string. *)
Lemma trim_nonempty (c : N) (r : jsstring) :
  is_js_space c = false -> nonempty (trim (c :: r)) = true.
Proof.
  intros H. unfold trim. simpl. rewrite H. now rewrite (trimEnd_cons _ _ H).
Qed.

Lemma trim_snoc_space (s : jsstring) (c : N) :
  is_js_space c = true -> trim (s ++ [c]) = trim s.
Proof.
  intros H. unfold trim. rewrite trimStart_app.
  destruct (trimStart s) as [|x t] eqn:E.
  - simpl. now rewrite H.
  - rewrite <- E. now apply trimEnd_snoc_space.
Qed.

Lemma nonempty_false (s : jsstring) : nonempty s = false <-> s = [].
Proof. destruct s; simpl; split; congruence. Qed.

End TrimFacts.

Section SuffixFacts.

Lemma toLowerCase_app (a b : string) :
  toLowerCase (a ++ b) = (toLowerCase a ++ toLowerCase b)%string.
Proof. induction a as [|c r IH]; simpl; congruence. Qed.

Lemma endsWith_app (p suffix : string) : endsWith (p ++ suffix) suffix = true.
Proof.
  induction p as [|c r IH]; simpl.
  - destruct suffix as [|a t]; [reflexivity|].
    cbn [endsWith]. now rewrite String.eqb_refl.
  - rewrite IH. apply orb_true_r.
Qed.

Lemma endsWith_inv (s suffix : string) :
  endsWith s suffix = true -> exists p, s = (p ++ suffix)%string.
Proof.
  induction s as [|c r IH]; cbn [endsWith]; intros H.
  - rewrite orb_false_r in H. apply String.eqb_eq in H. now exists EmptyString.
  - apply orb_true_iff in H. destruct H as [H|H].
    + apply String.eqb_eq in H. now exists EmptyString.
    + destruct (IH H) as [p ->]. now exists (String c p).
Qed.

Lemma last_unit_app (p s : string) :
  s <> EmptyString -> last_unit (p ++ s) = last_unit s.
Proof.
  intros Hs. induction p as [|c r IH]; simpl; auto.
  rewrite IH. destruct (r ++ s)%string eqn:E; auto.
  destruct r; simpl in E; congruence.
Qed.

(** Two suffixes with different last units cannot both match. *)
Lemma endsWith_exclusive (s a b : string) :
  a <> EmptyString -> b <> EmptyString ->
  last_unit a <> last_unit b ->
  endsWith s a = true -> endsWith s b = false.
Proof.
  intros Ha Hb Hne H1. destruct (endsWith s b) eqn:H2; auto.
  apply endsWith_inv in H1. apply endsWith_inv in H2.
  destruct H1 as [p ->]. destruct H2 as [q H2].
  apply (f_equal last_unit) in H2.
  rewrite !last_unit_app in H2 by assumption. contradiction.
Qed.

End SuffixFacts.

(* ================================================================== *)
(** ** The parser never runs out of fuel *)
(* ================================================================== *)

Section ParserFuel.

Lemma on_parsed_inv {A B} (f : A -> B) (p : parsed A) b rest :
  on_parsed f p = Parsed b rest -> exists a, p = Parsed a rest /\ b = f a.
Proof.
  destruct p; simpl; try discriminate.
  intros H. inversion H; subst. now eexists.
Qed.

Lemma on_parsed_fuel {A B} (f : A -> B) (p : parsed A) :
  p <> OutOfFuel -> on_parsed f p <> OutOfFuel.
Proof. destruct p; simpl; congruence. Qed.

Lemma skip_ws_length (s : jsstring) : length (skip_ws s) <= length s.
Proof.
  induction s as [|c s IH]; simpl; auto.
  destruct (is_json_ws c); simpl; lia.
Qed.

Lemma skip_ws_cons (s : jsstring) c rest :
  skip_ws s = c :: rest -> length rest < length s.
Proof.
  intros H. pose proof (skip_ws_length s) as Hl. rewrite H in Hl.
  simpl in Hl. lia.
Qed.

Lemma take_digits_length (s : jsstring) :
  length (snd (take_digits s)) <= length s.
Proof.
  induction s as [|c s IH]; simpl; auto.
  destruct (digit_val c); simpl; auto.
  destruct (take_digits s); simpl in *. lia.
Qed.

Lemma string_body_length : forall s k rest,
  string_body s = Parsed k rest -> length rest < length s.
Proof.
  fix IH 1. intros s k rest. destruct s as [|c r]; [discriminate|].
  cbn [string_body].
  destruct (c =? 34)%N.
  { intros H. inversion H; subst. simpl. lia. }
  destruct (c =? 92)%N.
  - destruct r as [|e r1]; [discriminate|].
    assert (Hs : forall u k rest,
               on_parsed (cons u) (string_body r1) = Parsed k rest ->
               length rest < length (c :: e :: r1)).
    { intros u k0 rest0 H. apply on_parsed_inv in H.
      destruct H as (a & H & _). apply IH in H. simpl. lia. }
    repeat (match goal with
            | |- context [if ?b then _ else _] => destruct b
            end; [now apply Hs|]).
    destruct (e =? 117)%N; [|discriminate].
    destruct r1 as [|h1 [|h2 [|h3 [|h4 r5]]]]; try discriminate.
    destruct (hex_val h1), (hex_val h2), (hex_val h3), (hex_val h4);
      try discriminate.
    intros H. apply on_parsed_inv in H. destruct H as (a & H & _).
    apply IH in H. simpl. lia.
  - destruct (c <? 32)%N; [discriminate|].
    intros H. apply on_parsed_inv in H. destruct H as (a & H & _).
    apply IH in H. simpl. lia.
Qed.

Lemma string_body_fuel : forall s, string_body s <> OutOfFuel.
Proof.
  fix IH 1. intros s. destruct s as [|c r]; [discriminate|].
  cbn [string_body].
  destruct (c =? 34)%N; [discriminate|].
  destruct (c =? 92)%N.
  - destruct r as [|e r1]; [discriminate|].
    repeat (match goal with
            | |- context [if ?b then _ else _] => destruct b
            end; [apply on_parsed_fuel, IH|]).
    destruct (e =? 117)%N; [|discriminate].
    destruct r1 as [|h1 [|h2 [|h3 [|h4 r5]]]]; try discriminate.
    destruct (hex_val h1), (hex_val h2), (hex_val h3), (hex_val h4);
      try discriminate.
    apply on_parsed_fuel, IH.
  - destruct (c <? 32)%N; [discriminate|]. apply on_parsed_fuel, IH.
Qed.

Lemma exp_digits_fuel sg s : exp_digits sg s <> OutOfFuel.
Proof.
  unfold exp_digits. destruct (take_digits s) as [[|d ds] r]; discriminate.
Qed.

Lemma parse_exp_fuel s : parse_exp s <> OutOfFuel.
Proof.
  unfold parse_exp. destruct s as [|c r]; [discriminate|].
  destruct ((c =? 101)%N || (c =? 69)%N); [|discriminate].
  destruct r as [|sg r']; [discriminate|].
  destruct (sg =? 43)%N; [apply exp_digits_fuel|].
  destruct (sg =? 45)%N; apply exp_digits_fuel.
Qed.

Lemma parse_frac_fuel s : parse_frac s <> OutOfFuel.
Proof.
  unfold parse_frac. destruct s as [|c r]; [discriminate|].
  destruct (c =? 46)%N; [|discriminate].
  destruct (take_digits r) as [[|d ds] r']; discriminate.
Qed.

Lemma parse_int_fuel s : parse_int s <> OutOfFuel.
Proof.
  unfold parse_int. destruct s as [|c r]; [discriminate|].
  destruct (digit_val c) as [d|]; [|discriminate].
  destruct (d =? 0)%N; [discriminate|].
  destruct (take_digits r); discriminate.
Qed.

Lemma parse_number_fuel (s : jsstring) : parse_number s <> OutOfFuel.
Proof.
  unfold parse_number.
  destruct (match s with
            | c :: r => if (c =? 45)%N then (true, r) else (false, s)
            | [] => (false, s)
            end) as [neg s1].
  pose proof (parse_int_fuel s1).
  destruct (parse_int s1) as [ids s2| |]; try congruence.
  pose proof (parse_frac_fuel s2).
  destruct (parse_frac s2) as [fds s3| |]; try congruence.
  pose proof (parse_exp_fuel s3).
  destruct (parse_exp s3); congruence.
Qed.

Lemma exp_digits_length sg s e rest :
  exp_digits sg s = Parsed e rest -> length rest <= length s.
Proof.
  unfold exp_digits. pose proof (take_digits_length s) as Hl.
  destruct (take_digits s) as [[|d ds] r]; [discriminate|].
  intros H. inversion H; subst. exact Hl.
Qed.

Lemma parse_exp_length s e rest :
  parse_exp s = Parsed e rest -> length rest <= length s.
Proof.
  unfold parse_exp. destruct s as [|c r].
  { intros H. now inversion H. }
  destruct ((c =? 101)%N || (c =? 69)%N).
  - destruct r as [|sg r']; [discriminate|].
    destruct (sg =? 43)%N;
      [intros H; apply exp_digits_length in H; simpl; lia|].
    destruct (sg =? 45)%N; intros H; apply exp_digits_length in H;
      simpl in *; lia.
  - intros H. now inversion H.
Qed.

Lemma parse_frac_length s ds rest :
  parse_frac s = Parsed ds rest -> length rest <= length s.
Proof.
  unfold parse_frac. destruct s as [|c r].
  { intros H. now inversion H. }
  destruct (c =? 46)%N.
  - pose proof (take_digits_length r) as Hl.
    destruct (take_digits r) as [[|d0 ds0] r']; [discriminate|].
    intros H. inversion H; subst. simpl in *. lia.
  - intros H. now inversion H.
Qed.

Lemma parse_int_length s ds rest :
  parse_int s = Parsed ds rest -> length rest < length s.
Proof.
  unfold parse_int. destruct s as [|c r]; [discriminate|].
  destruct (digit_val c) as [d|]; [|discriminate].
  destruct (d =? 0)%N.
  - intros H. inversion H; subst. simpl. lia.
  - pose proof (take_digits_length r) as Hl.
    destruct (take_digits r) as [ds0 r'].
    intros H. inversion H; subst. simpl in *. lia.
Qed.

Lemma parse_number_length s n rest :
  parse_number s = Parsed n rest -> length rest < length s.
Proof.
  unfold parse_number.
  assert (Hs1 : length (snd (match s with
                             | c :: r =>
                                 if (c =? 45)%N then (true, r) else (false, s)
                             | [] => (false, s)
                             end)) <= length s).
  { destruct s as [|c r]; simpl; auto.
    destruct (c =? 45)%N; simpl; lia. }
  destruct (match s with
            | c :: r => if (c =? 45)%N then (true, r) else (false, s)
            | [] => (false, s)
            end) as [neg s1].
  cbn [snd] in Hs1.
  destruct (parse_int s1) as [ids s2| |] eqn:Hi; try discriminate.
  destruct (parse_frac s2) as [fds s3| |] eqn:Hf; try discriminate.
  destruct (parse_exp s3) as [e s4| |] eqn:He; try discriminate.
  intros H. inversion H; subst.
  apply parse_int_length in Hi. apply parse_frac_length in Hf.
  apply parse_exp_length in He. lia.
Qed.

Lemma strip_prefix_length : forall p s rest,
  strip_prefix p s = Some rest -> length rest <= length s.
Proof.
  induction p as [|a p IH]; intros s rest; simpl.
  - intros H. now inversion H.
  - destruct s as [|b s]; [discriminate|].
    destruct (a =? b)%N; [|discriminate].
    intros H. apply IH in H. simpl. lia.
Qed.

Lemma parse_literal_length s v rest :
  parse_literal s = Parsed v rest -> length rest <= length s.
Proof.
  unfold parse_literal.
  destruct (strip_prefix (js "true") s) eqn:E1.
  { intros H. inversion H; subst. now apply strip_prefix_length in E1. }
  destruct (strip_prefix (js "false") s) eqn:E2.
  { intros H. inversion H; subst. now apply strip_prefix_length in E2. }
  destruct (strip_prefix (js "null") s) eqn:E3; [|discriminate].
  intros H. inversion H; subst. now apply strip_prefix_length in E3.
Qed.

Lemma parse_literal_fuel s : parse_literal s <> OutOfFuel.
Proof.
  unfold parse_literal.
  destruct (strip_prefix (js "true") s); [discriminate|].
  destruct (strip_prefix (js "false") s); [discriminate|].
  destruct (strip_prefix (js "null") s); discriminate.
Qed.

(** What a parser leaves is no longer than what it was given. *)
Lemma parse_length : forall fuel,
  (forall s v rest, parse_value fuel s = Parsed v rest ->
                    length rest <= length s)
  /\ (forall s l rest, parse_elements fuel s = Parsed l rest ->
                       length rest <= length s)
  /\ (forall s l rest, parse_members fuel s = Parsed l rest ->
                       length rest <= length s).
Proof.
  induction fuel as [|f (IHv & IHe & IHm)].
  { repeat split; intros; discriminate. }
  split; [|split].
  - intros s v rest. cbn [parse_value].
    destruct (skip_ws s) as [|c r] eqn:Hs; [discriminate|].
    apply skip_ws_cons in Hs.
    destruct (c =? 91)%N.
    { destruct (skip_ws r) as [|c' r'] eqn:Hr; [discriminate|].
      pose proof (skip_ws_length r) as Hl. rewrite Hr in Hl.
      destruct (c' =? 93)%N.
      - intros H. inversion H; subst. simpl in Hl. lia.
      - intros H. apply on_parsed_inv in H. destruct H as (a & H & _).
        apply IHe in H. lia. }
    destruct (c =? 123)%N.
    { destruct (skip_ws r) as [|c' r'] eqn:Hr; [discriminate|].
      pose proof (skip_ws_length r) as Hl. rewrite Hr in Hl.
      destruct (c' =? 125)%N.
      - intros H. inversion H; subst. simpl in Hl. lia.
      - intros H. apply on_parsed_inv in H. destruct H as (a & H & _).
        apply IHm in H. lia. }
    destruct (c =? 34)%N.
    { intros H. apply on_parsed_inv in H. destruct H as (a & H & _).
      apply string_body_length in H. lia. }
    destruct ((c =? 45)%N
              || match digit_val c with Some _ => true | None => false end).
    { intros H. apply on_parsed_inv in H. destruct H as (a & H & _).
      apply parse_number_length in H. simpl in H. lia. }
    intros H. apply parse_literal_length in H. simpl in H. lia.
  - intros s l rest. cbn [parse_elements].
    destruct (parse_value f s) as [v r| |] eqn:Hv; try discriminate.
    apply IHv in Hv.
    destruct (skip_ws r) as [|c r'] eqn:Hr; [discriminate|].
    apply skip_ws_cons in Hr.
    destruct (c =? 44)%N.
    { intros H. apply on_parsed_inv in H. destruct H as (a & H & _).
      apply IHe in H. lia. }
    destruct (c =? 93)%N; [|discriminate].
    intros H. inversion H; subst. lia.
  - intros s l rest. cbn [parse_members].
    destruct (skip_ws s) as [|c r] eqn:Hs; [discriminate|].
    apply skip_ws_cons in Hs.
    destruct (c =? 34)%N; [|discriminate].
    destruct (string_body r) as [k r1| |] eqn:Hk; try discriminate.
    apply string_body_length in Hk.
    destruct (skip_ws r1) as [|c1 r2] eqn:Hr1; [discriminate|].
    apply skip_ws_cons in Hr1.
    destruct (c1 =? 58)%N; [|discriminate].
    destruct (parse_value f r2) as [v r3| |] eqn:Hv; try discriminate.
    apply IHv in Hv.
    destruct (skip_ws r3) as [|c3 r4] eqn:Hr3; [discriminate|].
    apply skip_ws_cons in Hr3.
    destruct (c3 =? 44)%N.
    { intros H. apply on_parsed_inv in H. destruct H as (a & H & _).
      apply IHm in H. lia. }
    destruct (c3 =? 125)%N; [|discriminate].
    intros H. inversion H; subst. lia.
Qed.

(** Two units of fuel per code unit are enough. *)
Lemma parse_fuel : forall fuel,
  (forall s, 2 * length s < fuel -> parse_value fuel s <> OutOfFuel)
  /\ (forall s, 2 * length s + 1 < fuel ->
                parse_elements fuel s <> OutOfFuel)
  /\ (forall s, 2 * length s + 1 < fuel ->
                parse_members fuel s <> OutOfFuel).
Proof.
  induction fuel as [|f (IHv & IHe & IHm)].
  { repeat split; intros; lia. }
  destruct (parse_length f) as (Lv & _ & _).
  split; [|split].
  - intros s Hf. cbn [parse_value].
    destruct (skip_ws s) as [|c r] eqn:Hs; [discriminate|].
    apply skip_ws_cons in Hs.
    destruct (c =? 91)%N.
    { destruct (skip_ws r) as [|c' r'] eqn:Hr; [discriminate|].
      pose proof (skip_ws_length r) as Hl. rewrite Hr in Hl.
      destruct (c' =? 93)%N; [discriminate|].
      apply on_parsed_fuel, IHe. lia. }
    destruct (c =? 123)%N.
    { destruct (skip_ws r) as [|c' r'] eqn:Hr; [discriminate|].
      pose proof (skip_ws_length r) as Hl. rewrite Hr in Hl.
      destruct (c' =? 125)%N; [discriminate|].
      apply on_parsed_fuel, IHm. lia. }
    destruct (c =? 34)%N; [apply on_parsed_fuel, string_body_fuel|].
    destruct ((c =? 45)%N
              || match digit_val c with Some _ => true | None => false end);
      [apply on_parsed_fuel, parse_number_fuel | apply parse_literal_fuel].
  - intros s Hf. cbn [parse_elements].
    pose proof (IHv s ltac:(lia)) as Hv.
    destruct (parse_value f s) as [v r| |] eqn:Ev; try congruence.
    apply Lv in Ev.
    destruct (skip_ws r) as [|c r'] eqn:Hr; [discriminate|].
    apply skip_ws_cons in Hr.
    destruct (c =? 44)%N; [apply on_parsed_fuel, IHe; lia|].
    destruct (c =? 93)%N; discriminate.
  - intros s Hf. cbn [parse_members].
    destruct (skip_ws s) as [|c r] eqn:Hs; [discriminate|].
    apply skip_ws_cons in Hs.
    destruct (c =? 34)%N; [|discriminate].
    pose proof (string_body_fuel r) as Hk.
    destruct (string_body r) as [k r1| |] eqn:Ek; try congruence.
    apply string_body_length in Ek.
    destruct (skip_ws r1) as [|c1 r2] eqn:Hr1; [discriminate|].
    apply skip_ws_cons in Hr1.
    destruct (c1 =? 58)%N; [|discriminate].
    pose proof (IHv r2 ltac:(lia)) as Hv.
    destruct (parse_value f r2) as [v r3| |] eqn:Ev; try congruence.
    apply Lv in Ev.
    destruct (skip_ws r3) as [|c3 r4] eqn:Hr3; [discriminate|].
    apply skip_ws_cons in Hr3.
    destruct (c3 =? 44)%N; [apply on_parsed_fuel, IHm; lia|].
    destruct (c3 =? 125)%N; discriminate.
Qed.

(** [JSON_parse] answers [None] only for a text that is not JSON: its
    parser ends with a value or a syntax error, never for lack of fuel. *)
Lemma JSON_parse_fuel (s : jsstring) :
  parse_value (2 * length s + 1) s <> OutOfFuel.
Proof. apply parse_fuel. lia. Qed.

End ParserFuel.

(* ================================================================== *)
(** ** Lemmas: the effect monad *)
(* ================================================================== *)

Section MonadFacts.

Context {A B : Type}.

Lemma bind_ret_l (a : A) (k : A -> M B) : bind (ret a) k = k a.
Proof. unfold bind, ret. now destruct (k a). Qed.

Lemma bind_throw (e : error) (k : A -> M B) : bind (throw e) k = throw e.
Proof. reflexivity. Qed.

Lemma bind_inr (m : M A) (k : A -> M B) ev b :
  bind m k = (ev, inr b) ->
  exists t1 a t2, m = (t1, inr a) /\ k a = (t2, inr b) /\ ev = t1 ++ t2.
Proof.
  destruct m as [t1 [e|a]]; simpl; [discriminate|].
  destruct (k a) as [t2 r] eqn:E. intros H. inversion H; subst.
  now exists t1, a, t2.
Qed.

Lemma try_catch_ret (a : A) (h : error -> M A) : try_catch (ret a) h = ret a.
Proof. reflexivity. Qed.

(** With a handler that always rethrows, a normal return of the guarded
    block is a normal return of its body. *)
Lemma try_catch_inr (m : M A) (h : error -> M A) ev a :
  (forall e, exists t e', h e = (t, inl e')) ->
  try_catch m h = (ev, inr a) -> m = (ev, inr a).
Proof.
  intros Hh. destruct m as [t [e|x]]; simpl; auto.
  destruct (Hh e) as (t' & e' & ->). discriminate.
Qed.

End MonadFacts.

(* ================================================================== *)
(** ** Lemmas: the file processor *)
(* ================================================================== *)

Section FileProcessorFacts.

Variable L : Libs.

Lemma rethrow_shape label e' :
  forall e : error, exists t e0,
    (emit (ConsoleError label e) ;; @throw jsstring e') = (t, inl e0).
Proof. intros e. now exists [ConsoleError label e], e'. Qed.

(** *** pdf.js: the page loop *)

Lemma pages_loop_ok pdf pages : forall k i acc,
  map (getPage pdf) (seq i k) = map Some pages ->
  pages_loop pdf k i acc
  = ret (acc ++ concat (map (fun items => join space items ++ newline) pages)).
Proof.
  induction pages as [|p rest IH]; intros k i acc H.
  - destruct k; [|discriminate]. simpl. now rewrite app_nil_r.
  - destruct k; [discriminate|]. simpl in H. inversion H as [[Hp Hrest]].
    simpl. rewrite Hp. rewrite (IH _ _ _ Hrest).
    now rewrite <- !app_assoc.
Qed.

Lemma pages_loop_silent pdf : forall k i acc, fst (pages_loop pdf k i acc) = [].
Proof.
  induction k as [|k IH]; intros i acc; simpl; auto.
  destruct (getPage pdf i); auto.
Qed.

Lemma concat_lines (l : list jsstring) :
  l <> [] ->
  concat (map (fun x => x ++ newline) l) = join newline l ++ newline.
Proof.
  induction l as [|x r IH]; [congruence|]. intros _.
  destruct r as [|y r'].
  - simpl. now rewrite app_nil_r.
  - change (concat (map (fun x => x ++ newline) (x :: y :: r')))
      with ((x ++ newline) ++ concat (map (fun x => x ++ newline) (y :: r'))).
    rewrite IH by discriminate.
    change (join newline (x :: y :: r'))
      with (x ++ newline ++ join newline (y :: r')).
    now rewrite <- !app_assoc.
Qed.

Lemma trim_lines (l : list jsstring) :
  trim (concat (map (fun x => x ++ newline) l)) = trim (join newline l).
Proof.
  destruct l as [|x r]; [reflexivity|].
  rewrite concat_lines by discriminate.
  now apply trim_snoc_space.
Qed.

(** *** pdf-lib: the size loop *)

Lemma skipn_nth_error {X} (l : list X) : forall i x,
  nth_error l i = Some x -> skipn i l = x :: skipn (S i) l.
Proof.
  induction l as [|y r IH]; intros [|i] x H; simpl in *; try discriminate.
  - now inversion H.
  - now apply IH.
Qed.

Lemma sizes_loop_ok pdfDoc : forall k i acc,
  i + k <= length (getPages pdfDoc) ->
  sizes_loop L pdfDoc k i acc
  = ret (acc ++ page_notes L i (firstn k (skipn i (getPages pdfDoc)))).
Proof.
  induction k as [|k IH]; intros i acc H.
  - simpl. now rewrite app_nil_r.
  - simpl. destruct (nth_error (getPages pdfDoc) i) as [page|] eqn:E.
    + rewrite IH by lia. rewrite (skipn_nth_error _ _ _ E).
      cbn [firstn page_notes]. now rewrite <- !app_assoc.
    + apply nth_error_None in E. lia.
Qed.

Lemma firstn_min_length {X} (l : list X) (n : nat) :
  firstn (Nat.min (length l) n) l = firstn n l.
Proof.
  destruct (Nat.le_ge_cases (length l) n) as [H|H].
  - rewrite Nat.min_l by assumption.
    now rewrite firstn_all, firstn_all2.
  - now rewrite Nat.min_r.
Qed.

Lemma placeholder_nonempty pdfDoc :
  nonempty (trim (placeholder L pdfDoc)) = true.
Proof. unfold placeholder. now apply trim_nonempty. Qed.

(** A form without text fields collects no text. *)
Lemma collect_fields_no_text_field (fields : list PDFField) :
  Forall (fun field =>
            String.eqb (constructor_name field) "PDFTextField" = false)
         fields ->
  collect_fields fields = [].
Proof.
  unfold collect_fields. generalize (@nil N) as acc.
  induction fields as [|field rest IH]; intros acc H; [reflexivity|].
  inversion H as [|? ? Hf Hrest]; subst. cbn [fold_left].
  rewrite Hf. now apply IH.
Qed.

Lemma pdflib_no_field_text file pdfDoc :
  PDFDocument_load L (file_data file) = Some pdfDoc ->
  trim (collect_fields (getFields pdfDoc)) = [] ->
  extractTextFromPDF_pdflib L file = ret (trim (placeholder L pdfDoc)).
Proof.
  intros Hload Hblank. unfold extractTextFromPDF_pdflib.
  rewrite Hload, Hblank. cbn [nonempty negb].
  rewrite sizes_loop_ok
    by (unfold getPageCount; simpl; apply Nat.le_min_l).
  rewrite bind_ret_l. cbn [skipn]. unfold getPageCount.
  rewrite firstn_min_length. fold (getPageCount pdfDoc).
  rewrite <- !app_assoc. fold (getPageCount pdfDoc).
  change (js "PDF document with " ++ dec (getPageCount pdfDoc)
          ++ js " pages. " ++ page_notes L 0 (firstn 5 (getPages pdfDoc)))
    with (placeholder L pdfDoc).
  now rewrite placeholder_nonempty.
Qed.

End FileProcessorFacts.

Section ExtractionFacts.

Variable L : Libs.

Lemma sizes_loop_silent pdfDoc : forall k i acc,
  fst (sizes_loop L pdfDoc k i acc) = [].
Proof.
  induction k as [|k IH]; intros i acc; simpl; auto.
  destruct (nth_error (getPages pdfDoc) i); auto.
Qed.

Lemma rethrow_console {A} (m : M A) label e' :
  forallb is_console (fst m) = true ->
  forallb is_console
    (fst (try_catch m (fun error => emit (ConsoleError label error);;
                                    throw e'))) = true.
Proof.
  destruct m as [t [e|a]]; simpl; auto.
  intros H. rewrite forallb_app, H. reflexivity.
Qed.

Lemma pdfjs_console file :
  forallb is_console (fst (extractTextFromPDF_pdfjs L file)) = true.
Proof.
  unfold extractTextFromPDF_pdfjs.
  destruct (pdfjs_getDocument L (file_data file)) as [pdf|]; [|reflexivity].
  pose proof (pages_loop_silent pdf (numPages pdf) 1 []) as H.
  destruct (pages_loop pdf (numPages pdf) 1 []) as [t [e|x]];
    simpl in *; subst; reflexivity.
Qed.

Lemma pdflib_console file :
  forallb is_console (fst (extractTextFromPDF_pdflib L file)) = true.
Proof.
  unfold extractTextFromPDF_pdflib. apply rethrow_console.
  destruct (PDFDocument_load L (file_data file)) as [d|]; [|reflexivity].
  destruct (negb (nonempty (trim (collect_fields (getFields d)))));
    [|reflexivity].
  pose proof (sizes_loop_silent d (Nat.min (getPageCount d) 5) 0
                (js "PDF document with " ++ dec (getPageCount d)
                 ++ js " pages. ")) as H.
  destruct (sizes_loop L d _ 0 _) as [t [e|x]];
    simpl in *; subst; reflexivity.
Qed.

Lemma reader_console r f file :
  forallb is_console (fst (reader L r f file)) = true.
Proof.
  destruct f, r; cbn [reader extractTextFromPDF extractTextFromDOCX].
  - apply pdflib_console.
  - apply rethrow_console, pdfjs_console.
  - apply pdfjs_console.
  - apply rethrow_console. unfold extractTextFromDOCX_plain.
    now destruct (mammoth_extractRawText L (file_data file)).
  - unfold extractTextFromDOCX_plain.
    now destruct (mammoth_extractRawText L (file_data file)).
  - unfold extractTextFromDOCX_plain.
    now destruct (mammoth_extractRawText L (file_data file)).
  - unfold extractTextFromTXT.
    now destruct (FileReader_readAsText L (file_data file)).
  - unfold extractTextFromTXT.
    now destruct (FileReader_readAsText L (file_data file)).
  - unfold extractTextFromTXT.
    now destruct (FileReader_readAsText L (file_data file)).
Qed.

(** *** Dispatch *)

(** The reader of the first format, in the order PDF, DOCX, TXT, whose
    MIME type or suffix matches is the one that runs. *)
Lemma dispatch_first_match r file f :
  matches f file = true ->
  (forall g, rank g < rank f -> matches g file = false) ->
  extractTextFromFile L r file = dispatched L r f file.
Proof.
  intros Hf Hearlier. unfold extractTextFromFile, dispatched.
  destruct f; cbn [reader].
  - unfold matches, mime_matches, suffix_matches in Hf.
    cbn [mime_of suffix_of] in Hf. now rewrite Hf.
  - pose proof (Hearlier PDF (Nat.lt_0_succ 0)) as Hp.
    unfold matches, mime_matches, suffix_matches in Hf, Hp.
    cbn [mime_of suffix_of] in Hf, Hp. now rewrite Hp, Hf.
  - pose proof (Hearlier PDF (Nat.lt_0_succ 1)) as Hp.
    pose proof (Hearlier DOCX (Nat.lt_succ_diag_r 1)) as Hd.
    unfold matches, mime_matches, suffix_matches in Hf, Hp, Hd.
    cbn [mime_of suffix_of] in Hf, Hp, Hd. now rewrite Hp, Hd, Hf.
Qed.

(** A file that matches no format: the error thrown for it is caught by
    the function's own handler, logged, and replaced. *)
Lemma dispatch_no_match r file :
  (forall f, matches f file = false) ->
  extractTextFromFile L r file
  = ([ConsoleError "Error extracting text from file:"
        (UnsupportedFileType (file_type file))],
     inl FailedToExtractText).
Proof.
  intros H. unfold extractTextFromFile.
  pose proof (H PDF) as Hp. pose proof (H DOCX) as Hd.
  pose proof (H TXT) as Ht.
  unfold matches, mime_matches, suffix_matches in Hp, Hd, Ht.
  cbn [mime_of suffix_of] in Hp, Hd, Ht. now rewrite Hp, Hd, Ht.
Qed.

(** A reader that fails surfaces as the same error. *)
Lemma dispatched_failure r f file ev e :
  reader L r f file = (ev, inl e) ->
  dispatched L r f file
  = (ev ++ [ConsoleError "Error extracting text from file:" e],
     inl FailedToExtractText).
Proof. intros H. unfold dispatched. now rewrite H. Qed.

Lemma dispatched_success r f file ev text :
  dispatched L r f file = (ev, inr text) ->
  reader L r f file = (ev, inr text).
Proof. apply try_catch_inr, rethrow_shape. Qed.

(** Whatever [extractTextFromFile] does, it is one of the four branches. *)
Lemma dispatch_cases r file :
  (exists f, extractTextFromFile L r file = dispatched L r f file)
  \/ snd (extractTextFromFile L r file) = inl FailedToExtractText.
Proof.
  unfold extractTextFromFile.
  destruct (String.eqb (file_type file) "application/pdf"
            || endsWith (toLowerCase (file_name file)) ".pdf").
  - left. now exists PDF.
  - destruct (String.eqb (file_type file) docx_mime
              || endsWith (toLowerCase (file_name file)) ".docx").
    + left. now exists DOCX.
    + destruct (String.eqb (file_type file) "text/plain"
                || endsWith (toLowerCase (file_name file)) ".txt").
      * left. now exists TXT.
      * now right.
Qed.

Lemma extract_console r file :
  forallb is_console (fst (extractTextFromFile L r file)) = true.
Proof.
  destruct (dispatch_cases r file) as [[f ->]|H].
  - apply rethrow_console, reader_console.
  - unfold extractTextFromFile in *.
    destruct (String.eqb (file_type file) "application/pdf"
              || endsWith (toLowerCase (file_name file)) ".pdf").
    { apply rethrow_console, (reader_console r PDF). }
    destruct (String.eqb (file_type file) docx_mime
              || endsWith (toLowerCase (file_name file)) ".docx").
    { apply rethrow_console, (reader_console r DOCX). }
    destruct (String.eqb (file_type file) "text/plain"
              || endsWith (toLowerCase (file_name file)) ".txt").
    { apply rethrow_console, (reader_console r TXT). }
    reflexivity.
Qed.

(** Every reader returns trimmed text. *)
Lemma reader_trimmed r f file ev text :
  reader L r f file = (ev, inr text) -> trim text = text.
Proof.
  assert (Hjs : forall file ev text,
             extractTextFromPDF_pdfjs L file = (ev, inr text) ->
             trim text = text).
  { intros fl ev0 t. unfold extractTextFromPDF_pdfjs.
    destruct (pdfjs_getDocument L (file_data fl)) as [pdf|];
      [|discriminate].
    intros H. apply bind_inr in H.
    destruct H as (t1 & a & t2 & _ & Hk & _).
    inversion Hk. apply trim_idem. }
  assert (Hdocx : forall file ev text,
             extractTextFromDOCX_plain L file = (ev, inr text) ->
             trim text = text).
  { intros fl ev0 t. unfold extractTextFromDOCX_plain.
    destruct (mammoth_extractRawText L (file_data fl)); [|discriminate].
    intros H. inversion H. apply trim_idem. }
  destruct f, r; cbn [reader extractTextFromPDF extractTextFromDOCX];
    intros H.
  - unfold extractTextFromPDF_pdflib in H.
    apply try_catch_inr in H; [|apply rethrow_shape].
    destruct (PDFDocument_load L (file_data file)) as [d|];
      [|discriminate].
    apply bind_inr in H. destruct H as (t1 & a & t2 & _ & Hk & _).
    inversion Hk.
    destruct (nonempty (trim a)); [apply trim_idem | reflexivity].
  - apply try_catch_inr in H; [|apply rethrow_shape]. eauto.
  - eauto.
  - apply try_catch_inr in H; [|apply rethrow_shape]. eauto.
  - eauto.
  - eauto.
  - unfold extractTextFromTXT in H.
    destruct (FileReader_readAsText L (file_data file)); [|discriminate].
    inversion H. apply trim_idem.
  - unfold extractTextFromTXT in H.
    destruct (FileReader_readAsText L (file_data file)); [|discriminate].
    inversion H. apply trim_idem.
  - unfold extractTextFromTXT in H.
    destruct (FileReader_readAsText L (file_data file)); [|discriminate].
    inversion H. apply trim_idem.
Qed.

End ExtractionFacts.

(* ================================================================== *)
(** ** Properties of the extractor *)
(* ================================================================== *)

(** C5 (the part that holds): among PDF, DOCX and TXT, taken in that order,
    the first format whose MIME type or file-name suffix matches decides
    the reader; a file that matches none raises the unsupported-type error
    inside [extractTextFromFile], which its handler logs and replaces by
    the generic extraction error. *)
Lemma dispatch_by_priority (L : Libs) (r : revision) (file : File) :
  (forall f,
      matches f file = true ->
      (forall g, rank g < rank f -> matches g file = false) ->
      extractTextFromFile L r file = dispatched L r f file)
  /\ ((forall f, matches f file = false) ->
      extractTextFromFile L r file
      = ([ConsoleError "Error extracting text from file:"
            (UnsupportedFileType (file_type file))],
         inl FailedToExtractText)).
Proof.
  split.
  - intros f. apply dispatch_first_match.
  - apply dispatch_no_match.
Qed.

(** C5, at a file of an unsupported type (image/png, photo.png), in every
    revision: the error the caller receives is the generic
    'Failed to extract text from file...' one, the very error that a PDF
    whose reader fails surfaces as; the unsupported-type error only reaches
    the console. No classification of the surfaced error can therefore tell
    an unsupported type from an extraction failure. *)
Theorem C5_unsupported_type_surfaces_as_generic_failure :
  forall r : revision,
    extractTextFromFile failing_libs r png_file
    = ([ConsoleError "Error extracting text from file:"
          (UnsupportedFileType "image/png")],
       inl FailedToExtractText)
    /\ snd (extractTextFromFile failing_libs r pdf_file)
       = snd (extractTextFromFile failing_libs r png_file)
    /\ (forall classify : error -> error_kind,
           classify FailedToExtractText = ExtractionFailure ->
           forall e, snd (extractTextFromFile failing_libs r png_file) = inl e ->
                     classify e <> UnsupportedType).
Proof.
  intros r. split; [|split].
  - destruct r; reflexivity.
  - destruct r; reflexivity.
  - intros classify Hc e He.
    assert (e = FailedToExtractText) as ->
        by (destruct r; vm_compute in He; now inversion He).
    rewrite Hc. discriminate.
Qed.

(** C9: priority dominates MIME matching. When the declared MIME type is
    that of one format and the lower-cased file name carries the suffix of
    a format earlier in the order PDF, DOCX, TXT, the reader of the earlier
    format runs. *)
Theorem C9_priority_dominates_mime (L : Libs) (r : revision) (file : File)
        (f g : format) :
  rank g < rank f ->
  mime_matches f file = true ->
  suffix_matches g file = true ->
  extractTextFromFile L r file = dispatched L r g file.
Proof.
  intros Hrank Hmime Hsuffix.
  apply dispatch_first_match.
  - unfold matches. rewrite Hsuffix. apply orb_true_r.
  - intros h Hh.
    destruct g; cbn [rank] in *; [lia| |].
    + (* g = DOCX, so f = TXT and h = PDF *)
      destruct f; cbn [rank] in Hrank; try lia.
      destruct h; cbn [rank] in Hh; try lia.
      unfold matches, mime_matches, suffix_matches in *.
      cbn [mime_of suffix_of] in *.
      apply String.eqb_eq in Hmime. rewrite Hmime.
      rewrite (endsWith_exclusive _ ".docx" ".pdf"); auto; discriminate.
    + destruct f; cbn [rank] in Hrank; lia.
Qed.

(** The example of C9: MIME type text/plain, file name Notes.PDF; the PDF
    reader runs (here the pdf.js one, on the two sample pages). *)
Lemma C9_priority_dominates_mime_witness :
  rank PDF < rank TXT
  /\ mime_matches TXT plain_named_pdf = true
  /\ suffix_matches PDF plain_named_pdf = true
  /\ extractTextFromFile sample_libs PdfJsPlainRev plain_named_pdf
     = dispatched sample_libs PdfJsPlainRev PDF plain_named_pdf.
Proof.
  split; [cbn; lia|]. split; [reflexivity|]. split; [reflexivity|].
  apply (C9_priority_dominates_mime sample_libs PdfJsPlainRev plain_named_pdf
           TXT PDF); [cbn; lia | reflexivity | reflexivity].
Defined.

(** Any file whose type is text/plain and whose name ends in .pdf, in any
    letter case of the stem, goes to the PDF reader. *)
Lemma plain_text_named_pdf (L : Libs) (r : revision) (stem : string)
      (data : list N) :
  extractTextFromFile L r (mkFile "text/plain" (stem ++ ".pdf") data)
  = dispatched L r PDF (mkFile "text/plain" (stem ++ ".pdf") data).
Proof.
  apply dispatch_first_match.
  - unfold matches, suffix_matches. cbn [file_name suffix_of].
    rewrite toLowerCase_app. cbn [toLowerCase].
    change (String (lower_unit ".") (String (lower_unit "p")
              (String (lower_unit "d") (String (lower_unit "f") ""))))
      with ".pdf"%string.
    rewrite endsWith_app. apply orb_true_r.
  - intros g Hg. cbn [rank] in Hg. lia.
Qed.

(** C7, in the two pdf.js revisions: when the document opens and every
    page can be read, the text returned is the pages' texts in page order
    1..numPages, the items of a page joined by single spaces, the pages
    separated by a newline, the whole trimmed. *)
Theorem C7_pdfjs_pages_in_order (L : Libs) (r : revision) (file : File)
        (pdf : PDFDocumentProxy) (pages : list (list jsstring)) :
  r <> PdfLibRev ->
  pdfjs_getDocument L (file_data file) = Some pdf ->
  page_items pdf = map Some pages ->
  extractTextFromPDF L r file
  = ret (trim (join newline (map (join space) pages))).
Proof.
  intros Hr Hdoc Hpages.
  assert (H : extractTextFromPDF_pdfjs L file
              = ret (trim (join newline (map (join space) pages)))).
  { unfold extractTextFromPDF_pdfjs. rewrite Hdoc.
    rewrite (pages_loop_ok pdf pages) by exact Hpages.
    rewrite bind_ret_l. cbn [app].
    rewrite <- (trim_lines (map (join space) pages)).
    now rewrite map_map. }
  destruct r; cbn [extractTextFromPDF]; [congruence| |exact H].
  unfold extractTextFromPDF_pdfjs_guarded. now rewrite H.
Qed.

(** C7 on the two sample pages, in the guarded pdf.js revision. *)
Lemma C7_pdfjs_pages_in_order_witness :
  PdfJsGuardedRev <> PdfLibRev
  /\ pdfjs_getDocument sample_libs (file_data pdf_file) = Some sample_pdf
  /\ page_items sample_pdf
     = map Some [[js "Hello"; js "there"]; [js "World"]]
  /\ extractTextFromPDF sample_libs PdfJsGuardedRev pdf_file
     = ret (js "Hello there" ++ newline ++ js "World").
Proof.
  split; [discriminate|]. split; [reflexivity|]. split; [reflexivity|].
  exact (C7_pdfjs_pages_in_order sample_libs PdfJsGuardedRev pdf_file
           sample_pdf [[js "Hello"; js "there"]; [js "World"]]
           ltac:(discriminate) eq_refl eq_refl).
Defined.

(** C7 as stated fails in the pdf-lib revision (fileProcessor.ts): on a
    two-page document whose pages read "Hello there" and "World", its PDF
    path returns the page-count placeholder, not the pages' text. *)
Lemma C7_pdflib_counterexample :
  pdfjs_getDocument sample_libs (file_data pdf_file) = Some sample_pdf
  /\ page_items sample_pdf
     = map Some [[js "Hello"; js "there"]; [js "World"]]
  /\ extractTextFromPDF sample_libs PdfLibRev pdf_file
     = ret (js "PDF document with 2 pages. Page 1 content (612x792). Page 2 content (612x792).")
  /\ extractTextFromPDF sample_libs PdfLibRev pdf_file
     <> ret (trim (join newline
                     (map (join space) [[js "Hello"; js "there"]; [js "World"]]))).
Proof.
  split; [reflexivity|]. split; [reflexivity|]. split; [reflexivity|].
  vm_compute. discriminate.
Qed.

(** C8: text that [extractTextFromFile] returns, in every revision and for
    each of the three formats, equals its own trim; its first and its last
    code unit are not white space. *)
Theorem C8_extracted_text_is_trimmed (L : Libs) (r : revision) (file : File)
        (ev : list event) (text : jsstring) :
  extractTextFromFile L r file = (ev, inr text) ->
  trim text = text
  /\ (forall c rest, text = c :: rest -> is_js_space c = false)
  /\ (forall front c, text = front ++ [c] -> is_js_space c = false).
Proof.
  intros H.
  assert (Ht : trim text = text).
  { destruct (dispatch_cases L r file) as [[f Hf]|Hf].
    - rewrite Hf in H. apply dispatched_success in H.
      exact (reader_trimmed L r f file ev text H).
    - rewrite H in Hf. discriminate. }
  split; [exact Ht|]. split.
  - intros c rest E. apply (trim_head text rest c). congruence.
  - intros front c E. apply (trim_last text front c). congruence.
Qed.

(** C8 on a text file that reads " hello ". *)
Lemma C8_extracted_text_is_trimmed_witness :
  extractTextFromFile sample_libs PdfLibRev txt_file = ([], inr (js "hello"))
  /\ trim (js "hello") = js "hello".
Proof.
  split; [reflexivity|].
  exact (proj1 (C8_extracted_text_is_trimmed sample_libs PdfLibRev txt_file
                  [] (js "hello") eq_refl)).
Defined.

(* ================================================================== *)
(** ** Lemmas: the quiz generator *)
(* ================================================================== *)

Arguments systemPrompt : simpl never.
Arguments endpoint : simpl never.
Arguments JSON_parse : simpl never.
Arguments match_array : simpl never.
Arguments every : simpl never.
Arguments valid_question : simpl never.

Section QuizFacts.

Variable r : revision.
Variable L : Libs.
Variable net : Network.
Variable st : State.

Lemma outcome_of_console (ev t : list event) :
  forallb is_console ev = true -> outcome_of (ev ++ t) = outcome_of t.
Proof.
  induction ev as [|e ev IH]; simpl; auto.
  destruct e; simpl; try discriminate. auto.
Qed.

Lemma requests_console (ev : list event) :
  forallb is_console ev = true -> requests ev = 0.
Proof.
  unfold requests. induction ev as [|e ev IH]; simpl; auto.
  destruct e; simpl; try discriminate. auto.
Qed.

Lemma read_body_console (ev : list event) :
  forallb is_console ev = true -> existsb is_read_body ev = false.
Proof.
  induction ev as [|e ev IH]; simpl; auto.
  destruct e; simpl; try discriminate. auto.
Qed.

(** A run that passes the readiness guard: the try block between the two
    updates of [isGenerating], with the handler's two events after a
    failure. *)
Lemma run_ready file :
  isReadyToGenerate st = true ->
  selectedFile st = Some file ->
  run r L net st
  = SetIsGenerating true
    :: (match generateQuiz_try (extractTextFromFile L r) net st file with
        | (t, inr _) => t
        | (t, inl e) =>
            t ++ [ConsoleError "Quiz generation error:" e;
                  ShowToast (GenerationFailed e)]
        end)
    ++ [SetIsGenerating false].
Proof.
  intros Hready Hfile. unfold run, generateQuiz.
  rewrite Hready, Hfile. cbn [negb].
  destruct (generateQuiz_try _ net st file) as [t [e|qs]];
    cbn; rewrite ?app_nil_r; reflexivity.
Qed.

Lemma run_not_ready :
  isReadyToGenerate st = false -> run r L net st = [].
Proof. intros H. unfold run, generateQuiz. now rewrite H. Qed.

Lemma every_valid_silent (l : list json) :
  fst (every valid_question l) = [].
Proof.
  induction l as [|q l IH]; [reflexivity|].
  unfold every; fold every. unfold valid_question at 1.
  destruct q; cbn [bind throw ret fst];
    try (match goal with
         | |- context [if ?b then _ else _] => destruct b
         end;
         [destruct (every valid_question l) as [t x]; simpl in *; now subst
         | reflexivity]).
  reflexivity.
Qed.

Lemma candidate_text_silent (data : json) : fst (candidate_text data) = [].
Proof. now destruct data. Qed.

(** Reduce the monadic steps of a run whose oracle answers are known. *)
Ltac run_steps :=
  cbn [negb bind emit ret throw truthy app fst snd].

Lemma reply_outcome_run (text : jsstring) :
  reply_text_is r L net st text ->
  outcome_of (run r L net st) = reply_outcome text.
Proof.
  intros (file & ev & extracted & response & data
          & Hready & Hfile & Hext & Hne & Hnet & Hok & Hbody & Hcand).
  rewrite (run_ready file Hready Hfile).
  pose proof (extract_console L r file) as Hev. rewrite Hext in Hev.
  cbn [fst] in Hev.
  unfold generateQuiz_try. rewrite Hext.
  run_steps. rewrite Hne. run_steps. rewrite Hnet. run_steps.
  rewrite Hok. run_steps. rewrite Hbody. run_steps. rewrite Hcand.
  run_steps. unfold reply_outcome.
  assert (Hfin : forall t o,
             outcome_of t = o ->
             outcome_of
               (SetIsGenerating true
                :: (ShowToast ProcessingDocument :: ev ++ t)) = o).
  { intros t o <-. cbn [outcome_of]. now apply outcome_of_console. }
  destruct (nonempty text); run_steps;
    [|rewrite <- ?app_assoc; now apply Hfin].
  destruct (match_array text) as [m|]; run_steps;
    [|rewrite <- ?app_assoc; now apply Hfin].
  destruct (JSON_parse m) as [v|]; run_steps;
    [|rewrite <- ?app_assoc; now apply Hfin].
  pose proof every_valid_silent as Hs.
  destruct v as [| | | |[|q l]|]; run_steps;
    try (rewrite <- ?app_assoc; now apply Hfin).
  specialize (Hs (q :: l)).
  destruct (every valid_question (q :: l)) as [t [e|[|]]];
    cbn [fst] in Hs; subst t; run_steps;
    rewrite <- ?app_assoc; now apply Hfin.
Qed.

Ltac run_steps_in H :=
  cbn [negb bind emit ret throw truthy app fst snd] in H.

Ltac finish_branch Hev :=
  run_steps; cbn [outcome_of]; rewrite <- ?app_assoc;
  rewrite ?(outcome_of_console _ _ Hev); cbn [outcome_of app];
  reflexivity.

(** The outcome read off the trace is the result of the try block. *)
Lemma outcome_of_run file :
  isReadyToGenerate st = true ->
  selectedFile st = Some file ->
  outcome_of (run r L net st)
  = match snd (generateQuiz_try (extractTextFromFile L r) net st file) with
    | inl e => Failed e
    | inr qs => Returned qs
    end.
Proof.
  intros Hready Hfile. rewrite (run_ready file Hready Hfile).
  pose proof (extract_console L r file) as Hev.
  unfold generateQuiz_try.
  destruct (extractTextFromFile L r file) as [ev [e|extracted]];
    cbn [fst] in Hev; [finish_branch Hev|].
  run_steps.
  destruct (nonempty (trim extracted)); [|finish_branch Hev].
  run_steps.
  destruct (net _ _) as [response|]; [|finish_branch Hev].
  run_steps.
  destruct (ok response); [|finish_branch Hev].
  run_steps.
  destruct (json_body response) as [data|]; [|finish_branch Hev].
  run_steps.
  pose proof (candidate_text_silent data) as Hc.
  destruct (candidate_text data) as [tc [e|gen]]; cbn [fst] in Hc; subst tc;
    [finish_branch Hev|].
  run_steps.
  destruct gen as [[| | |text| |]|]; cbn [truthy];
    try (finish_branch Hev);
    try (match goal with
         | |- context [if negb ?b then _ else _] => destruct b
         end; finish_branch Hev).
  destruct (nonempty text); [|finish_branch Hev].
  run_steps.
  destruct (match_array text) as [m|]; [|finish_branch Hev].
  run_steps.
  destruct (JSON_parse m) as [v|]; [|finish_branch Hev].
  run_steps.
  pose proof every_valid_silent as Hs.
  destruct v as [| | | |[|q l]|]; try (finish_branch Hev).
  run_steps. specialize (Hs (q :: l)).
  destruct (every valid_question (q :: l)) as [t [e|[|]]];
    cbn [fst] in Hs; subst t; finish_branch Hev.
Qed.

(** Questions are handed over only by a run that got as far as the reply. *)
Lemma returned_inv (qs : list json) :
  outcome_of (run r L net st) = Returned qs ->
  exists text,
    reply_text_is r L net st text /\ reply_outcome text = Returned qs.
Proof.
  intros H0.
  destruct (isReadyToGenerate st) eqn:Hready;
    [|rewrite (run_not_ready Hready) in H0; discriminate].
  destruct (selectedFile st) as [file|] eqn:Hfile;
    [|unfold isReadyToGenerate in Hready; rewrite Hfile in Hready;
      discriminate].
  pose proof H0 as H. rewrite (outcome_of_run file Hready Hfile) in H.
  unfold generateQuiz_try in H.
  destruct (extractTextFromFile L r file) as [ev [e|extracted]] eqn:Hext;
    run_steps_in H; [discriminate|].
  destruct (nonempty (trim extracted)) eqn:Hne;
    run_steps_in H; [|discriminate].
  destruct (net _ _) as [response|] eqn:Hnet;
    run_steps_in H; [|discriminate].
  destruct (ok response) eqn:Hok; run_steps_in H; [|discriminate].
  destruct (json_body response) as [data|] eqn:Hbody;
    run_steps_in H; [|discriminate].
  pose proof (candidate_text_silent data) as Hc.
  destruct (candidate_text data) as [tc [e|gen]] eqn:Hcand;
    cbn [fst] in Hc; subst tc; run_steps_in H; [discriminate|].
  destruct gen as [[| |n|text| |]|]; cbn [truthy] in H;
    try (run_steps_in H; discriminate);
    try (match type of H with
         | context [if negb ?b then _ else _] => destruct b
         end; run_steps_in H; discriminate).
  exists text.
  assert (Hreply : reply_text_is r L net st text).
  { exists file, ev, extracted, response, data. now repeat split. }
  split; [exact Hreply|].
  now rewrite <- (reply_outcome_run text Hreply).
Qed.

End QuizFacts.

Section ValidationFacts.

(** The callback either throws on [null] or answers silently. *)
Lemma valid_question_cases (q : json) :
  (q = JNull /\ valid_question q = throw (TypeError QuestionOfNull))
  \/ (exists b, valid_question q = ret b).
Proof.
  destruct q; [now left| | | | |]; right; eexists; reflexivity.
Qed.

Lemma valid_question_accepts (q : json) :
  valid_question q = ret true <-> accepted_shape q.
Proof.
  split.
  - destruct q as [| | | | |m]; unfold valid_question, prop;
      cbn [truthy andb isArray isNumber]; try discriminate.
    intros H. inversion H as [Hb]. clear H.
    destruct (truthy (lookup (js "question") m)) eqn:Hq;
      cbn [andb] in Hb; [|discriminate].
    destruct (lookup (js "options") m) as [[| | | |options|]|] eqn:Ho;
      cbn [isArray andb] in Hb; try discriminate.
    destruct (Nat.eqb_spec (length options) 4) as [Hl|Hl];
      cbn [andb] in Hb; [|discriminate].
    destruct (lookup (js "correctAnswerIndex") m) as [[| |n| | |]|] eqn:Hi;
      cbn [isNumber andb] in Hb; try discriminate.
    exists m, options, n. repeat split; assumption.
  - intros (m & options & n & -> & Hq & Ho & Hl & Hi & Hh).
    unfold valid_question, prop. rewrite Hq, Ho, Hi, Hh, Hl. reflexivity.
Qed.

(** [every] answers true exactly when the callback accepts every element;
    otherwise it answers false or rethrows the TypeError of a null
    element. *)
Lemma every_valid_cases (l : list json) :
  (every valid_question l = ret true
   /\ Forall (fun q => valid_question q = ret true) l)
  \/ ((every valid_question l = ret false
       \/ every valid_question l = throw (TypeError QuestionOfNull))
      /\ Exists (fun q => valid_question q <> ret true) l).
Proof.
  induction l as [|q l IH]; [left; split; [reflexivity|constructor]|].
  unfold every; fold every.
  destruct (valid_question_cases q) as [[-> Hq]|[[|] Hq]]; rewrite Hq.
  - right. split; [now right|]. apply Exists_cons_hd. discriminate.
  - rewrite bind_ret_l.
    destruct IH as [[He Hall]|[He Hex]].
    + left. split; [exact He|]. now constructor.
    + right. split; [exact He|]. now apply Exists_cons_tl.
  - rewrite bind_ret_l. right. split; [now left|].
    apply Exists_cons_hd. rewrite Hq. discriminate.
Qed.

Lemma Forall_Exists_neg_absurd {X} (P : X -> Prop) (l : list X) :
  Forall P l -> Exists (fun x => ~ P x) l -> False.
Proof.
  intros HF HE. apply Exists_exists in HE. destruct HE as (x & Hin & Hx).
  rewrite Forall_forall in HF. auto.
Qed.

Lemma match_array_nonempty (text m : jsstring) :
  match_array text = Some m -> nonempty text = true.
Proof. destruct text; [discriminate|reflexivity]. Qed.

(** When the reply holds an array that parses, the outcome is decided by
    the shape check alone. *)
Lemma reply_outcome_parsed (text m : jsstring) (v : json) :
  match_array text = Some m ->
  JSON_parse m = Some v ->
  reply_outcome text
  = match v with
    | JArr (q :: l) =>
        match snd (every valid_question (q :: l)) with
        | inl e => Failed e
        | inr true => Returned (q :: l)
        | inr false => Failed InvalidQuestionFormat
        end
    | _ => Failed NoValidQuestions
    end.
Proof.
  intros Hm Hp. unfold reply_outcome.
  rewrite (match_array_nonempty _ _ Hm), Hm, Hp. cbn [negb].
  destruct v as [| | | |[|q l]|]; reflexivity.
Qed.

Lemma reply_outcome_returned (text : jsstring) (qs : list json) :
  reply_outcome text = Returned qs ->
  exists m,
    match_array text = Some m
    /\ JSON_parse m = Some (JArr qs)
    /\ qs <> []
    /\ Forall (fun q => valid_question q = ret true) qs.
Proof.
  unfold reply_outcome.
  destruct (nonempty text); cbn [negb]; [|discriminate].
  destruct (match_array text) as [m|]; [|discriminate].
  destruct (JSON_parse m) as [v|] eqn:Hp; [|discriminate].
  destruct v as [| | | |[|q l]|]; try discriminate.
  destruct (every_valid_cases (q :: l)) as [[He Hall]|[[He|He] _]];
    rewrite He; cbn [snd ret throw]; try discriminate.
  intros H. inversion H; subst. exists m.
  split; [reflexivity|]. split; [exact Hp|]. split; [discriminate|exact Hall].
Qed.

End ValidationFacts.

Section MatchFacts.

Lemma from_first_skip (c : N) (pre s : jsstring) :
  existsb (N.eqb c) pre = false ->
  from_first c (pre ++ c :: s) = Some (c :: s).
Proof.
  induction pre as [|x pre IH]; cbn [app from_first existsb].
  - now rewrite N.eqb_refl.
  - intros H. apply orb_false_iff in H. destruct H as [Hx Hpre].
    rewrite N.eqb_sym, Hx. now apply IH.
Qed.

Lemma upto_last_none (c : N) (s : jsstring) :
  existsb (N.eqb c) s = false -> upto_last c s = None.
Proof.
  induction s as [|x s IH]; cbn [upto_last existsb]; auto.
  intros H. apply orb_false_iff in H. destruct H as [Hx Hs].
  rewrite (IH Hs). now rewrite N.eqb_sym, Hx.
Qed.

Lemma upto_last_stop (c : N) (body post : jsstring) :
  existsb (N.eqb c) post = false ->
  upto_last c (body ++ c :: post) = Some (body ++ [c]).
Proof.
  intros H. induction body as [|x body IH]; cbn [app upto_last].
  - now rewrite (upto_last_none _ _ H), N.eqb_refl.
  - now rewrite IH.
Qed.

(** An array text set between a prefix without opening bracket and a
    suffix without closing bracket is what the pattern matches. *)
Lemma match_array_embedded (pre body post : jsstring) :
  existsb (N.eqb 91) pre = false ->
  existsb (N.eqb 93) post = false ->
  match_array (pre ++ (91%N :: body ++ [93%N]) ++ post)
  = Some (91%N :: body ++ [93%N]).
Proof.
  intros Hpre Hpost. unfold match_array.
  cbn [app]. rewrite (from_first_skip _ _ _ Hpre).
  rewrite <- app_assoc. cbn [app].
  now rewrite (upto_last_stop _ _ _ Hpost).
Qed.

(** What the pattern matches starts at the first opening bracket of the
    text and ends at its last closing bracket. *)
Lemma match_array_spans (text m : jsstring) :
  match_array text = Some m ->
  exists pre body post,
    text = pre ++ m ++ post
    /\ m = 91%N :: body
    /\ existsb (N.eqb 91) pre = false
    /\ existsb (N.eqb 93) post = false
    /\ last m 0%N = 93%N.
Proof.
  assert (Hff : forall c s t, from_first c s = Some t ->
            exists pre r, s = pre ++ c :: r /\ t = c :: r
                          /\ existsb (N.eqb c) pre = false).
  { intros c s. induction s as [|x s IH]; cbn [from_first]; [discriminate|].
    intros t. destruct (N.eqb_spec x c) as [->|Hx].
    - intros H. inversion H; subst. now exists [], s.
    - intros H. destruct (IH _ H) as (pre & r0 & -> & -> & Hp).
      exists (x :: pre), r0. repeat split. cbn [existsb].
      rewrite Hp. destruct (N.eqb_spec c x); [congruence|reflexivity]. }
  assert (Hul : forall c s p, upto_last c s = Some p ->
            exists post, s = p ++ post /\ existsb (N.eqb c) post = false
                         /\ last p 0%N = c /\ p <> []).
  { intros c s. induction s as [|x s IH]; cbn [upto_last]; [discriminate|].
    intros p. destruct (upto_last c s) as [p'|] eqn:E.
    - intros H. inversion H; subst.
      destruct (IH _ eq_refl) as (post & -> & Hp & Hl & Hne).
      exists post. repeat split; auto; [|discriminate].
      destruct p'; [congruence|exact Hl].
    - destruct (N.eqb_spec x c) as [->|Hx]; [|discriminate].
      intros H. inversion H; subst. exists s. repeat split; [|discriminate].
      clear -E. induction s as [|y s IH]; [reflexivity|].
      cbn [upto_last] in E. destruct (upto_last c s); [discriminate|].
      destruct (N.eqb_spec y c) as [->|Hy]; [discriminate|].
      cbn [existsb]. rewrite (IH eq_refl).
      destruct (N.eqb_spec c y); [congruence|reflexivity]. }
  unfold match_array. intros H.
  destruct (from_first 91 text) as [[|b rest]|] eqn:E; try discriminate.
  destruct (Hff _ _ _ E) as (pre & r0 & -> & Hbr & Hpre).
  inversion Hbr; subst b rest.
  destruct (upto_last 93 r0) as [p|] eqn:E2; [|discriminate].
  inversion H; subst m.
  destruct (Hul _ _ _ E2) as (post & -> & Hpost & Hlast & Hne).
  exists pre, p, post. repeat split; auto.
  - destruct p; [congruence|exact Hlast].
Qed.

End MatchFacts.

(* ================================================================== *)
(** ** Properties of the quiz generator *)
(* ================================================================== *)

Ltac quiz_steps :=
  cbn [nonempty negb bind emit ret throw truthy app fst snd].

(** In the sample world the run gets as far as any reply text. *)
Lemma sample_reply (text : jsstring) :
  reply_text_is PdfJsPlainRev sample_libs (replying text)
                (sample_state pdf_file) text.
Proof.
  exists pdf_file, [], (js "Hello there" ++ newline ++ js "World"),
    (mkResponse 200 (js "OK") (Some (envelope text))), (envelope text).
  repeat split; reflexivity.
Defined.

(** C4: whatever text the extractor hands over, when it is empty or
    consists of white space only, [generateQuiz] reports 'No text could be
    extracted from the file' (EmptyInput) right after extraction. Its
    trace is the two opening events, the events of the extractor and the
    failure report: the run adds no request of its own, whatever the
    network would have answered. When the extractor only logs, as every
    revision of [extractTextFromFile] does, the run therefore ends as that
    failure with no request at all. *)
Theorem C4_blank_text_fails_before_any_request
        (extract : File -> M jsstring) (net : Network) (st : State)
        (file : File) (ev : list event) (text : jsstring) :
  isReadyToGenerate st = true ->
  selectedFile st = Some file ->
  extract file = (ev, inr text) ->
  forallb is_js_space text = true ->
  fst (generateQuiz extract net st)
  = [SetIsGenerating true; ShowToast ProcessingDocument] ++ ev
    ++ [ConsoleError "Quiz generation error:" NoTextExtracted;
        ShowToast (GenerationFailed NoTextExtracted);
        SetIsGenerating false]
  /\ kind_of NoTextExtracted = EmptyInput
  /\ requests (fst (generateQuiz extract net st)) = requests ev
  /\ (forallb is_console ev = true ->
      outcome_of (fst (generateQuiz extract net st)) = Failed NoTextExtracted
      /\ requests (fst (generateQuiz extract net st)) = 0).
Proof.
  intros Hready Hfile Hext Hblank.
  apply trim_blank in Hblank.
  assert (Hrun : fst (generateQuiz extract net st)
                 = [SetIsGenerating true; ShowToast ProcessingDocument] ++ ev
                   ++ [ConsoleError "Quiz generation error:" NoTextExtracted;
                       ShowToast (GenerationFailed NoTextExtracted);
                       SetIsGenerating false]).
  { unfold generateQuiz. rewrite Hready, Hfile. cbn [negb].
    unfold generateQuiz_try. rewrite Hext. quiz_steps.
    rewrite Hblank. cbn. now rewrite <- !app_assoc. }
  assert (Hreq : requests (fst (generateQuiz extract net st)) = requests ev).
  { rewrite Hrun. unfold requests. cbn [app filter is_fetch].
    rewrite filter_app, length_app. cbn. lia. }
  split; [exact Hrun|]. split; [reflexivity|]. split; [exact Hreq|].
  intros Hev. split.
  - rewrite Hrun. cbn [app outcome_of].
    now rewrite (outcome_of_console _ _ Hev).
  - rewrite Hreq. exact (requests_console _ Hev).
Qed.

(** C4 on a reader that hands over a space, a tab, a line feed and a
    no-break space. *)
Lemma C4_blank_text_fails_before_any_request_witness :
  isReadyToGenerate (sample_state txt_file) = true
  /\ selectedFile (sample_state txt_file) = Some txt_file
  /\ raw_reader blank_text txt_file = ([], inr blank_text)
  /\ forallb is_js_space blank_text = true
  /\ outcome_of (fst (generateQuiz (raw_reader blank_text)
                        (replying example_array) (sample_state txt_file)))
     = Failed NoTextExtracted
  /\ requests (fst (generateQuiz (raw_reader blank_text)
                      (replying example_array) (sample_state txt_file))) = 0.
Proof.
  pose proof (C4_blank_text_fails_before_any_request
                (raw_reader blank_text) (replying example_array)
                (sample_state txt_file) txt_file [] blank_text
                eq_refl eq_refl eq_refl eq_refl) as (_ & _ & _ & H).
  destruct (H eq_refl) as [Ho Hr].
  repeat split; assumption.
Defined.

(** The readers of this repository trim what they return, so through
    [extractTextFromFile] a blank text reaches the guard as the empty
    string. *)
Lemma extracted_blank_is_empty (L : Libs) (r : revision) (file : File)
      (ev : list event) (text : jsstring) :
  extractTextFromFile L r file = (ev, inr text) ->
  forallb is_js_space text = true ->
  text = [].
Proof.
  intros H Hblank. apply trim_blank in Hblank.
  destruct (dispatch_cases L r file) as [[f Hf]|Hf].
  - rewrite Hf in H. apply dispatched_success in H.
    now rewrite <- (reader_trimmed L r f file ev text H).
  - rewrite H in Hf. discriminate.
Qed.

(** A text file of three spaces is read as the empty string. *)
Example three_spaces_extract_empty :
  extractTextFromFile blank_libs PdfLibRev txt_file = ([], inr []).
Proof. reflexivity. Qed.

(** C6: when the response carries a status outside 200..299, the run
    reports the API error with that status (NetworkFailure); the body of
    the response is never read, so nothing of it is parsed or validated. *)
Theorem C6_non_success_status_is_network_failure
        (r : revision) (L : Libs) (net : Network) (st : State)
        (file : File) (ev : list event) (text : jsstring)
        (response : Response) :
  isReadyToGenerate st = true ->
  selectedFile st = Some file ->
  extractTextFromFile L r file = (ev, inr text) ->
  nonempty (trim text) = true ->
  net (endpoint (apiKey st)) (systemPrompt (settings st) text)
  = Some response ->
  (status response < 200 \/ 299 < status response)%N ->
  let failure := ApiError (status response) (statusText response) in
  run r L net st
  = [SetIsGenerating true; ShowToast ProcessingDocument] ++ ev
    ++ [ShowToast GeneratingQuiz;
        Fetch (endpoint (apiKey st)) (systemPrompt (settings st) text);
        ConsoleError "Quiz generation error:" failure;
        ShowToast (GenerationFailed failure);
        SetIsGenerating false]
  /\ outcome_of (run r L net st) = Failed failure
  /\ kind_of failure = NetworkFailure
  /\ existsb is_read_body (run r L net st) = false.
Proof.
  intros Hready Hfile Hext Hne Hnet Hstatus failure.
  assert (Hok : ok response = false).
  { unfold ok. apply andb_false_iff.
    destruct Hstatus as [H|H]; [left|right]; apply N.leb_gt; exact H. }
  pose proof (extract_console L r file) as Hev. rewrite Hext in Hev.
  cbn [fst] in Hev.
  assert (Hrun : run r L net st
                 = [SetIsGenerating true; ShowToast ProcessingDocument] ++ ev
                   ++ [ShowToast GeneratingQuiz;
                       Fetch (endpoint (apiKey st))
                             (systemPrompt (settings st) text);
                       ConsoleError "Quiz generation error:" failure;
                       ShowToast (GenerationFailed failure);
                       SetIsGenerating false]).
  { rewrite (run_ready r L net st file Hready Hfile).
    unfold generateQuiz_try. rewrite Hext. quiz_steps.
    rewrite Hne. quiz_steps. rewrite Hnet. quiz_steps.
    rewrite Hok. quiz_steps. now rewrite <- !app_assoc. }
  split; [exact Hrun|]. rewrite Hrun. split; [|split].
  - cbn [app outcome_of]. now rewrite (outcome_of_console _ _ Hev).
  - reflexivity.
  - cbn [app existsb is_read_body]. rewrite existsb_app.
    now rewrite (read_body_console _ Hev).
Qed.

(** C6 on an endpoint that answers 503. *)
Lemma C6_non_success_status_is_network_failure_witness :
  isReadyToGenerate (sample_state pdf_file) = true
  /\ (503 < 200 \/ 299 < 503)%N
  /\ outcome_of (run PdfJsPlainRev sample_libs unavailable
                     (sample_state pdf_file))
     = Failed (ApiError 503 (js "Service Unavailable"))
  /\ existsb is_read_body (run PdfJsPlainRev sample_libs unavailable
                               (sample_state pdf_file)) = false.
Proof.
  pose proof (C6_non_success_status_is_network_failure
                PdfJsPlainRev sample_libs unavailable (sample_state pdf_file)
                pdf_file [] (js "Hello there" ++ newline ++ js "World")
                (mkResponse 503 (js "Service Unavailable") None)
                eq_refl eq_refl eq_refl eq_refl eq_refl
                (or_intror eq_refl)) as (_ & Ho & _ & Hb).
  split; [reflexivity|]. split; [right; reflexivity|].
  split; [exact Ho|exact Hb].
Defined.

(** C1 as stated fails: a reply whose question carries index 7 passes the
    shape check and is handed over as it is, although 7 is outside 0..3. *)
Lemma C1_out_of_range_index_counterexample :
  outcome_of (run PdfJsPlainRev sample_libs (replying out_of_range_array)
                  (sample_state pdf_file))
  = Returned [out_of_range_question]
  /\ prop "correctAnswerIndex" out_of_range_question
     = Some (JNum (mkNumber false 7 0))
  /\ Question_shape out_of_range_question = false.
Proof.
  split; [|split; reflexivity].
  rewrite (reply_outcome_run _ _ _ _ _ (sample_reply out_of_range_array)).
  vm_compute. reflexivity.
Qed.

(** C1, as the code has it: every question of a returned sequence is an
    object with a truthy question, an options array of exactly four
    entries (of any JSON type), a correctAnswerIndex that is a number (any
    number) and a truthy hint; the sequence is not empty. *)
Theorem C1_returned_questions_pass_shape_check
        (r : revision) (L : Libs) (net : Network) (st : State)
        (qs : list json) :
  outcome_of (run r L net st) = Returned qs ->
  qs <> [] /\ Forall accepted_shape qs.
Proof.
  intros H.
  destruct (returned_inv r L net st qs H) as (text & _ & Ho).
  destruct (reply_outcome_returned text qs Ho) as (m & _ & _ & Hne & Hall).
  split; [exact Hne|].
  eapply Forall_impl; [|exact Hall].
  intros q Hq. now apply valid_question_accepts.
Qed.

(** The array of section 8, alone in the reply, is returned. *)
Lemma example_reply_outcome :
  outcome_of (run PdfJsPlainRev sample_libs (replying example_array)
                  (sample_state pdf_file))
  = Returned [example_question].
Proof.
  rewrite (reply_outcome_run _ _ _ _ _ (sample_reply example_array)).
  vm_compute. reflexivity.
Defined.

(** C1 on the array of section 8. *)
Lemma C1_returned_questions_pass_shape_check_witness :
  outcome_of (run PdfJsPlainRev sample_libs (replying example_array)
                  (sample_state pdf_file))
  = Returned [example_question]
  /\ [example_question] <> []
  /\ Forall accepted_shape [example_question].
Proof.
  split; [exact example_reply_outcome|].
  exact (C1_returned_questions_pass_shape_check
           PdfJsPlainRev sample_libs (replying example_array)
           (sample_state pdf_file) [example_question] example_reply_outcome).
Defined.

(** C2: validation is all-or-nothing. A run hands over questions only when
    the matched text parses to a non-empty array each element of which
    passes the shape check, and then it hands over that whole array. When
    the parsed array has an element that does not pass, whatever the other
    elements are, the run fails in the validation stage
    (ValidationFailure): with 'Generated questions have invalid format',
    or with the TypeError of reading [question] on a [null] element that
    [every] reaches first. A parsed value that is not a non-empty array
    fails with 'No valid questions generated'. *)
Theorem C2_validation_all_or_nothing
        (r : revision) (L : Libs) (net : Network) (st : State) :
  (forall qs,
      outcome_of (run r L net st) = Returned qs ->
      exists text m,
        reply_text_is r L net st text
        /\ match_array text = Some m
        /\ JSON_parse m = Some (JArr qs)
        /\ qs <> []
        /\ Forall (fun q => valid_question q = ret true) qs)
  /\ (forall text m v,
         reply_text_is r L net st text ->
         match_array text = Some m ->
         JSON_parse m = Some v ->
         (forall l,
             v = JArr l ->
             Exists (fun q => valid_question q <> ret true) l ->
             exists e,
               outcome_of (run r L net st) = Failed e
               /\ kind_of e = ValidationFailure
               /\ (e = InvalidQuestionFormat \/ e = TypeError QuestionOfNull))
         /\ (forall l,
                v = JArr l -> l <> [] ->
                Forall (fun q => valid_question q = ret true) l ->
                outcome_of (run r L net st) = Returned l)
         /\ ((forall l, v = JArr l -> l = []) ->
             outcome_of (run r L net st) = Failed NoValidQuestions
             /\ kind_of NoValidQuestions = ValidationFailure)).
Proof.
  split.
  - intros qs H.
    destruct (returned_inv r L net st qs H) as (text & Hreply & Ho).
    destruct (reply_outcome_returned text qs Ho) as (m & Hm & Hp & Hne & Hall).
    now exists text, m.
  - intros text m v Hreply Hm Hp.
    rewrite (reply_outcome_run r L net st text Hreply).
    rewrite (reply_outcome_parsed text m v Hm Hp).
    split; [|split].
    + intros l -> Hex.
      destruct l as [|q l]; [inversion Hex|].
      destruct (every_valid_cases (q :: l)) as [[_ Hall]|[[He|He] _]].
      * exfalso. exact (Forall_Exists_neg_absurd _ _ Hall Hex).
      * rewrite He. exists InvalidQuestionFormat. cbn. auto.
      * rewrite He. exists (TypeError QuestionOfNull). cbn. auto.
    + intros l -> Hne Hall.
      destruct l as [|q l]; [congruence|].
      destruct (every_valid_cases (q :: l)) as [[He _]|[_ Hex]].
      * now rewrite He.
      * exfalso. exact (Forall_Exists_neg_absurd _ _ Hall Hex).
    + intros Hv. split; [|reflexivity].
      destruct v as [| | | |[|q l]|]; try reflexivity.
      specialize (Hv _ eq_refl). discriminate.
Qed.

(** The example of C2: two questions, the second with three options; the
    batch is rejected although the first question is valid. *)
Lemma C2_validation_all_or_nothing_witness :
  reply_text_is PdfJsPlainRev sample_libs (replying short_options_array)
                (sample_state pdf_file) short_options_array
  /\ match_array short_options_array = Some short_options_array
  /\ JSON_parse short_options_array
     = Some (JArr [example_question; short_options_question])
  /\ valid_question example_question = ret true
  /\ Exists (fun q => valid_question q <> ret true)
            [example_question; short_options_question]
  /\ outcome_of (run PdfJsPlainRev sample_libs (replying short_options_array)
                     (sample_state pdf_file))
     = Failed InvalidQuestionFormat.
Proof.
  assert (Hex : Exists (fun q => valid_question q <> ret true)
                       [example_question; short_options_question]).
  { apply Exists_cons_tl, Exists_cons_hd. vm_compute. discriminate. }
  destruct (C2_validation_all_or_nothing
              PdfJsPlainRev sample_libs (replying short_options_array)
              (sample_state pdf_file)) as [_ H].
  destruct (H short_options_array short_options_array
              (JArr [example_question; short_options_question])
              (sample_reply short_options_array) eq_refl eq_refl)
    as [Hrej _].
  destruct (Hrej _ eq_refl Hex) as (e & Ho & _ & _).
  split; [apply sample_reply|]. split; [reflexivity|].
  split; [reflexivity|]. split; [reflexivity|]. split; [exact Hex|].
  rewrite Ho.
  rewrite (reply_outcome_run _ _ _ _ _ (sample_reply short_options_array))
    in Ho.
  vm_compute in Ho. now inversion Ho.
Defined.

(** A [null] element makes the check throw; the batch is rejected all the
    same, in the validation stage. *)
Example null_element_rejected :
  outcome_of (run PdfJsPlainRev sample_libs (replying (js "[null]"))
                  (sample_state pdf_file))
  = Failed (TypeError QuestionOfNull).
Proof.
  rewrite (reply_outcome_run _ _ _ _ _ (sample_reply (js "[null]"))).
  vm_compute. reflexivity.
Qed.

(** C3 as stated fails when the prose itself holds a bracket: the match
    then runs from the bracket of the prose to the end of the array, and
    that text is not JSON. *)
Lemma C3_bracket_in_prose_counterexample :
  reply_text_is PdfJsPlainRev sample_libs
    (replying (js "As noted in [1], here is the quiz: " ++ example_array
               ++ js " Enjoy."))
    (sample_state pdf_file)
    (js "As noted in [1], here is the quiz: " ++ example_array ++ js " Enjoy.")
  /\ match_array (js "As noted in [1], here is the quiz: " ++ example_array
                  ++ js " Enjoy.")
     = Some (js "[1], here is the quiz: " ++ example_array)
  /\ outcome_of
       (run PdfJsPlainRev sample_libs
            (replying (js "As noted in [1], here is the quiz: "
                       ++ example_array ++ js " Enjoy."))
            (sample_state pdf_file))
     = Failed JsonSyntaxError.
Proof.
  split; [apply sample_reply|]. split; [reflexivity|].
  rewrite (reply_outcome_run _ _ _ _ _ (sample_reply _)).
  vm_compute. reflexivity.
Qed.

(** C3, for prose that has no opening bracket before the array and no
    closing bracket after it: the text from the first opening bracket to
    the last closing bracket is the array, it parses, and the run returns
    exactly one question, with question Q1, options A, B, C, D,
    correctAnswerIndex 1 and hint H1. *)
Theorem C3_embedded_array_is_parsed
        (r : revision) (L : Libs) (net : Network) (st : State)
        (before after : jsstring) :
  reply_text_is r L net st (before ++ example_array ++ after) ->
  existsb (N.eqb 91) before = false ->
  existsb (N.eqb 93) after = false ->
  match_array (before ++ example_array ++ after) = Some example_array
  /\ JSON_parse example_array = Some (JArr [example_question])
  /\ outcome_of (run r L net st) = Returned [example_question]
  /\ prop "question" example_question = Some (JStr (js "Q1"))
  /\ prop "options" example_question
     = Some (JArr [JStr (js "A"); JStr (js "B"); JStr (js "C"); JStr (js "D")])
  /\ prop "correctAnswerIndex" example_question
     = Some (JNum (mkNumber false 1 0))
  /\ prop "hint" example_question = Some (JStr (js "H1")).
Proof.
  intros Hreply Hbefore Hafter.
  assert (Hshape : example_array
                   = 91%N :: removelast (tl example_array) ++ [93%N])
    by reflexivity.
  assert (Hm : match_array (before ++ example_array ++ after)
               = Some example_array).
  { rewrite Hshape at 1.
    rewrite (match_array_embedded before _ after Hbefore Hafter).
    now rewrite <- Hshape. }
  assert (Hp : JSON_parse example_array = Some (JArr [example_question]))
    by (vm_compute; reflexivity).
  split; [exact Hm|]. split; [exact Hp|].
  split; [|repeat split; reflexivity].
  rewrite (reply_outcome_run r L net st _ Hreply).
  rewrite (reply_outcome_parsed _ _ _ Hm Hp).
  vm_compute. reflexivity.
Qed.

(** C3 on prose without brackets around the array. *)
Lemma C3_embedded_array_is_parsed_witness :
  reply_text_is PdfJsPlainRev sample_libs
    (replying (js "Sure! Here is your quiz: " ++ example_array ++ js " Enjoy."))
    (sample_state pdf_file)
    (js "Sure! Here is your quiz: " ++ example_array ++ js " Enjoy.")
  /\ existsb (N.eqb 91) (js "Sure! Here is your quiz: ") = false
  /\ existsb (N.eqb 93) (js " Enjoy.") = false
  /\ outcome_of
       (run PdfJsPlainRev sample_libs
            (replying (js "Sure! Here is your quiz: " ++ example_array
                       ++ js " Enjoy."))
            (sample_state pdf_file))
     = Returned [example_question].
Proof.
  split; [apply sample_reply|]. split; [reflexivity|]. split; [reflexivity|].
  exact (proj1 (proj2 (proj2
    (C3_embedded_array_is_parsed
       PdfJsPlainRev sample_libs
       (replying (js "Sure! Here is your quiz: " ++ example_array
                  ++ js " Enjoy."))
       (sample_state pdf_file)
       (js "Sure! Here is your quiz: ") (js " Enjoy.")
       (sample_reply _) eq_refl eq_refl)))).
Defined.

(* ================================================================== *)
(** ** Further properties of the extractor *)
(* ================================================================== *)

(** What a handler that logs and rethrows makes of a failure. *)
Lemma rethrow_inl {A} (m : M A) label e' ev e :
  try_catch m (fun error => emit (ConsoleError label error);; throw e')
  = (ev, inl e) ->
  e = e' /\ exists before cause,
      m = (before, inl cause) /\ ev = before ++ [ConsoleError label cause].
Proof.
  destruct m as [t [e0|a]]; cbn; intros H; inversion H; subst.
  split; [reflexivity|]. now exists t, e0.
Qed.

(** A reader that returns text has logged nothing. *)
Lemma reader_success_silent (L : Libs) r f file ev text :
  reader L r f file = (ev, inr text) -> ev = [].
Proof.
  assert (Hjs : forall ev text,
             extractTextFromPDF_pdfjs L file = (ev, inr text) -> ev = []).
  { intros ev0 t. unfold extractTextFromPDF_pdfjs.
    destruct (pdfjs_getDocument L (file_data file)) as [pdf|];
      [|discriminate].
    intros H. apply bind_inr in H.
    destruct H as (t1 & a & t2 & Hloop & Hk & ->).
    pose proof (pages_loop_silent pdf (numPages pdf) 1 []) as Hs.
    rewrite Hloop in Hs. cbn [fst] in Hs. subst t1.
    now inversion Hk. }
  assert (Hdocx : forall ev text,
             extractTextFromDOCX_plain L file = (ev, inr text) -> ev = []).
  { intros ev0 t. unfold extractTextFromDOCX_plain.
    destruct (mammoth_extractRawText L (file_data file)); [|discriminate].
    intros H. now inversion H. }
  assert (Htxt : forall ev text,
             extractTextFromTXT L file = (ev, inr text) -> ev = []).
  { intros ev0 t. unfold extractTextFromTXT.
    destruct (FileReader_readAsText L (file_data file)); [|discriminate].
    intros H. now inversion H. }
  destruct f, r; cbn [reader extractTextFromPDF extractTextFromDOCX];
    intros H; eauto;
    try (apply try_catch_inr in H; [|apply rethrow_shape]; now eauto).
  unfold extractTextFromPDF_pdflib in H.
  apply try_catch_inr in H; [|apply rethrow_shape].
  destruct (PDFDocument_load L (file_data file)) as [d|]; [|discriminate].
  apply bind_inr in H. destruct H as (t1 & a & t2 & Hfirst & Hk & ->).
  inversion Hk; subst.
  destruct (negb (nonempty (trim (collect_fields (getFields d))))).
  - pose proof (sizes_loop_silent L d (Nat.min (getPageCount d) 5) 0
                  (js "PDF document with " ++ dec (getPageCount d)
                   ++ js " pages. ")) as Hs.
    rewrite Hfirst in Hs. cbn [fst] in Hs. now subst t1.
  - now inversion Hfirst.
Qed.

Lemma extract_success_silent (L : Libs) r file ev text :
  extractTextFromFile L r file = (ev, inr text) -> ev = [].
Proof.
  intros H. destruct (dispatch_cases L r file) as [[f Hf]|Hf].
  - rewrite Hf in H. apply dispatched_success in H.
    exact (reader_success_silent L r f file ev text H).
  - rewrite H in Hf. discriminate.
Qed.

Lemma extract_failure_generic (L : Libs) r file ev e :
  extractTextFromFile L r file = (ev, inl e) -> e = FailedToExtractText.
Proof.
  unfold extractTextFromFile. intros H. now apply rethrow_inl in H.
Qed.

(** X17: every failure of [extractTextFromFile] reaches the caller as the
    one generic error, whatever went wrong (a reader's own error with its
    hint, a library rejection, an unsupported type); the cause is only
    logged, as the last console entry. A successful extraction logs
    nothing. *)
Theorem extraction_failures_surface_alike (L : Libs) (r : revision)
        (file : File) :
  match extractTextFromFile L r file with
  | (ev, inl e) =>
      e = FailedToExtractText
      /\ exists before cause,
          ev = before
               ++ [ConsoleError "Error extracting text from file:" cause]
  | (ev, inr _) => ev = []
  end.
Proof.
  destruct (extractTextFromFile L r file) as [ev [e|text]] eqn:E.
  - unfold extractTextFromFile in E. apply rethrow_inl in E.
    destruct E as (-> & before & cause & _ & ->).
    split; [reflexivity|]. now exists before, cause.
  - exact (extract_success_silent L r file ev text E).
Qed.

Lemma reader_same_data (L : Libs) r f (a b : File) :
  file_data a = file_data b -> reader L r f a = reader L r f b.
Proof.
  intros H.
  destruct f, r; cbn [reader extractTextFromPDF extractTextFromDOCX];
    unfold extractTextFromPDF_pdflib, extractTextFromPDF_pdfjs_guarded,
      extractTextFromPDF_pdfjs, extractTextFromDOCX_guarded,
      extractTextFromDOCX_plain, extractTextFromTXT;
    now rewrite H.
Qed.

(** X18: the file name counts only through its lower-case form: two files
    with the same declared type and content whose names differ in letter
    case alone are treated alike, in every revision. *)
Theorem extraction_ignores_name_case (L : Libs) (r : revision) (a b : File) :
  same_up_to_case a b ->
  extractTextFromFile L r a = extractTextFromFile L r b.
Proof.
  intros (Htype & Hname & Hdata). unfold extractTextFromFile.
  rewrite Htype, Hname.
  pose proof (reader_same_data L r PDF a b Hdata) as Hp.
  pose proof (reader_same_data L r DOCX a b Hdata) as Hd.
  pose proof (reader_same_data L r TXT a b Hdata) as Ht.
  cbn [reader] in Hp, Hd, Ht. now rewrite Hp, Hd, Ht.
Qed.

(** X18 on Notes.PDF and notes.pdf. *)
Lemma extraction_ignores_name_case_witness :
  same_up_to_case plain_named_pdf (mkFile "text/plain" "notes.pdf" [])
  /\ extractTextFromFile sample_libs PdfLibRev plain_named_pdf
     = extractTextFromFile sample_libs PdfLibRev
         (mkFile "text/plain" "notes.pdf" []).
Proof.
  assert (H : same_up_to_case plain_named_pdf
                (mkFile "text/plain" "notes.pdf" []))
    by (repeat split; reflexivity).
  split; [exact H|].
  exact (extraction_ignores_name_case sample_libs PdfLibRev _ _ H).
Defined.

(** *** pdf.js *)

Lemma pages_loop_fails pdf : forall k i0 acc i,
  i0 <= i < i0 + k -> getPage pdf i = None ->
  snd (pages_loop pdf k i0 acc) = inl (LibraryError PdfJs).
Proof.
  induction k as [|k IH]; intros i0 acc i Hi Hnone; [lia|].
  cbn [pages_loop].
  destruct (getPage pdf i0) as [items|] eqn:E; [|reflexivity].
  apply (IH (S i0) _ i); [|exact Hnone].
  destruct (Nat.eq_dec i i0) as [->|Hne]; [congruence|lia].
Qed.

Lemma pdfjs_reader_text (L : Libs) file pdf pages :
  pdfjs_getDocument L (file_data file) = Some pdf ->
  page_items pdf = map Some pages ->
  extractTextFromPDF_pdfjs L file
  = ret (trim (join newline (map (join space) pages))).
Proof.
  intros Hdoc Hpages. unfold extractTextFromPDF_pdfjs. rewrite Hdoc.
  rewrite (pages_loop_ok pdf pages) by exact Hpages.
  rewrite bind_ret_l. cbn [app].
  rewrite <- (trim_lines (map (join space) pages)).
  now rewrite map_map.
Qed.

(** X20: in the pdf.js revisions one page that cannot be read fails the
    whole document: no text of the pages before it is returned. *)
Theorem pdfjs_unreadable_page_fails (L : Libs) (r : revision) (file : File)
        (pdf : PDFDocumentProxy) (i : nat) :
  r <> PdfLibRev ->
  pdfjs_getDocument L (file_data file) = Some pdf ->
  1 <= i <= numPages pdf ->
  getPage pdf i = None ->
  snd (extractTextFromPDF L r file)
  = inl (match r with
         | PdfJsPlainRev => LibraryError PdfJs
         | _ => FailedToProcessPDF
         end)
  /\ (matches PDF file = true ->
      snd (extractTextFromFile L r file) = inl FailedToExtractText).
Proof.
  intros Hr Hdoc Hi Hnone.
  assert (Hplain : snd (extractTextFromPDF_pdfjs L file)
                   = inl (LibraryError PdfJs)).
  { unfold extractTextFromPDF_pdfjs. rewrite Hdoc.
    pose proof (pages_loop_fails pdf (numPages pdf) 1 [] i
                  ltac:(lia) Hnone) as Hl.
    destruct (pages_loop pdf (numPages pdf) 1 []) as [t [e|x]];
      cbn in *; congruence. }
  assert (Hreader : snd (extractTextFromPDF L r file)
                    = inl (match r with
                           | PdfJsPlainRev => LibraryError PdfJs
                           | _ => FailedToProcessPDF
                           end)).
  { destruct r; cbn [extractTextFromPDF]; [congruence| |exact Hplain].
    unfold extractTextFromPDF_pdfjs_guarded.
    destruct (extractTextFromPDF_pdfjs L file) as [t [e|x]];
      cbn in *; congruence. }
  split; [exact Hreader|].
  intros Hm.
  rewrite (dispatch_first_match L r file PDF Hm)
    by (intros g Hg; cbn in Hg; lia).
  unfold dispatched. cbn [reader].
  destruct (extractTextFromPDF L r file) as [t [e|x]];
    cbn in *; congruence.
Qed.

(** X20 on a two-page document whose second page cannot be read. *)
Lemma pdfjs_unreadable_page_fails_witness :
  PdfJsGuardedRev <> PdfLibRev
  /\ pdfjs_getDocument torn_libs (file_data pdf_file) = Some torn_pdf
  /\ 1 <= 2 <= numPages torn_pdf
  /\ getPage torn_pdf 2 = None
  /\ snd (extractTextFromPDF torn_libs PdfJsGuardedRev pdf_file)
     = inl FailedToProcessPDF.
Proof.
  split; [discriminate|]. split; [reflexivity|].
  split; [cbn; lia|]. split; [reflexivity|].
  exact (proj1 (pdfjs_unreadable_page_fails torn_libs PdfJsGuardedRev
                  pdf_file torn_pdf 2 ltac:(discriminate) eq_refl
                  ltac:(cbn; lia) eq_refl)).
Defined.


(** *** pdf-lib *)

Lemma collect_fields_concat (fields : list PDFField) :
  collect_fields fields
  = concat (map (fun text => text ++ space) (field_texts fields)).
Proof.
  unfold collect_fields, field_texts.
  rewrite <- (app_nil_l (concat _)). generalize (@nil N) as acc.
  induction fields as [|field rest IH]; intros acc.
  - cbn. now rewrite app_nil_r.
  - cbn [fold_left filter]. unfold is_text_field at 1.
    destruct (String.eqb (constructor_name field) "PDFTextField").
    + rewrite IH. cbn [map concat]. now rewrite <- !app_assoc.
    + apply IH.
Qed.

Lemma concat_separated (sep : jsstring) (l : list jsstring) :
  l <> [] ->
  concat (map (fun x => x ++ sep) l) = join sep l ++ sep.
Proof.
  induction l as [|x r IH]; [congruence|]. intros _.
  destruct r as [|y r'].
  - cbn. now rewrite app_nil_r.
  - change (concat (map (fun x => x ++ sep) (x :: y :: r')))
      with ((x ++ sep) ++ concat (map (fun x => x ++ sep) (y :: r'))).
    rewrite IH by discriminate.
    change (join sep (x :: y :: r')) with (x ++ sep ++ join sep (y :: r')).
    now rewrite <- !app_assoc.
Qed.

Lemma trim_spaced (l : list jsstring) :
  trim (concat (map (fun x => x ++ space) l)) = trim (join space l).
Proof.
  destruct l as [|x r]; [reflexivity|].
  rewrite concat_separated by discriminate.
  change space with [32%N] at 2. now apply trim_snoc_space.
Qed.



(** What the pdf-lib reader returns is never the empty string. *)
Lemma pdflib_nonempty (L : Libs) (file : File) ev text :
  extractTextFromPDF_pdflib L file = (ev, inr text) -> nonempty text = true.
Proof.
  unfold extractTextFromPDF_pdflib. intros H.
  apply try_catch_inr in H; [|apply rethrow_shape].
  destruct (PDFDocument_load L (file_data file)) as [d|]; [|discriminate].
  apply bind_inr in H. destruct H as (t1 & a & t2 & _ & Hk & _).
  inversion Hk. destruct (nonempty (trim a)) eqn:E; [exact E|reflexivity].
Qed.

(** *** pdf-lib: fields without text *)

Lemma undefined_units :
  js "undefined" = [117; 110; 100; 101; 102; 105; 110; 101; 100]%N.
Proof. reflexivity. Qed.

Lemma forallb_space_app (a b : jsstring) :
  forallb is_js_space a = true -> forallb is_js_space b = true ->
  forallb is_js_space (a ++ b) = true.
Proof. intros Ha Hb. rewrite forallb_app, Ha, Hb. reflexivity. Qed.

(** Text fields that hold only white space collect to a blank string. *)
Lemma blank_fields_collect_blank (texts : list jsstring) :
  Forall (fun text => forallb is_js_space text = true) texts ->
  trim (concat (map (fun text => text ++ space) texts)) = [].
Proof.
  intros H. apply trim_blank.
  induction H as [|text rest Ht _ IH]; [reflexivity|].
  cbn [map concat]. apply forallb_space_app; [|exact IH].
  now apply forallb_space_app.
Qed.

(** Among fields that hold no text, the first one without a value puts
    the word undefined at the head of the collected text. *)
Lemma unset_field_leads (fields : list PDFField) :
  forallb holds_no_text fields = true ->
  existsb unset fields = true ->
  exists rest,
    trimStart (concat (map (fun text => text ++ space)
                           (map (fun field => to_string (getText field))
                                fields)))
    = js "undefined" ++ space ++ rest.
Proof.
  induction fields as [|field rest IH]; [discriminate|].
  cbn [forallb existsb map concat]. unfold holds_no_text at 1, unset at 1.
  destruct (getText field) as [text|]; cbn [to_string orb andb].
  - intros Hall Hsome. apply andb_prop in Hall. destruct Hall as [Ht Hrest].
    destruct (IH Hrest Hsome) as [tail Htail]. exists tail.
    rewrite trimStart_app.
    assert (Hb : trimStart (text ++ space) = []).
    { apply trimStart_blank. now apply forallb_space_app. }
    now rewrite Hb.
  - intros _ _. eexists. rewrite <- app_assoc.
    rewrite undefined_units. reflexivity.
Qed.

Lemma trim_undefined_leads (s rest : jsstring) :
  trimStart s = js "undefined" ++ rest ->
  trim s = js "undefined" ++ trimEnd rest.
Proof.
  intros H. unfold trim. rewrite H, undefined_units. cbn [app].
  now rewrite !trimEnd_cons by reflexivity.
Qed.

Lemma placeholder_head (L : Libs) (pdfDoc : PDFDocument) :
  exists rest, trim (placeholder L pdfDoc) = 80%N :: rest.
Proof.
  unfold placeholder.
  change (js "PDF document with ") with (80%N :: js "DF document with ").
  cbn [app]. unfold trim. cbn [trimStart].
  change (is_js_space 80) with false. cbv iota.
  rewrite trimEnd_cons by reflexivity. now eexists.
Qed.

(** C10, pdf-lib revision: a form none of whose text fields holds text,
    one of them never given a value, is not answered with the placeholder.
    [getText()] is [undefined] for that field and the concatenation turns
    it into the word undefined, so the collected text is not blank: the
    reader returns it, trimmed, and it starts with that word. It is
    neither the page-count placeholder nor the fallback sentence. The same
    holds through [extractTextFromFile] for a file dispatched as PDF. *)
Theorem C10_unset_text_field_is_read_as_text
        (L : Libs) (file : File) (pdfDoc : PDFDocument) :
  PDFDocument_load L (file_data file) = Some pdfDoc ->
  forallb holds_no_text (filter is_text_field (getFields pdfDoc)) = true ->
  existsb unset (filter is_text_field (getFields pdfDoc)) = true ->
  extractTextFromPDF L PdfLibRev file
  = ret (trim (join space (field_texts (getFields pdfDoc))))
  /\ firstn 9 (trim (join space (field_texts (getFields pdfDoc))))
     = js "undefined"
  /\ trim (join space (field_texts (getFields pdfDoc)))
     <> trim (placeholder L pdfDoc)
  /\ trim (join space (field_texts (getFields pdfDoc))) <> no_readable_text
  /\ (matches PDF file = true ->
      extractTextFromFile L PdfLibRev file
      = ret (trim (join space (field_texts (getFields pdfDoc))))).
Proof.
  intros Hload Hall Hsome.
  destruct (unset_field_leads _ Hall Hsome) as [rest Hrest].
  fold (field_texts (getFields pdfDoc)) in Hrest.
  apply trim_undefined_leads in Hrest.
  rewrite trim_spaced in Hrest.
  assert (Hread : extractTextFromPDF L PdfLibRev file
                  = ret (trim (join space (field_texts (getFields pdfDoc))))).
  { cbn [extractTextFromPDF]. unfold extractTextFromPDF_pdflib.
    rewrite Hload.
    assert (Hne : nonempty (trim (collect_fields (getFields pdfDoc))) = true).
    { rewrite collect_fields_concat, trim_spaced, Hrest, undefined_units.
      reflexivity. }
    rewrite Hne. cbn [negb]. rewrite bind_ret_l, Hne.
    now rewrite collect_fields_concat, trim_spaced. }
  split; [exact Hread|]. rewrite Hrest. split; [|split; [|split]].
  - rewrite undefined_units. reflexivity.
  - destruct (placeholder_head L pdfDoc) as [tail ->].
    rewrite undefined_units. discriminate.
  - rewrite undefined_units. discriminate.
  - intros Hm.
    rewrite (dispatch_first_match L PdfLibRev file PDF Hm)
      by (intros g Hg; cbn in Hg; lia).
    unfold dispatched. cbn [reader]. rewrite Hread, <- Hrest. reflexivity.
Qed.

(** C10 on a two-page form with a check box and one text field that was
    never filled in: the reader returns the word undefined. *)
Lemma C10_unset_text_field_is_read_as_text_witness :
  PDFDocument_load unfilled_libs (file_data pdf_file) = Some unfilled_form
  /\ forallb holds_no_text (filter is_text_field (getFields unfilled_form))
     = true
  /\ existsb unset (filter is_text_field (getFields unfilled_form)) = true
  /\ extractTextFromPDF unfilled_libs PdfLibRev pdf_file
     = ret (js "undefined")
  /\ js "undefined" <> trim (placeholder unfilled_libs unfilled_form).
Proof.
  destruct (C10_unset_text_field_is_read_as_text
              unfilled_libs pdf_file unfilled_form eq_refl eq_refl eq_refl)
    as (Hread & _ & Hplace & _).
  repeat split; assumption.
Defined.

(** X24: in the pdf-lib revision, when every text field of the form holds
    a string of white space only (in particular when the form has no text
    field), the PDF path does not fail and returns the trimmed
    placeholder, which is not empty: the page count followed by one size
    note per page for the first five pages at most. The same holds
    through [extractTextFromFile] for a file dispatched as PDF. *)
Theorem pdflib_placeholder_for_blank_fields
        (L : Libs) (file : File) (pdfDoc : PDFDocument) :
  PDFDocument_load L (file_data file) = Some pdfDoc ->
  Forall (fun text => forallb is_js_space text = true)
         (field_texts (getFields pdfDoc)) ->
  extractTextFromPDF L PdfLibRev file = ret (trim (placeholder L pdfDoc))
  /\ nonempty (trim (placeholder L pdfDoc)) = true
  /\ length (firstn 5 (getPages pdfDoc)) <= 5
  /\ (matches PDF file = true ->
      extractTextFromFile L PdfLibRev file = ret (trim (placeholder L pdfDoc))).
Proof.
  intros Hload Hblank.
  apply blank_fields_collect_blank in Hblank.
  rewrite <- collect_fields_concat in Hblank.
  pose proof (pdflib_no_field_text L file pdfDoc Hload Hblank) as H.
  split; [exact H|]. split; [apply placeholder_nonempty|].
  split; [apply firstn_le_length|].
  intros Hm.
  rewrite (dispatch_first_match L PdfLibRev file PDF Hm)
    by (intros g Hg; cbn in Hg; lia).
  unfold dispatched. cbn [reader extractTextFromPDF]. now rewrite H.
Qed.

(** X24 on a one-page form whose text field holds two spaces. *)
Lemma pdflib_placeholder_for_blank_fields_witness :
  PDFDocument_load spaces_libs (file_data pdf_file) = Some spaces_form
  /\ Forall (fun text => forallb is_js_space text = true)
            (field_texts (getFields spaces_form))
  /\ extractTextFromPDF spaces_libs PdfLibRev pdf_file
     = ret (js "PDF document with 1 pages. Page 1 content (612x792).").
Proof.
  assert (Hb : Forall (fun text => forallb is_js_space text = true)
                      (field_texts (getFields spaces_form))).
  { repeat constructor. }
  split; [reflexivity|]. split; [exact Hb|].
  exact (proj1 (pdflib_placeholder_for_blank_fields
                  spaces_libs pdf_file spaces_form eq_refl Hb)).
Defined.

(** *** DOCX and TXT *)

(** The library answer a format is read from. *)
Lemma library_text_silent (L : Libs) (r : revision) (f : format)
      (file : File) (text : jsstring) :
  f <> PDF ->
  match f with
  | PDF => None
  | DOCX => mammoth_extractRawText L (file_data file)
  | TXT => FileReader_readAsText L (file_data file)
  end = Some text ->
  reader L r f file = ret (trim text).
Proof.
  intros Hf Hread.
  destruct f; [congruence| |]; cbn [reader].
  - destruct r; cbn [extractTextFromDOCX];
      unfold extractTextFromDOCX_guarded, extractTextFromDOCX_plain;
      now rewrite Hread.
  - unfold extractTextFromTXT. now rewrite Hread.
Qed.

(** X19: a file dispatched as DOCX (resp. TXT) whose content mammoth (resp.
    the FileReader) can read yields exactly the library's text, trimmed,
    and logs nothing, in every revision. *)
Theorem docx_and_txt_return_trimmed_library_text
        (L : Libs) (r : revision) (f : format) (file : File)
        (text : jsstring) :
  f <> PDF ->
  matches f file = true ->
  (forall g, rank g < rank f -> matches g file = false) ->
  match f with
  | PDF => None
  | DOCX => mammoth_extractRawText L (file_data file)
  | TXT => FileReader_readAsText L (file_data file)
  end = Some text ->
  extractTextFromFile L r file = ret (trim text).
Proof.
  intros Hf Hm Hearlier Hread.
  rewrite (dispatch_first_match L r file f Hm Hearlier).
  unfold dispatched.
  now rewrite (library_text_silent L r f file text Hf Hread).
Qed.

(** X19 on essay.docx, whose raw text carries blanks at both ends. *)
Lemma docx_and_txt_return_trimmed_library_text_witness :
  DOCX <> PDF
  /\ matches DOCX docx_file = true
  /\ (forall g, rank g < rank DOCX -> matches g docx_file = false)
  /\ mammoth_extractRawText sample_libs (file_data docx_file)
     = Some (js "  docx text ")
  /\ extractTextFromFile sample_libs PdfLibRev docx_file
     = ret (js "docx text").
Proof.
  assert (He : forall g, rank g < rank DOCX -> matches g docx_file = false).
  { intros g Hg. destruct g; cbn in Hg; try lia. reflexivity. }
  split; [discriminate|]. split; [reflexivity|]. split; [exact He|].
  split; [reflexivity|].
  exact (docx_and_txt_return_trimmed_library_text
           sample_libs PdfLibRev DOCX docx_file (js "  docx text ")
           ltac:(discriminate) eq_refl He eq_refl).
Defined.

(* ================================================================== *)
(** ** Further properties of the quiz generator *)
(* ================================================================== *)

Ltac trace_eq :=
  cbn [app handler_events];
  repeat (rewrite <- app_assoc || rewrite app_nil_r || cbn [app]);
  reflexivity.

(** The trace of a run that passes the readiness guard. *)
Lemma run_shape (r : revision) (L : Libs) (net : Network) (st : State)
      (file : File) :
  isReadyToGenerate st = true ->
  selectedFile st = Some file ->
  exists rest,
    run r L net st
    = [SetIsGenerating true; ShowToast ProcessingDocument]
      ++ fst (extractTextFromFile L r file) ++ rest
      ++ [SetIsGenerating false]
    /\ run_tail net st (snd (extractTextFromFile L r file)) rest.
Proof.
  intros Hready Hfile. rewrite (run_ready r L net st file Hready Hfile).
  unfold generateQuiz_try.
  destruct (extractTextFromFile L r file) as [ev [e|text]]; cbn [fst snd].
  { exists (handler_events e). split; [quiz_steps; trace_eq|].
    now apply tail_extraction_failed. }
  quiz_steps.
  destruct (nonempty (trim text)) eqn:Hne; quiz_steps.
  2:{ exists (handler_events NoTextExtracted). split; [trace_eq|].
      now apply tail_blank_text with (text := text). }
  destruct (net (endpoint (apiKey st)) (systemPrompt (settings st) text))
    as [response|] eqn:Hnet; quiz_steps.
  2:{ eexists. split; [|apply tail_no_success_response
                               with (text := text) (e := FetchRejected);
                          [reflexivity|exact Hne|now rewrite Hnet]].
      trace_eq. }
  destruct (ok response) eqn:Hok; quiz_steps.
  2:{ eexists. split; [|apply tail_no_success_response
                               with (text := text)
                                    (e := ApiError (status response)
                                                   (statusText response));
                          [reflexivity|exact Hne|
                           rewrite Hnet; split; [exact Hok|reflexivity]]].
      trace_eq. }
  assert (Hbad : forall e,
             kind_of e = MalformedResponse \/ kind_of e = ValidationFailure ->
             run_tail net st (inr text)
               ([ShowToast GeneratingQuiz;
                 Fetch (endpoint (apiKey st))
                       (systemPrompt (settings st) text);
                 ReadBody] ++ handler_events e)).
  { intros e He.
    now apply tail_bad_reply with (text := text) (response := response). }
  destruct (json_body response) as [data|]; quiz_steps.
  2:{ eexists. split; [|apply (Hbad BodyNotJson); now left]. trace_eq. }
  pose proof (candidate_text_silent data) as Hc.
  destruct (candidate_text data) as [tc [e|gen]] eqn:Hcand;
    cbn [fst] in Hc; subst tc; quiz_steps.
  { assert (e = TypeError CandidatesOfNull) as ->
        by (destruct data; unfold candidate_text, throw, ret in Hcand;
            congruence).
    eexists. split; [|apply (Hbad (TypeError CandidatesOfNull)); now left].
    trace_eq. }
  destruct (truthy gen) eqn:Htruthy; quiz_steps.
  2:{ eexists. split; [|apply (Hbad NoResponseFromAI); now left]. trace_eq. }
  destruct gen as [[| | |reply| |]|];
    try (quiz_steps; eexists;
         split; [|apply (Hbad (TypeError MatchNotAFunction)); now left];
         trace_eq).
  quiz_steps.
  destruct (match_array reply) as [m|]; quiz_steps.
  2:{ eexists. split; [|apply (Hbad InvalidResponseFormat); now left].
      trace_eq. }
  destruct (JSON_parse m) as [v|]; quiz_steps.
  2:{ eexists. split; [|apply (Hbad JsonSyntaxError); now left]. trace_eq. }
  destruct v as [| | | |[|q l]|];
    try (quiz_steps; eexists;
         split; [|apply (Hbad NoValidQuestions); now right]; trace_eq).
  quiz_steps.
  destruct (every_valid_cases (q :: l)) as [[He _]|[[He|He] _]];
    rewrite He; quiz_steps.
  - eexists. split; [|apply tail_success with (text := text) (response := response)
                                          (questions := q :: l);
                       auto; discriminate].
    trace_eq.
  - eexists. split; [|apply (Hbad InvalidQuestionFormat); now right].
    trace_eq.
  - eexists. split; [|apply (Hbad (TypeError QuestionOfNull)); now right].
    trace_eq.
Qed.

Lemma ready_file (st : State) :
  isReadyToGenerate st = true -> exists file, selectedFile st = Some file.
Proof.
  unfold isReadyToGenerate.
  destruct (selectedFile st) as [file|]; [now exists file|discriminate].
Qed.

Lemma console_filter (p : event -> bool) (ev : list event) :
  (forall label e, p (ConsoleError label e) = false) ->
  forallb is_console ev = true -> filter p ev = [].
Proof.
  intros Hp. induction ev as [|x ev IH]; [reflexivity|].
  cbn [forallb filter]. intros H. apply andb_true_iff in H.
  destruct H as [Hx Hev]. destruct x; try discriminate.
  rewrite Hp. now apply IH.
Qed.


(** What can be read off a run that passes the guard is read off its
    events after extraction. *)
Lemma run_measures (r : revision) (L : Libs) (net : Network) (st : State)
      (file : File) :
  isReadyToGenerate st = true ->
  selectedFile st = Some file ->
  exists rest,
    run_tail net st (snd (extractTextFromFile L r file)) rest
    /\ run r L net st
       = [SetIsGenerating true; ShowToast ProcessingDocument]
         ++ fst (extractTextFromFile L r file) ++ rest
         ++ [SetIsGenerating false]
    /\ outcome_of (run r L net st)
       = outcome_of (rest ++ [SetIsGenerating false])
    /\ (forall p,
           (forall label e, p (ConsoleError label e) = false) ->
           p (ShowToast ProcessingDocument) = false ->
           filter p (run r L net st)
           = filter p [SetIsGenerating true] ++ filter p rest
             ++ filter p [SetIsGenerating false]).
Proof.
  intros Hready Hfile.
  destruct (run_shape r L net st file Hready Hfile) as (rest & Hrun & Htail).
  pose proof (extract_console L r file) as Hev.
  exists rest. split; [exact Htail|]. split; [exact Hrun|]. split.
  - rewrite Hrun. cbn [app outcome_of].
    now rewrite (outcome_of_console _ _ Hev).
  - intros p Hp Hproc. rewrite Hrun.
    rewrite !filter_app. rewrite (console_filter p _ Hp Hev).
    cbn [filter app]. rewrite Hproc. reflexivity.
Qed.

(** X1: [generateQuiz] does nothing at all (no toast, no request, no
    error) exactly when no file is selected, or the API key is empty or
    white space only, or the question count is 0. *)
Theorem generateQuiz_is_silent_iff_not_ready
        (r : revision) (L : Libs) (net : Network) (st : State) :
  run r L net st = []
  <-> (selectedFile st = None
       \/ forallb is_js_space (apiKey st) = true
       \/ questionCount (settings st) = 0).
Proof.
  split.
  - intros Hrun.
    destruct (isReadyToGenerate st) eqn:Hready.
    + destruct (ready_file st Hready) as [file Hfile].
      rewrite (run_ready r L net st file Hready Hfile) in Hrun.
      discriminate.
    + unfold isReadyToGenerate in Hready.
      destruct (selectedFile st) as [file|]; [|now left]. right.
      cbn [andb] in Hready.
      destruct (nonempty (trim (apiKey st))) eqn:Hkey.
      * right. cbn [andb] in Hready.
        destruct (Nat.eqb_spec (questionCount (settings st)) 0) as [H0|H0];
          [exact H0|].
        cbn [negb andb] in Hready.
        destruct (difficulty (settings st)), (questionType (settings st));
          discriminate.
      * left. apply trim_blank. now apply nonempty_false.
  - intros H. apply run_not_ready. unfold isReadyToGenerate.
    destruct H as [H|[H|H]].
    + now rewrite H.
    + apply trim_blank in H. rewrite H.
      now destruct (selectedFile st).
    + rewrite H. destruct (selectedFile st); [|reflexivity].
      now destruct (nonempty (trim (apiKey st))).
Qed.




Lemma pair_of {A B} (p : A * B) : p = (fst p, snd p).
Proof. now destruct p. Qed.

(** X4: a request is sent only after extraction returned text that is not
    blank, and it is the request the code builds from the state: the fixed
    endpoint with the API key appended, and the prompt made of the settings
    and of that text. *)
Theorem request_follows_extracted_text
        (r : revision) (L : Libs) (net : Network) (st : State)
        (url prompt : jsstring) :
  In (Fetch url prompt) (run r L net st) ->
  exists file ev text,
    selectedFile st = Some file
    /\ extractTextFromFile L r file = (ev, inr text)
    /\ nonempty (trim text) = true
    /\ url = endpoint (apiKey st)
    /\ prompt = systemPrompt (settings st) text.
Proof.
  intros Hin.
  destruct (isReadyToGenerate st) eqn:Hready;
    [|rewrite (run_not_ready r L net st Hready) in Hin; contradiction].
  destruct (ready_file st Hready) as [file Hfile].
  destruct (run_shape r L net st file Hready Hfile) as (rest & Hrun & Htail).
  pose proof (extract_console L r file) as Hev.
  rewrite Hrun in Hin. clear Hrun.
  exists file, (fst (extractTextFromFile L r file)).
  assert (Hgoal : forall text,
             snd (extractTextFromFile L r file) = inr text ->
             nonempty (trim text) = true ->
             Fetch url prompt
             = Fetch (endpoint (apiKey st)) (systemPrompt (settings st) text) ->
             exists text0,
               selectedFile st = Some file
               /\ extractTextFromFile L r file
                  = (fst (extractTextFromFile L r file), inr text0)
               /\ nonempty (trim text0) = true
               /\ url = endpoint (apiKey st)
               /\ prompt = systemPrompt (settings st) text0).
  { intros text Hres Hne Heq. inversion Heq; subst. exists text.
    repeat split; auto. rewrite <- Hres. apply pair_of. }
  apply in_app_or in Hin. destruct Hin as [Hin|Hin].
  { cbn in Hin. destruct Hin as [H|[H|[]]]; discriminate. }
  apply in_app_or in Hin. destruct Hin as [Hin|Hin].
  { rewrite forallb_forall in Hev. apply Hev in Hin. discriminate. }
  apply in_app_or in Hin. destruct Hin as [Hin|Hin].
  2:{ cbn in Hin. destruct Hin as [H|[]]; discriminate. }
  destruct Htail as [e Hres|text Hres Hne|text e Hres Hne He
                     |text response e Hres Hne Hnet Hok Hk
                     |text response qs Hres Hne Hnet Hok Hqs];
    cbn in Hin;
    repeat (destruct Hin as [Hin|Hin];
            [try discriminate; try (symmetry in Hin; now eauto)|]);
    try contradiction.
Qed.

(** X4 in the sample world. *)
Lemma request_follows_extracted_text_witness :
  In (Fetch (endpoint (js "AIzaSample"))
            (systemPrompt (mkSettings 10 medium mcq)
                          (js "Hello there" ++ newline ++ js "World")))
     (run PdfJsPlainRev sample_libs unavailable (sample_state pdf_file))
  /\ exists file ev text,
      selectedFile (sample_state pdf_file) = Some file
      /\ extractTextFromFile sample_libs PdfJsPlainRev file = (ev, inr text)
      /\ nonempty (trim text) = true
      /\ endpoint (js "AIzaSample") = endpoint (apiKey (sample_state pdf_file))
      /\ systemPrompt (mkSettings 10 medium mcq)
                      (js "Hello there" ++ newline ++ js "World")
         = systemPrompt (settings (sample_state pdf_file)) text.
Proof.
  assert (Hin : In (Fetch (endpoint (js "AIzaSample"))
                          (systemPrompt (mkSettings 10 medium mcq)
                             (js "Hello there" ++ newline ++ js "World")))
                   (run PdfJsPlainRev sample_libs unavailable
                        (sample_state pdf_file))).
  { right. right. right. left. reflexivity. }
  split; [exact Hin|].
  exact (request_follows_extracted_text
           PdfJsPlainRev sample_libs unavailable (sample_state pdf_file)
           _ _ Hin).
Defined.

(** X6: when extraction fails, for whatever reason, the run reports the
    generic extraction error and sends no request. *)
Theorem failed_extraction_ends_the_run
        (r : revision) (L : Libs) (net : Network) (st : State)
        (file : File) (e : error) :
  isReadyToGenerate st = true ->
  selectedFile st = Some file ->
  snd (extractTextFromFile L r file) = inl e ->
  outcome_of (run r L net st) = Failed FailedToExtractText
  /\ kind_of FailedToExtractText = ExtractionFailure
  /\ requests (run r L net st) = 0.
Proof.
  intros Hready Hfile Hres.
  assert (He : e = FailedToExtractText).
  { apply (extract_failure_generic L r file
             (fst (extractTextFromFile L r file))).
    rewrite <- Hres. apply pair_of. }
  subst e.
  destruct (run_measures r L net st file Hready Hfile)
    as (rest & Htail & _ & Hout & Hfilter).
  unfold requests.
  rewrite (Hfilter is_fetch (fun _ _ => eq_refl) eq_refl), Hout.
  destruct Htail; try congruence.
  assert (e = FailedToExtractText) as -> by congruence.
  repeat split.
Qed.

(** X6 on a PDF that the libraries reject. *)
Lemma failed_extraction_ends_the_run_witness :
  isReadyToGenerate (sample_state pdf_file) = true
  /\ snd (extractTextFromFile failing_libs PdfLibRev pdf_file)
     = inl FailedToExtractText
  /\ outcome_of (run PdfLibRev failing_libs (replying example_array)
                     (sample_state pdf_file))
     = Failed FailedToExtractText
  /\ requests (run PdfLibRev failing_libs (replying example_array)
                   (sample_state pdf_file)) = 0.
Proof.
  destruct (failed_extraction_ends_the_run
              PdfLibRev failing_libs (replying example_array)
              (sample_state pdf_file) pdf_file FailedToExtractText
              eq_refl eq_refl eq_refl) as (Ho & _ & Hr).
  repeat split; assumption.
Defined.

(** X7: when the request itself is rejected (no response at all), the run
    reports that rejection as a network failure after its single request;
    it does not try again and reads no body. *)
Theorem rejected_request_is_network_failure
        (r : revision) (L : Libs) (net : Network) (st : State)
        (file : File) (ev : list event) (text : jsstring) :
  isReadyToGenerate st = true ->
  selectedFile st = Some file ->
  extractTextFromFile L r file = (ev, inr text) ->
  nonempty (trim text) = true ->
  net (endpoint (apiKey st)) (systemPrompt (settings st) text) = None ->
  outcome_of (run r L net st) = Failed FetchRejected
  /\ kind_of FetchRejected = NetworkFailure
  /\ requests (run r L net st) = 1
  /\ existsb is_read_body (run r L net st) = false.
Proof.
  intros Hready Hfile Hext Hne Hnet.
  destruct (run_measures r L net st file Hready Hfile)
    as (rest & Htail & _ & Hout & Hfilter).
  assert (Hrb : existsb is_read_body (run r L net st)
                = negb (length (filter is_read_body (run r L net st)) =? 0)).
  { generalize (run r L net st). intros l.
    induction l as [|x l IH]; [reflexivity|]. cbn [existsb filter].
    destruct (is_read_body x); [reflexivity|exact IH]. }
  rewrite Hrb. unfold requests.
  rewrite (Hfilter is_fetch (fun _ _ => eq_refl) eq_refl).
  rewrite (Hfilter is_read_body (fun _ _ => eq_refl) eq_refl), Hout.
  rewrite Hext in Htail. cbn [snd] in Htail.
  destruct Htail as [e Hres|t Hres Hb|t e Hres _ He
                     |t response e Hres _ Hn _ _
                     |t response qs Hres _ Hn _ _];
    try discriminate; inversion Hres; subst t; try congruence.
  rewrite Hnet in He. subst e. repeat split.
Qed.

(** X7 with the network down. *)
Lemma rejected_request_is_network_failure_witness :
  isReadyToGenerate (sample_state pdf_file) = true
  /\ offline (endpoint (js "AIzaSample"))
       (systemPrompt (mkSettings 10 medium mcq)
                     (js "Hello there" ++ newline ++ js "World")) = None
  /\ outcome_of (run PdfJsPlainRev sample_libs offline (sample_state pdf_file))
     = Failed FetchRejected
  /\ requests (run PdfJsPlainRev sample_libs offline (sample_state pdf_file))
     = 1.
Proof.
  destruct (rejected_request_is_network_failure
              PdfJsPlainRev sample_libs offline (sample_state pdf_file)
              pdf_file [] (js "Hello there" ++ newline ++ js "World")
              eq_refl eq_refl eq_refl eq_refl eq_refl) as (Ho & _ & Hr & _).
  repeat split; assumption.
Defined.

(** X15: a run that hands over questions has exactly this trace: the flag
    set, the two progress toasts around a silent extraction, one request,
    one read of the body, the success toast carrying the number of
    questions handed over, the questions, the flag cleared. Nothing is
    logged and no failure toast is shown. *)
Theorem successful_run_trace
        (r : revision) (L : Libs) (net : Network) (st : State)
        (qs : list json) :
  outcome_of (run r L net st) = Returned qs ->
  exists text,
    run r L net st
    = [SetIsGenerating true;
       ShowToast ProcessingDocument;
       ShowToast GeneratingQuiz;
       Fetch (endpoint (apiKey st)) (systemPrompt (settings st) text);
       ReadBody;
       ShowToast (QuizGenerated (length qs));
       OnQuizGenerated qs;
       SetIsGenerating false].
Proof.
  intros H.
  destruct (isReadyToGenerate st) eqn:Hready;
    [|rewrite (run_not_ready r L net st Hready) in H; discriminate].
  destruct (ready_file st Hready) as [file Hfile].
  destruct (run_measures r L net st file Hready Hfile)
    as (rest & Htail & Hrun & Hout & _).
  rewrite Hout in H.
  destruct Htail as [e Hres|t Hres Hb|t e Hres _ He
                     |t response e Hres _ Hn _ _
                     |t response questions Hres _ Hn _ _];
    cbn in H; try discriminate.
  inversion H; subst questions. exists t.
  assert (Hev : fst (extractTextFromFile L r file) = []).
  { apply (extract_success_silent L r file _ t).
    rewrite <- Hres. apply pair_of. }
  rewrite Hrun, Hev. reflexivity.
Qed.

(** X15 on the array of section 8. *)
Lemma successful_run_trace_witness :
  outcome_of (run PdfJsPlainRev sample_libs (replying example_array)
                  (sample_state pdf_file))
  = Returned [example_question]
  /\ exists text,
      run PdfJsPlainRev sample_libs (replying example_array)
          (sample_state pdf_file)
      = [SetIsGenerating true;
         ShowToast ProcessingDocument;
         ShowToast GeneratingQuiz;
         Fetch (endpoint (apiKey (sample_state pdf_file)))
               (systemPrompt (settings (sample_state pdf_file)) text);
         ReadBody;
         ShowToast (QuizGenerated (length [example_question]));
         OnQuizGenerated [example_question];
         SetIsGenerating false].
Proof.
  assert (H : outcome_of (run PdfJsPlainRev sample_libs
                              (replying example_array)
                              (sample_state pdf_file))
              = Returned [example_question]).
  { rewrite (reply_outcome_run _ _ _ _ _ (sample_reply example_array)).
    vm_compute. reflexivity. }
  split; [exact H|].
  exact (successful_run_trace PdfJsPlainRev sample_libs
           (replying example_array) (sample_state pdf_file)
           [example_question] H).
Defined.

Lemma existsb_filter {X} (p : X -> bool) (l : list X) :
  existsb p l = negb (length (filter p l) =? 0).
Proof.
  induction l as [|x l IH]; [reflexivity|]. cbn [existsb filter].
  destruct (p x); [reflexivity|exact IH].
Qed.

(** X16: the kind of a reported failure tells how far the run got. Before
    the request a run can only fail as ExtractionFailure or EmptyInput;
    after the request and before the body is read, only as NetworkFailure;
    once the body has been read, only as MalformedResponse or
    ValidationFailure. UnsupportedType is never reported. *)
Theorem failure_kind_tells_the_stage
        (r : revision) (L : Libs) (net : Network) (st : State) (e : error) :
  outcome_of (run r L net st) = Failed e ->
  (kind_of e = ExtractionFailure \/ kind_of e = EmptyInput
   <-> requests (run r L net st) = 0)
  /\ (kind_of e = NetworkFailure
      <-> requests (run r L net st) = 1
          /\ existsb is_read_body (run r L net st) = false)
  /\ (kind_of e = MalformedResponse \/ kind_of e = ValidationFailure
      <-> existsb is_read_body (run r L net st) = true)
  /\ kind_of e <> UnsupportedType.
Proof.
  intros H.
  destruct (isReadyToGenerate st) eqn:Hready;
    [|rewrite (run_not_ready r L net st Hready) in H; discriminate].
  destruct (ready_file st Hready) as [file Hfile].
  destruct (run_measures r L net st file Hready Hfile)
    as (rest & Htail & _ & Hout & Hfilter).
  rewrite existsb_filter. unfold requests.
  rewrite (Hfilter is_fetch (fun _ _ => eq_refl) eq_refl).
  rewrite (Hfilter is_read_body (fun _ _ => eq_refl) eq_refl).
  rewrite Hout in H.
  destruct Htail as [e0 Hres|t Hres Hb|t e0 Hres _ He
                     |t response e0 Hres _ Hn _ Hk
                     |t response questions Hres _ Hn _ _];
    cbn in H; try discriminate; inversion H; subst e; cbn.
  - assert (e0 = FailedToExtractText) as ->.
    { apply (extract_failure_generic L r file
               (fst (extractTextFromFile L r file))).
      rewrite <- Hres. apply pair_of. }
    cbn. intuition (discriminate || auto).
  - intuition (discriminate || auto).
  - destruct (net _ _) as [response|].
    + destruct He as [_ ->]. cbn. intuition (discriminate || auto).
    + subst e0. cbn. intuition (discriminate || auto).
  - destruct Hk as [Hk|Hk]; rewrite Hk;
      intuition (discriminate || auto).
Qed.

(** X16 on an endpoint that answers 503. *)
Lemma failure_kind_tells_the_stage_witness :
  outcome_of (run PdfJsPlainRev sample_libs unavailable
                  (sample_state pdf_file))
  = Failed (ApiError 503 (js "Service Unavailable"))
  /\ (kind_of (ApiError 503 (js "Service Unavailable")) = NetworkFailure
      <-> requests (run PdfJsPlainRev sample_libs unavailable
                        (sample_state pdf_file)) = 1
          /\ existsb is_read_body
               (run PdfJsPlainRev sample_libs unavailable
                    (sample_state pdf_file)) = false).
Proof.
  assert (H : outcome_of (run PdfJsPlainRev sample_libs unavailable
                              (sample_state pdf_file))
              = Failed (ApiError 503 (js "Service Unavailable")))
    by reflexivity.
  split; [exact H|].
  exact (proj1 (proj2 (failure_kind_tells_the_stage
                         PdfJsPlainRev sample_libs unavailable
                         (sample_state pdf_file) _ H))).
Defined.

(** X21: in the pdf.js revisions a PDF without text (no pages, or pages
    whose items are all white space) extracts to the empty string, and
    the run stops there with 'No text could be extracted from the file',
    before any request. *)
Theorem pdfjs_blank_document_stops_the_run
        (r : revision) (L : Libs) (net : Network) (st : State)
        (file : File) (pdf : PDFDocumentProxy)
        (pages : list (list jsstring)) :
  r <> PdfLibRev ->
  isReadyToGenerate st = true ->
  selectedFile st = Some file ->
  matches PDF file = true ->
  pdfjs_getDocument L (file_data file) = Some pdf ->
  page_items pdf = map Some pages ->
  forallb is_js_space (join newline (map (join space) pages)) = true ->
  extractTextFromFile L r file = ret []
  /\ outcome_of (run r L net st) = Failed NoTextExtracted
  /\ requests (run r L net st) = 0.
Proof.
  intros Hr Hready Hfile Hm Hdoc Hpages Hblank.
  apply trim_blank in Hblank.
  assert (Hext : extractTextFromFile L r file = ret []).
  { rewrite (dispatch_first_match L r file PDF Hm)
      by (intros g Hg; cbn in Hg; lia).
    unfold dispatched. cbn [reader].
    pose proof (pdfjs_reader_text L file pdf pages Hdoc Hpages) as Hp.
    rewrite Hblank in Hp.
    destruct r; cbn [extractTextFromPDF]; [congruence| |now rewrite Hp].
    unfold extractTextFromPDF_pdfjs_guarded. now rewrite Hp. }
  split; [exact Hext|].
  destruct (run_measures r L net st file Hready Hfile)
    as (rest & Htail & _ & Hout & Hfilter).
  unfold requests.
  rewrite (Hfilter is_fetch (fun _ _ => eq_refl) eq_refl), Hout.
  rewrite Hext in Htail. cbn [snd ret] in Htail.
  destruct Htail as [e Hres|t Hres Hb|t e Hres Hne He
                     |t response e Hres Hne Hn _ Hk
                     |t response questions Hres Hne Hn _ _];
    try discriminate; inversion Hres; subst t;
    try (cbn in Hne; discriminate).
  split; reflexivity.
Qed.

(** X21 on a PDF without pages. *)
Lemma pdfjs_blank_document_stops_the_run_witness :
  PdfJsGuardedRev <> PdfLibRev
  /\ isReadyToGenerate (sample_state pdf_file) = true
  /\ matches PDF pdf_file = true
  /\ pdfjs_getDocument empty_pdf_libs (file_data pdf_file) = Some empty_pdf
  /\ page_items empty_pdf = map Some []
  /\ outcome_of (run PdfJsGuardedRev empty_pdf_libs (replying example_array)
                     (sample_state pdf_file))
     = Failed NoTextExtracted.
Proof.
  destruct (pdfjs_blank_document_stops_the_run
              PdfJsGuardedRev empty_pdf_libs (replying example_array)
              (sample_state pdf_file) pdf_file empty_pdf []
              ltac:(discriminate) eq_refl eq_refl eq_refl eq_refl eq_refl
              eq_refl) as (_ & Ho & _).
  repeat split; try assumption. discriminate.
Defined.

(** X23: the pdf-lib revision never returns the empty string for a PDF
    (it falls back to the placeholder), so with it a run on a PDF never
    ends with 'No text could be extracted from the file'. *)
Theorem pdflib_never_reports_no_text
        (L : Libs) (net : Network) (st : State) (file : File) :
  isReadyToGenerate st = true ->
  selectedFile st = Some file ->
  matches PDF file = true ->
  (forall ev text,
      extractTextFromFile L PdfLibRev file = (ev, inr text) ->
      nonempty text = true)
  /\ outcome_of (run PdfLibRev L net st) <> Failed NoTextExtracted.
Proof.
  intros Hready Hfile Hm.
  assert (Hne : forall ev text,
             extractTextFromFile L PdfLibRev file = (ev, inr text) ->
             nonempty text = true /\ trim text = text).
  { intros ev text H.
    rewrite (dispatch_first_match L PdfLibRev file PDF Hm) in H
      by (intros g Hg; cbn in Hg; lia).
    apply dispatched_success in H. split.
    - exact (pdflib_nonempty L file ev text H).
    - exact (reader_trimmed L PdfLibRev PDF file ev text H). }
  split; [intros ev text H; exact (proj1 (Hne ev text H))|].
  destruct (run_measures PdfLibRev L net st file Hready Hfile)
    as (rest & Htail & _ & Hout & _).
  rewrite Hout.
  destruct Htail as [e Hres|t Hres Hb|t e Hres _ He
                     |t response e Hres _ Hn _ Hk
                     |t response questions Hres _ Hn _ _]; cbn.
  - assert (e = FailedToExtractText) as ->.
    { apply (extract_failure_generic L PdfLibRev file
               (fst (extractTextFromFile L PdfLibRev file))).
      rewrite <- Hres. apply pair_of. }
    discriminate.
  - exfalso.
    destruct (Hne (fst (extractTextFromFile L PdfLibRev file)) t)
      as [Hn Ht]; [rewrite <- Hres; apply pair_of|].
    rewrite Ht in Hb. congruence.
  - destruct (net _ _); [destruct He as [_ ->]|subst e]; discriminate.
  - intros Heq. inversion Heq; subst e. cbn in Hk.
    destruct Hk; discriminate.
  - discriminate.
Qed.

(** X23 on a PDF without form fields. *)
Lemma pdflib_never_reports_no_text_witness :
  isReadyToGenerate (sample_state pdf_file) = true
  /\ selectedFile (sample_state pdf_file) = Some pdf_file
  /\ matches PDF pdf_file = true
  /\ outcome_of (run PdfLibRev sample_libs unavailable
                     (sample_state pdf_file))
     <> Failed NoTextExtracted.
Proof.
  split; [reflexivity|]. split; [reflexivity|]. split; [reflexivity|].
  exact (proj2 (pdflib_never_reports_no_text
                  sample_libs unavailable (sample_state pdf_file) pdf_file
                  eq_refl eq_refl eq_refl)).
Defined.

(** *** The envelope of the response *)

Lemma candidate_text_envelope (data : json) :
  data <> JNull -> candidate_text data = ret (envelope_text data).
Proof. destruct data; [congruence| | | | |]; reflexivity. Qed.

Lemma body_to_reply (r : revision) (L : Libs) (net : Network) (st : State)
      (data : json) (text : jsstring) :
  response_body_is r L net st data ->
  data <> JNull ->
  envelope_text data = Some (JStr text) ->
  reply_text_is r L net st text.
Proof.
  intros (file & ev & extracted & response
          & Hready & Hfile & Hext & Hne & Hnet & Hok & Hbody) Hnull Henv.
  exists file, ev, extracted, response, data.
  repeat split; auto.
  now rewrite (candidate_text_envelope data Hnull), Henv.
Qed.

Lemma json_eq_null (data : json) : {data = JNull} + {data <> JNull}.
Proof. destruct data; [now left| | | | |]; right; discriminate. Qed.

(** The outcome of a run that reads the body, from the body. *)
Lemma body_outcome (r : revision) (L : Libs) (net : Network) (st : State)
      (data : json) :
  response_body_is r L net st data ->
  outcome_of (run r L net st)
  = match data with
    | JNull => Failed (TypeError CandidatesOfNull)
    | _ =>
        match envelope_text data with
        | Some (JStr text) => reply_outcome text
        | v => if truthy v then Failed (TypeError MatchNotAFunction)
               else Failed NoResponseFromAI
        end
    end.
Proof.
  intros Hbody.
  assert (Hstr : forall text,
             data <> JNull -> envelope_text data = Some (JStr text) ->
             outcome_of (run r L net st) = reply_outcome text).
  { intros text Hnull Henv. apply reply_outcome_run.
    exact (body_to_reply r L net st data text Hbody Hnull Henv). }
  destruct Hbody as (file & ev & extracted & response
                     & Hready & Hfile & Hext & Hne & Hnet & Hok & Hbody).
  assert (Hother : forall v,
             candidate_text data = ret v ->
             (forall text, v <> Some (JStr text)) ->
             outcome_of (run r L net st)
             = if truthy v then Failed (TypeError MatchNotAFunction)
               else Failed NoResponseFromAI).
  { intros v Hc Hv.
    rewrite (outcome_of_run r L net st file Hready Hfile).
    unfold generateQuiz_try. rewrite Hext. quiz_steps.
    rewrite Hne. quiz_steps. rewrite Hnet. quiz_steps.
    rewrite Hok. quiz_steps. rewrite Hbody. quiz_steps.
    rewrite Hc. quiz_steps.
    destruct (truthy v) eqn:Ht; quiz_steps; [|reflexivity].
    destruct v as [[| | |text| |]|]; try reflexivity.
    now destruct (Hv text). }
  assert (Hnullcase : data = JNull ->
                      outcome_of (run r L net st)
                      = Failed (TypeError CandidatesOfNull)).
  { intros ->.
    rewrite (outcome_of_run r L net st file Hready Hfile).
    unfold generateQuiz_try. rewrite Hext. quiz_steps.
    rewrite Hne. quiz_steps. rewrite Hnet. quiz_steps.
    rewrite Hok. quiz_steps. rewrite Hbody. reflexivity. }
  destruct (json_eq_null data) as [Hn|Hn].
  - rewrite Hn in *. now apply Hnullcase.
  - assert (Hsplit : outcome_of (run r L net st)
                     = match envelope_text data with
                       | Some (JStr text) => reply_outcome text
                       | v => if truthy v
                              then Failed (TypeError MatchNotAFunction)
                              else Failed NoResponseFromAI
                       end).
    { destruct (envelope_text data) as [[| | |text| |]|] eqn:Henv;
        try (rewrite (Hother _ (candidate_text_envelope data Hn));
             [rewrite Henv; reflexivity
             |rewrite Henv; intros t; discriminate]).
      now apply Hstr. }
    rewrite Hsplit. destruct data; [congruence| | | | |]; reflexivity.
Qed.

(** In the sample world the run gets as far as any body. *)
Lemma sample_body (data : json) :
  response_body_is PdfJsPlainRev sample_libs (answering data)
                   (sample_state pdf_file) data.
Proof.
  exists pdf_file, [], (js "Hello there" ++ newline ++ js "World"),
    (mkResponse 200 (js "OK") (Some data)).
  repeat split; reflexivity.
Defined.

(** X9: the path candidates[0].content.parts[0].text is read without ever
    throwing on a body that is not [null]: when any step of it is missing,
    [null] or otherwise falsy (no candidates member, an empty candidates
    array, a body that is not an object, an empty text) the run fails with
    'No response from AI'. *)
Theorem missing_reply_text_is_no_response
        (r : revision) (L : Libs) (net : Network) (st : State)
        (data : json) :
  response_body_is r L net st data ->
  data <> JNull ->
  (truthy (envelope_text data) = false ->
   outcome_of (run r L net st) = Failed NoResponseFromAI
   /\ kind_of NoResponseFromAI = MalformedResponse)
  /\ ((forall m, data <> JObj m) ->
      outcome_of (run r L net st) = Failed NoResponseFromAI)
  /\ (forall m,
         data = JObj m ->
         lookup (js "candidates") m = None
         \/ lookup (js "candidates") m = Some (JArr [])
         \/ lookup (js "candidates") m = Some JNull ->
         outcome_of (run r L net st) = Failed NoResponseFromAI).
Proof.
  intros Hbody Hnull.
  assert (Hfalsy : truthy (envelope_text data) = false ->
                   outcome_of (run r L net st) = Failed NoResponseFromAI).
  { intros Ht. rewrite (body_outcome r L net st data Hbody).
    destruct (envelope_text data) as [[| | |text| |]|] eqn:Henv;
      try (rewrite Ht); try (destruct data; congruence).
    cbn [truthy] in Ht.
    assert (reply_outcome text = Failed NoResponseFromAI) as ->
        by (unfold reply_outcome; now rewrite Ht).
    destruct data; congruence. }
  split; [intros Ht; split; [now apply Hfalsy|reflexivity]|]. split.
  - intros Hobj. apply Hfalsy.
    destruct data; try reflexivity. now destruct (Hobj m).
  - intros m -> Hc. apply Hfalsy. unfold envelope_text. cbn [prop].
    destruct Hc as [Hc|[Hc|Hc]]; now rewrite Hc.
Qed.

(** X9 on a body that is the empty object. *)
Lemma missing_reply_text_is_no_response_witness :
  response_body_is PdfJsPlainRev sample_libs (answering (JObj []))
                   (sample_state pdf_file) (JObj [])
  /\ JObj [] <> JNull
  /\ truthy (envelope_text (JObj [])) = false
  /\ outcome_of (run PdfJsPlainRev sample_libs (answering (JObj []))
                     (sample_state pdf_file))
     = Failed NoResponseFromAI.
Proof.
  split; [apply sample_body|]. split; [discriminate|].
  split; [reflexivity|].
  exact (proj1 (proj1 (missing_reply_text_is_no_response
                         PdfJsPlainRev sample_libs (answering (JObj []))
                         (sample_state pdf_file) (JObj [])
                         (sample_body (JObj [])) ltac:(discriminate))
                      eq_refl)).
Defined.

(** X10: two ill-typed bodies do make the run throw a TypeError, which the
    catch block reports like any failure: a body that is [null] (reading
    [candidates] of it), and a text member that is truthy but not a string
    (it has no [match] method). *)
Theorem ill_typed_body_throws
        (r : revision) (L : Libs) (net : Network) (st : State)
        (data : json) :
  response_body_is r L net st data ->
  (data = JNull ->
   outcome_of (run r L net st) = Failed (TypeError CandidatesOfNull))
  /\ (forall v,
         data <> JNull ->
         envelope_text data = Some v ->
         truthy (Some v) = true ->
         is_string v = false ->
         outcome_of (run r L net st) = Failed (TypeError MatchNotAFunction))
  /\ kind_of (TypeError CandidatesOfNull) = MalformedResponse
  /\ kind_of (TypeError MatchNotAFunction) = MalformedResponse.
Proof.
  intros Hbody. rewrite (body_outcome r L net st data Hbody).
  split; [now intros ->|]. split; [|split; reflexivity].
  intros v Hnull Henv Ht Hs. rewrite Henv.
  destruct v; try discriminate; rewrite Ht; destruct data; congruence.
Qed.

(** X10 on a body whose text member is the number 5. *)
Lemma ill_typed_body_throws_witness :
  response_body_is PdfJsPlainRev sample_libs
    (answering (envelope_with (JNum (mkNumber false 5 0))))
    (sample_state pdf_file) (envelope_with (JNum (mkNumber false 5 0)))
  /\ envelope_text (envelope_with (JNum (mkNumber false 5 0)))
     = Some (JNum (mkNumber false 5 0))
  /\ outcome_of (run PdfJsPlainRev sample_libs
                     (answering (envelope_with (JNum (mkNumber false 5 0))))
                     (sample_state pdf_file))
     = Failed (TypeError MatchNotAFunction).
Proof.
  split; [apply sample_body|]. split; [reflexivity|].
  exact (proj1 (proj2 (ill_typed_body_throws
                         PdfJsPlainRev sample_libs
                         (answering (envelope_with (JNum (mkNumber false 5 0))))
                         (sample_state pdf_file) _ (sample_body _)))
               (JNum (mkNumber false 5 0)) ltac:(discriminate)
               eq_refl eq_refl eq_refl).
Defined.

(** *** Locating the array *)

(** X11: the pattern matches a text exactly when a closing bracket follows
    its first opening bracket, and what it matches is then the stretch
    from that first opening bracket to the last closing bracket of the
    whole text, whatever lies in between. *)
Theorem match_array_first_to_last (text m : jsstring) :
  match_array text = Some m
  <-> exists before body after,
        text = before ++ m ++ after
        /\ m = 91%N :: body ++ [93%N]
        /\ existsb (N.eqb 91) before = false
        /\ existsb (N.eqb 93) after = false.
Proof.
  split.
  - intros H.
    destruct (match_array_spans text m H)
      as (before & inner & after & Htext & Hm & Hb & Ha & Hlast).
    destruct inner as [|x inner'].
    { subst m. cbn in Hlast. discriminate. }
    exists before, (removelast (x :: inner')), after.
    subst m.
    change (last (91%N :: x :: inner') 0%N)
      with (last (x :: inner') 0%N) in Hlast.
    pose proof (@app_removelast_last N (x :: inner') 0%N
                  ltac:(discriminate)) as Hsplit.
    rewrite Hlast in Hsplit.
    repeat split; auto. now f_equal.
  - intros (before & body & after & -> & -> & Hb & Ha).
    now apply match_array_embedded.
Qed.

Lemma from_first_suffix (c : N) (s t : jsstring) :
  from_first c s = Some t -> exists before, s = before ++ t.
Proof.
  revert t. induction s as [|x s IH]; cbn [from_first]; [discriminate|].
  intros t. destruct (x =? c)%N.
  - intros H. inversion H. now exists [].
  - intros H. destruct (IH t H) as [before ->]. now exists (x :: before).
Qed.

Lemma from_first_none (c : N) (s : jsstring) :
  existsb (N.eqb c) s = false -> from_first c s = None.
Proof.
  induction s as [|x s IH]; cbn [from_first existsb]; [reflexivity|].
  intros H. apply orb_false_iff in H. destruct H as [Hx Hs].
  rewrite N.eqb_sym, Hx. now apply IH.
Qed.

Lemma match_array_none (text : jsstring) :
  existsb (N.eqb 91) text = false \/ existsb (N.eqb 93) text = false ->
  match_array text = None.
Proof.
  unfold match_array. intros [H|H].
  - now rewrite (from_first_none _ _ H).
  - destruct (from_first 91 text) as [[|b rest]|] eqn:E; try reflexivity.
    destruct (from_first_suffix _ _ _ E) as [before ->].
    rewrite existsb_app in H. apply orb_false_iff in H.
    destruct H as [_ H]. cbn [existsb] in H.
    apply orb_false_iff in H. destruct H as [_ H].
    now rewrite (upto_last_none _ _ H).
Qed.

(** X12: a reply that holds no opening bracket, or no closing bracket, is
    not searched further and nothing of it is parsed: the run fails with
    'Invalid response format from AI'. *)
Theorem reply_without_array_is_rejected
        (r : revision) (L : Libs) (net : Network) (st : State)
        (text : jsstring) :
  reply_text_is r L net st text ->
  nonempty text = true ->
  existsb (N.eqb 91) text = false \/ existsb (N.eqb 93) text = false ->
  outcome_of (run r L net st) = Failed InvalidResponseFormat
  /\ kind_of InvalidResponseFormat = MalformedResponse.
Proof.
  intros Hreply Hne Hnone. split; [|reflexivity].
  rewrite (reply_outcome_run r L net st text Hreply).
  unfold reply_outcome. rewrite Hne. cbn [negb].
  now rewrite (match_array_none text Hnone).
Qed.

(** X12 on a reply in plain prose. *)
Lemma reply_without_array_is_rejected_witness :
  reply_text_is PdfJsPlainRev sample_libs
    (replying (js "Sorry, I cannot help with that."))
    (sample_state pdf_file) (js "Sorry, I cannot help with that.")
  /\ nonempty (js "Sorry, I cannot help with that.") = true
  /\ existsb (N.eqb 91) (js "Sorry, I cannot help with that.") = false
  /\ outcome_of (run PdfJsPlainRev sample_libs
                     (replying (js "Sorry, I cannot help with that."))
                     (sample_state pdf_file))
     = Failed InvalidResponseFormat.
Proof.
  split; [apply sample_reply|]. split; [reflexivity|].
  split; [reflexivity|].
  exact (proj1 (reply_without_array_is_rejected
                  PdfJsPlainRev sample_libs
                  (replying (js "Sorry, I cannot help with that."))
                  (sample_state pdf_file) _ (sample_reply _) eq_refl
                  (or_introl eq_refl))).
Defined.

(** *** The shape check, element by element *)

Lemma every_valid_prefix (good l : list json) :
  Forall (fun q => valid_question q = ret true) good ->
  every valid_question (good ++ l) = every valid_question l.
Proof.
  induction 1 as [|q good Hq _ IH]; [reflexivity|].
  cbn [app]. unfold every at 1; fold every.
  rewrite Hq, bind_ret_l. exact IH.
Qed.

(** X14: the first element that does not pass the shape check decides how
    the batch is rejected, and the elements after it are not looked at:
    a [null] there makes the check throw its TypeError, any other value
    gives 'Generated questions have invalid format'. *)
Theorem first_failing_element_decides
        (r : revision) (L : Libs) (net : Network) (st : State)
        (text m : jsstring) (good : list json) (bad : json)
        (rest : list json) :
  reply_text_is r L net st text ->
  match_array text = Some m ->
  JSON_parse m = Some (JArr (good ++ bad :: rest)) ->
  Forall (fun q => valid_question q = ret true) good ->
  valid_question bad <> ret true ->
  outcome_of (run r L net st)
  = Failed (match bad with
            | JNull => TypeError QuestionOfNull
            | _ => InvalidQuestionFormat
            end).
Proof.
  intros Hreply Hm Hp Hgood Hbad.
  rewrite (reply_outcome_run r L net st text Hreply).
  rewrite (reply_outcome_parsed text m _ Hm Hp).
  assert (He : snd (every valid_question (good ++ bad :: rest))
               = match bad with
                 | JNull => inl (TypeError QuestionOfNull)
                 | _ => inr false
                 end).
  { rewrite (every_valid_prefix good (bad :: rest) Hgood).
    unfold every; fold every.
    destruct (valid_question_cases bad) as [[-> Hq]|[[|] Hq]].
    - now rewrite Hq.
    - congruence.
    - rewrite Hq, bind_ret_l.
      destruct bad; [discriminate Hq| | | | |]; reflexivity. }
  destruct (good ++ bad :: rest) as [|q l] eqn:E.
  { destruct good; discriminate. }
  rewrite He. now destruct bad.
Qed.

(** X14 on a batch whose second element has three options and whose
    third is [null]: the [null] is never reached. *)
Lemma first_failing_element_decides_witness :
  reply_text_is PdfJsPlainRev sample_libs (replying mixed_array)
                (sample_state pdf_file) mixed_array
  /\ match_array mixed_array = Some mixed_array
  /\ JSON_parse mixed_array
     = Some (JArr ([example_question] ++ short_options_question :: [JNull]))
  /\ Forall (fun q => valid_question q = ret true) [example_question]
  /\ valid_question short_options_question <> ret true
  /\ outcome_of (run PdfJsPlainRev sample_libs (replying mixed_array)
                     (sample_state pdf_file))
     = Failed InvalidQuestionFormat.
Proof.
  assert (Hgood : Forall (fun q => valid_question q = ret true)
                         [example_question])
    by (constructor; [reflexivity|constructor]).
  assert (Hbad : valid_question short_options_question <> ret true)
    by (vm_compute; discriminate).
  split; [apply sample_reply|]. split; [reflexivity|].
  split; [reflexivity|]. split; [exact Hgood|]. split; [exact Hbad|].
  exact (first_failing_element_decides
           PdfJsPlainRev sample_libs (replying mixed_array)
           (sample_state pdf_file) mixed_array mixed_array
           [example_question] short_options_question [JNull]
           (sample_reply mixed_array) eq_refl eq_refl Hgood Hbad).
Defined.

(** *** The prompt *)

(** X5: the prompt carries the extracted text whole and unchanged: it is a
    head that depends on the settings only, then the text, then one
    newline. Hence two different texts never give the same prompt. *)
Theorem prompt_embeds_text_verbatim (s : QuizSettingsData) :
  (exists head, forall text,
       systemPrompt s text = head ++ text ++ newline)
  /\ (forall text1 text2,
         systemPrompt s text1 = systemPrompt s text2 -> text1 = text2).
Proof.
  assert (H : exists head, forall text,
               systemPrompt s text = head ++ text ++ newline).
  { eexists. intros text. unfold systemPrompt. cbn [map concat].
    rewrite app_nil_r. rewrite !app_assoc. reflexivity. }
  split; [exact H|].
  destruct H as [head H]. intros text1 text2 Heq.
  rewrite !H in Heq. apply app_inv_head in Heq.
  now apply app_inv_tail in Heq.
Qed.

(** *** Bodies and arrays that do not parse *)

(** X8: a 2xx response whose body is not JSON fails the run with the
    rejection of [response.json()], after the one request and the one
    read; nothing is retried. *)
Theorem unparsable_body_is_malformed_response
        (r : revision) (L : Libs) (net : Network) (st : State)
        (file : File) (ev : list event) (text : jsstring)
        (response : Response) :
  isReadyToGenerate st = true ->
  selectedFile st = Some file ->
  extractTextFromFile L r file = (ev, inr text) ->
  nonempty (trim text) = true ->
  net (endpoint (apiKey st)) (systemPrompt (settings st) text)
  = Some response ->
  ok response = true ->
  json_body response = None ->
  outcome_of (run r L net st) = Failed BodyNotJson
  /\ kind_of BodyNotJson = MalformedResponse
  /\ requests (run r L net st) = 1.
Proof.
  intros Hready Hfile Hext Hne Hnet Hok Hbody.
  assert (Ho : outcome_of (run r L net st) = Failed BodyNotJson).
  { rewrite (outcome_of_run r L net st file Hready Hfile).
    unfold generateQuiz_try. rewrite Hext. quiz_steps.
    rewrite Hne. quiz_steps. rewrite Hnet. quiz_steps.
    rewrite Hok. quiz_steps. now rewrite Hbody. }
  split; [exact Ho|]. split; [reflexivity|].
  destruct (run_measures r L net st file Hready Hfile)
    as (rest & Htail & _ & _ & Hfilter).
  unfold requests.
  rewrite (Hfilter is_fetch (fun _ _ => eq_refl) eq_refl).
  rewrite Hext in Htail. cbn [snd] in Htail.
  destruct Htail as [e Hres|t Hres Hb|t e Hres _ He
                     |t response0 e Hres _ Hn _ Hk
                     |t response0 questions Hres _ Hn _ _];
    try discriminate; inversion Hres; subst t; try congruence;
    try reflexivity.
Qed.

(** X8 on an endpoint that answers 200 with a body that is not JSON. *)
Lemma unparsable_body_is_malformed_response_witness :
  isReadyToGenerate (sample_state pdf_file) = true
  /\ ok (mkResponse 200 (js "OK") None) = true
  /\ json_body (mkResponse 200 (js "OK") None) = None
  /\ outcome_of (run PdfJsPlainRev sample_libs
                     (fun _ _ => Some (mkResponse 200 (js "OK") None))
                     (sample_state pdf_file))
     = Failed BodyNotJson.
Proof.
  destruct (unparsable_body_is_malformed_response
              PdfJsPlainRev sample_libs
              (fun _ _ => Some (mkResponse 200 (js "OK") None))
              (sample_state pdf_file) pdf_file []
              (js "Hello there" ++ newline ++ js "World")
              (mkResponse 200 (js "OK") None)
              eq_refl eq_refl eq_refl eq_refl eq_refl eq_refl eq_refl)
    as (Ho & _ & _).
  repeat split; assumption.
Defined.

(** X13: when the located text is not JSON (a trailing comma, single
    quotes, prose between the brackets), the SyntaxError of [JSON.parse]
    ends the run; no partial result is built from it. *)
Theorem unparsable_array_is_malformed_response
        (r : revision) (L : Libs) (net : Network) (st : State)
        (text m : jsstring) :
  reply_text_is r L net st text ->
  match_array text = Some m ->
  JSON_parse m = None ->
  outcome_of (run r L net st) = Failed JsonSyntaxError
  /\ kind_of JsonSyntaxError = MalformedResponse.
Proof.
  intros Hreply Hm Hp. split; [|reflexivity].
  rewrite (reply_outcome_run r L net st text Hreply).
  unfold reply_outcome.
  now rewrite (match_array_nonempty text m Hm), Hm, Hp.
Qed.

(** X13 on an array with a trailing comma. *)
Lemma unparsable_array_is_malformed_response_witness :
  reply_text_is PdfJsPlainRev sample_libs (replying (js "[1,2,]"))
                (sample_state pdf_file) (js "[1,2,]")
  /\ match_array (js "[1,2,]") = Some (js "[1,2,]")
  /\ JSON_parse (js "[1,2,]") = None
  /\ outcome_of (run PdfJsPlainRev sample_libs (replying (js "[1,2,]"))
                     (sample_state pdf_file))
     = Failed JsonSyntaxError.
Proof.
  split; [apply sample_reply|]. split; [reflexivity|].
  split; [reflexivity|].
  exact (proj1 (unparsable_array_is_malformed_response
                  PdfJsPlainRev sample_libs (replying (js "[1,2,]"))
                  (sample_state pdf_file) (js "[1,2,]") (js "[1,2,]")
                  (sample_reply _) eq_refl eq_refl)).
Defined.
